(** * User-level thread runtime of OS-Projects (A1/thread.c and A2/thread.c)

    A shallow embedding of the two versions of the thread library:

    - [A1]: the list-based runtime of [A1/thread.c]; every thread control
      block sits on one singly linked chain that starts at [current_thread];
    - [A2]: the table-based half of [A2/thread.c] ([thread_init],
      [thread_create], [thread_yield], [thread_exit], [thread_kill]): an
      array of control blocks, a ready queue of [ready_node]s and the
      interrupt gate;
    - [A2L]: the wait-queue half of [A2/thread.c] ([wait_queue_create],
      [wait_queue_destroy], [thread_sleep], [thread_wakeup]), which is still
      written against control blocks linked through [next] pointers.

    A call into the library is a function from the runtime state to an
    [outcome]: the call returns to the running thread, or control leaves
    through [setcontext], or the process exits.  [getcontext] returns
    twice; the code behind it is a function of its own, run once when the
    context is captured and once more by [resume] when [setcontext] is
    called on that context.

    The models come first, then sample states, then the lemmas about each
    runtime, then the claims C1 to C10, then further properties X1 to X18
    of the same functions. *)

From stdpp Require Import base tactics option list gmap.
From Stdlib Require Import ZArith Lia.

Local Open Scope Z_scope.

(** ** [thread.h]

    The header is not part of the source tree.  Its constants are taken as
    parameters: the capacity of the runtime, the two sentinels accepted by
    [thread_yield] and the failure results.  [Tid] is [int]; the failure
    results and sentinels are negative, thread identifiers are not. *)
Class thread_h := {
  THREAD_MAX_THREADS : Z;
  THREAD_ANY : Z;
  THREAD_SELF : Z;
  THREAD_INVALID : Z;
  THREAD_NONE : Z;
  THREAD_NOMORE : Z;
  THREAD_NOMEMORY : Z;
  THREAD_FAILED : Z;
  max_threads_range : 0 < THREAD_MAX_THREADS < 2 ^ 31;
  any_range : - 2 ^ 31 <= THREAD_ANY < 0;
  self_range : - 2 ^ 31 <= THREAD_SELF < 0;
  invalid_range : - 2 ^ 31 <= THREAD_INVALID < 0;
  none_range : - 2 ^ 31 <= THREAD_NONE < 0;
  nomore_range : - 2 ^ 31 <= THREAD_NOMORE < 0;
  nomemory_range : - 2 ^ 31 <= THREAD_NOMEMORY < 0;
  failed_range : - 2 ^ 31 <= THREAD_FAILED < 0;
  any_not_self : THREAD_ANY <> THREAD_SELF;
}.

(** One setting of the constants (capacity 1024, sentinels -1 and -2,
    failure results -3 to -7), used for concrete runs. *)
#[refine] Instance csc369_thread_h : thread_h := {|
  THREAD_MAX_THREADS := 1024;
  THREAD_ANY := -1;
  THREAD_SELF := -2;
  THREAD_INVALID := -3;
  THREAD_NONE := -4;
  THREAD_NOMORE := -5;
  THREAD_NOMEMORY := -6;
  THREAD_FAILED := -7;
|}.
Proof. all: lia. Defined.

(** [(unsigned int) z] for an [int] [z]. *)
Definition to_unsigned (z : Z) : Z := z mod 2 ^ 32.

(** * A2: the table-based runtime *)
Module A2.

(** A saved [ucontext_t], by the place execution continues from when
    [setcontext] is called on it, with the locals that are live there. *)
Inductive ucontext :=
| Uninit
    (* never written by getcontext *)
| Bootstrap (fn parg : Z)
    (* thread_create: RIP = &thread_stub, RDI = fn, RSI = parg *)
| InYield (want_tid : Z) (enabled : bool).
    (* getcontext in thread_yield; want_tid and enabled are its locals *)

(** [struct thread]. Pointers are addresses, [None] is [NULL]. *)
Record thread := mk_thread {
  TID : Z;
  thread_stack : option Z;
  wait_q : option Z;
  state : Z;
  context : ucontext;
}.

(** The globals of the file, the interrupt flag kept by the interrupt
    facility, and the results of the [malloc369] calls still to come
    ([None] is a failed allocation; an empty list means no memory is left).
    [ready_head] is the chain of [ready_node]s, shown by their [tid]s;
    [to_free_2] holds an unlinked [ready_node], shown the same way. *)
Record runtime := mk_runtime {
  current_thread : Z;
  threads : list thread;
  to_free_1 : option Z;
  to_free_2 : option Z;
  ready_head : list Z;
  interrupts_enabled : bool;
  heap369 : list (option Z);
}.

Definition set_current_thread (c : Z) (st : runtime) : runtime :=
  mk_runtime c (threads st) (to_free_1 st) (to_free_2 st) (ready_head st)
    (interrupts_enabled st) (heap369 st).
Definition set_threads (ts : list thread) (st : runtime) : runtime :=
  mk_runtime (current_thread st) ts (to_free_1 st) (to_free_2 st)
    (ready_head st) (interrupts_enabled st) (heap369 st).
Definition set_to_free_1 (p : option Z) (st : runtime) : runtime :=
  mk_runtime (current_thread st) (threads st) p (to_free_2 st) (ready_head st)
    (interrupts_enabled st) (heap369 st).
Definition set_to_free_2 (p : option Z) (st : runtime) : runtime :=
  mk_runtime (current_thread st) (threads st) (to_free_1 st) p (ready_head st)
    (interrupts_enabled st) (heap369 st).
Definition set_ready_head (q : list Z) (st : runtime) : runtime :=
  mk_runtime (current_thread st) (threads st) (to_free_1 st) (to_free_2 st) q
    (interrupts_enabled st) (heap369 st).
Definition set_interrupts_enabled (b : bool) (st : runtime) : runtime :=
  mk_runtime (current_thread st) (threads st) (to_free_1 st) (to_free_2 st)
    (ready_head st) b (heap369 st).
Definition set_heap369 (h : list (option Z)) (st : runtime) : runtime :=
  mk_runtime (current_thread st) (threads st) (to_free_1 st) (to_free_2 st)
    (ready_head st) (interrupts_enabled st) h.

Definition set_TID (v : Z) (t : thread) : thread :=
  mk_thread v (thread_stack t) (wait_q t) (state t) (context t).
Definition set_thread_stack (p : option Z) (t : thread) : thread :=
  mk_thread (TID t) p (wait_q t) (state t) (context t).
Definition set_wait_q (p : option Z) (t : thread) : thread :=
  mk_thread (TID t) (thread_stack t) p (state t) (context t).
Definition set_state (v : Z) (t : thread) : thread :=
  mk_thread (TID t) (thread_stack t) (wait_q t) v (context t).
Definition set_context (c : ucontext) (t : thread) : thread :=
  mk_thread (TID t) (thread_stack t) (wait_q t) (state t) c.

(** Static storage starts zeroed. *)
Definition zero_thread : thread := mk_thread 0 None None 0 Uninit.

(** [threads[i]], read and updated in place.  Every access in the source is
    behind a range check or uses an index the library produced itself. *)
Definition slot (ts : list thread) (i : Z) : thread :=
  default zero_thread (ts !! Z.to_nat i).
Definition update_slot (i : Z) (f : thread -> thread) (st : runtime) : runtime :=
  set_threads (alter f (Z.to_nat i) (threads st)) st.

(** What a library call does to the thread that made it. *)
Inductive outcome :=
| Return (v : Z) (st : runtime)
    (* the call returns v to the code of thread current_thread *)
| CallMain (fn parg : Z) (st : runtime)
    (* thread_stub calls thread_main(arg): user code of a new thread starts *)
| Setcontext (st : runtime)
    (* setcontext(&threads[current_thread].context) *)
| Exit (code : Z)
    (* exit(code): the process is gone *)
| Diverges.
    (* a loop of the model ran out of budget *)

(** Modelled from the spec: the interrupt-control facility ([interrupt.h])
    is not in the source.  It is "a process-wide enable/disable gate" with
    "save/restore of the asynchronous-interrupt enabled flag":
    [interrupts_set] installs a flag and hands back the previous one,
    [interrupts_off] and [interrupts_on] are its two constant uses. *)
Definition interrupts_set (enabled : bool) (st : runtime) : bool * runtime :=
  (interrupts_enabled st, set_interrupts_enabled enabled st).
Definition interrupts_off (st : runtime) : bool * runtime :=
  interrupts_set false st.
Definition interrupts_on (st : runtime) : bool * runtime :=
  interrupts_set true st.

(** Modelled from the spec: [malloc369]/[free369] ([malloc369.h]) are not in
    the source.  An allocation can fail ("on allocation failure, fails with
    out-of-memory"); its result is the next entry of [heap369].  Freeing
    leaves the runtime state as it is. *)
Definition malloc369 (st : runtime) : option Z * runtime :=
  match heap369 st with
  | [] => (None, st)
  | r :: h => (r, set_heap369 h st)
  end.
Definition free369 (st : runtime) : runtime := st.

Definition free_stuff (st : runtime) : runtime :=
  let st := match to_free_1 st with
            | Some _ => set_to_free_1 None (free369 st)
            | None => st
            end in
  match to_free_2 st with
  | Some _ => set_to_free_2 None (free369 st)
  | None => st
  end.

(** [ready_enqueue]: the pair is the [int] result and the state. *)
Definition ready_enqueue (tid : Z) (st : runtime) : Z * runtime :=
  match malloc369 st with
  | (None, st) => (1, st)
  | (Some _, st) => (0, set_ready_head (ready_head st ++ [tid]) st)
  end.

Section WithHeader.
Context `{thread_h}.

Definition thread_init (st : runtime) : runtime :=
  let st :=
    foldl (fun st i =>
             update_slot i
               (fun t => set_wait_q None (set_state 0 (set_TID i t))) st)
          st (seqZ 0 THREAD_MAX_THREADS) in
  let st := set_current_thread 0 st in
  update_slot 0 (set_state 1) st.

Definition thread_id (st : runtime) : Z := current_thread st.

(** The slot search of [thread_create]. *)
Inductive scan := Found (new_tid : Z) | NoMore | Spin.

Fixpoint find_free (budget : nat) (ts : list thread) (new_tid : Z) : scan :=
  if state (slot ts new_tid) =? 0 then Found new_tid
  else match budget with
       | O => Spin
       | S budget =>
           let new_tid := new_tid + 1 in
           if new_tid =? THREAD_MAX_THREADS then NoMore
           else find_free budget ts new_tid
       end.

Definition thread_create (fn parg : Z) (st : runtime) : outcome :=
  let '(enabled, st) := interrupts_off st in
  match find_free (Z.to_nat THREAD_MAX_THREADS) (threads st) 0 with
  | Spin => Diverges
  | NoMore => Return THREAD_NOMORE st
  | Found new_tid =>
      let st := update_slot new_tid (set_TID new_tid) st in
      let st := update_slot new_tid (set_state 1) st in
      let '(stack, st) := malloc369 st in
      let st := update_slot new_tid (set_thread_stack stack) st in
      match stack with
      | None => Return THREAD_NOMEMORY st
      | Some _ =>
          let st := update_slot new_tid (set_context (Bootstrap fn parg)) st in
          let '(failed, st) := ready_enqueue new_tid st in
          if negb (failed =? 0) then
            let st := free369 st in
            let st := update_slot new_tid (set_state 0) st in
            Return THREAD_NOMEMORY st
          else
            let '(_, st) := interrupts_set enabled st in
            Return new_tid st
      end
  end.

(** [thread_exit]. *)
Definition thread_exit (exit_code : Z) (st : runtime) : outcome :=
  let '(_, st) := interrupts_off st in
  let st := update_slot (current_thread st) (set_state 0) st in
  match ready_head st with
  | [] => let st := free_stuff st in Exit exit_code
  | node :: rest =>
      let st :=
        if negb (TID (slot (threads st) (current_thread st)) =? 0)
        then set_to_free_1 (thread_stack (slot (threads st) (current_thread st))) st
        else st in
      let st := set_current_thread node st in
      let st := set_to_free_2 (Some node) st in
      let st := set_ready_head rest st in
      Setcontext st
  end.

(** The part of [thread_yield] from [free_stuff()] on.  [getcontext]
    returns twice: this code runs once when the context is captured and
    once more each time the context is resumed. *)
Definition yield_from_getcontext (want_tid : Z) (enabled : bool)
    (st : runtime) : outcome :=
  let st := free_stuff st in
  if state (slot (threads st) (current_thread st)) =? 3 then
    thread_exit 0 st
  else if state (slot (threads st) (current_thread st)) =? 2 then
    let st := update_slot (current_thread st) (set_state 1) st in
    let '(_, st) := interrupts_set enabled st in
    Return want_tid st
  else
    let st := update_slot (current_thread st) (set_state 2) st in
    let st := set_current_thread want_tid st in
    Setcontext st.

(** The search of the third branch of [thread_yield]: [rest] is the chain
    behind [curr]; the result is the unlinked node and the chain without it. *)
Fixpoint unlink (want_tid : Z) (rest : list Z) : option (Z * list Z) :=
  match rest with
  | [] => None
  | node :: rest =>
      if node =? want_tid then Some (node, rest)
      else match unlink want_tid rest with
           | Some (deleted, rest) => Some (deleted, node :: rest)
           | None => None
           end
  end.

Definition thread_yield (want_tid : Z) (st : runtime) : outcome :=
  let '(enabled, st) := interrupts_off st in
  let continue (want_tid : Z) (deleted_node : option Z) (st : runtime) :=
    let st := match deleted_node with
              | Some _ => free369 st
              | None => st
              end in
    let st := update_slot (current_thread st)
                (set_context (InYield want_tid enabled)) st in
    yield_from_getcontext want_tid enabled st in
  if (want_tid =? THREAD_ANY)
     || match ready_head st with
        | node :: _ => want_tid =? node
        | [] => false
        end
  then
    match ready_head st with
    | [] => Return THREAD_NONE st
    | node :: rest =>
        let st := set_ready_head rest st in
        let '(_, st) := ready_enqueue (thread_id st) st in
        continue node (Some node) st
    end
  else if (want_tid =? THREAD_SELF) || (want_tid =? thread_id st) then
    continue (thread_id st) None st
  else
    match ready_head st with
    | [] => Return THREAD_INVALID st
    | curr :: rest =>
        if (to_unsigned THREAD_MAX_THREADS <=? to_unsigned want_tid)
           || (state (slot (threads st) want_tid) =? 0)
        then Return THREAD_INVALID st
        else
          match unlink want_tid rest with
          | None => Return THREAD_INVALID st
          | Some (deleted, rest) =>
              let st := set_ready_head (curr :: rest) st in
              let '(_, st) := ready_enqueue (thread_id st) st in
              continue want_tid (Some deleted) st
          end
    end.

Definition thread_kill (tid : Z) (st : runtime) : outcome :=
  let '(enabled, st) := interrupts_off st in
  if (tid =? thread_id st)
     || (to_unsigned THREAD_MAX_THREADS <=? to_unsigned tid)
     || (state (slot (threads st) tid) =? 0)
  then
    let '(_, st) := interrupts_set enabled st in
    Return THREAD_INVALID st
  else
    let st := update_slot tid (set_state 0) st in
    let '(_, st) := interrupts_set enabled st in
    Return tid st.

(** [thread_stub], up to the call of [thread_main]. *)
Definition thread_stub (thread_main arg : Z) (st : runtime) : outcome :=
  let st := free_stuff st in
  let '(_, st) := interrupts_on st in
  CallMain thread_main arg st.

(** [thread_stub], from the return of [thread_main] on. *)
Definition thread_stub_return (st : runtime) : outcome :=
  let '(_, st) := interrupts_off st in
  thread_exit 0 st.

(** What [setcontext(&threads[current_thread].context)] continues with. The
    contents of a context that was never written are not defined; the model
    stays at the [Setcontext]. *)
Definition resume (st : runtime) : outcome :=
  match context (slot (threads st) (current_thread st)) with
  | Uninit => Setcontext st
  | Bootstrap fn parg => thread_stub fn parg st
  | InYield want_tid enabled => yield_from_getcontext want_tid enabled st
  end.

(** Follow control through at most [n] context switches. *)
Fixpoint run (n : nat) (o : outcome) : outcome :=
  match n, o with
  | S n, Setcontext st => run n (resume st)
  | _, _ => o
  end.

(** ** Conditions on states used in the statements below *)

(** The table has one slot per identifier. *)
Definition table_ok (st : runtime) : Prop :=
  length (threads st) = Z.to_nat THREAD_MAX_THREADS.

(** [i] is the lowest-numbered FREE slot. *)
Definition lowest_free (st : runtime) (i : Z) : Prop :=
  0 <= i < THREAD_MAX_THREADS
  /\ state (slot (threads st) i) = 0
  /\ forall j, 0 <= j < i -> state (slot (threads st) j) <> 0.

(** The state between two library calls: the table is whole, the running
    thread has an identifier of the table and is marked active, and the
    ready queue holds identifiers of the table other than the running one. *)
Definition running_ok (st : runtime) : Prop :=
  table_ok st
  /\ 0 <= current_thread st < THREAD_MAX_THREADS
  /\ state (slot (threads st) (current_thread st)) = 1
  /\ Forall (fun t => 0 <= t < THREAD_MAX_THREADS) (ready_head st)
  /\ (current_thread st ∉ ready_head st).

(** The part of it that does not look at the caller's own mark. *)
Definition ids_ok (st : runtime) : Prop :=
  table_ok st
  /\ 0 <= current_thread st < THREAD_MAX_THREADS
  /\ Forall (fun t => 0 <= t < THREAD_MAX_THREADS) (ready_head st)
  /\ (current_thread st ∉ ready_head st).

(** The caller's context once [getcontext] has written it. *)
Definition captured (want_tid : Z) (st : runtime) : runtime :=
  update_slot (current_thread st)
    (set_context (InYield want_tid (interrupts_enabled st)))
    (set_interrupts_enabled false st).

(** What the caller leaves behind when it switches away: it is marked as
    waiting and its context holds the identifier it asked for and the
    interrupt flag it entered with. *)
Definition parked (st st' : runtime) (want_tid : Z) : Prop :=
  state (slot (threads st') (current_thread st)) = 2
  /\ context (slot (threads st') (current_thread st))
     = InYield want_tid (interrupts_enabled st)
  /\ forall i, 0 <= i -> i <> current_thread st ->
               slot (threads st') i = slot (threads st) i.

(** ** Conditions used in the further statements *)

(** Nothing is waiting in [to_free_1] and [to_free_2]. *)
Definition buffer_empty (st : runtime) : Prop :=
  to_free_1 st = None /\ to_free_2 st = None.

(** The state in which user code goes on after a call, if it does. *)
Definition user_state (o : outcome) : option runtime :=
  match o with
  | Return _ st | CallMain _ _ st => Some st
  | _ => None
  end.

End WithHeader.

End A2.

(** * A1: the list-based runtime *)
Module A1.

(** A saved [ucontext_t], as in [A2]. *)
Inductive ucontext :=
| Uninit
| Bootstrap (fn parg : Z)
    (* thread_create: RIP = &thread_stub, RDI = fn, RSI = parg *)
| InYield (want_tid : Z).
    (* getcontext in thread_yield; want_tid is its local *)

(** [struct thread].  The [next] pointer is the order of the list the
    block is kept in. *)
Record thread := mk_thread {
  TID : Z;
  thread_stack : option Z;
  state : Z;
  context : ucontext;
}.

(** The globals of the file and the results of the [malloc] calls still to
    come.  [current_thread] is the block the pointer of that name points
    to, [queue] the chain of blocks behind it ([current_thread->next] and
    on).  [to_free_2] holds a dead control block. *)
Record runtime := mk_runtime {
  current_thread : thread;
  queue : list thread;
  to_free_1 : option Z;
  to_free_2 : option thread;
  heap : list (option Z);
}.

Definition set_current_thread (t : thread) (st : runtime) : runtime :=
  mk_runtime t (queue st) (to_free_1 st) (to_free_2 st) (heap st).
Definition set_queue (q : list thread) (st : runtime) : runtime :=
  mk_runtime (current_thread st) q (to_free_1 st) (to_free_2 st) (heap st).
Definition set_to_free_1 (p : option Z) (st : runtime) : runtime :=
  mk_runtime (current_thread st) (queue st) p (to_free_2 st) (heap st).
Definition set_to_free_2 (p : option thread) (st : runtime) : runtime :=
  mk_runtime (current_thread st) (queue st) (to_free_1 st) p (heap st).
Definition set_heap (h : list (option Z)) (st : runtime) : runtime :=
  mk_runtime (current_thread st) (queue st) (to_free_1 st) (to_free_2 st) h.

Definition set_TID (v : Z) (t : thread) : thread :=
  mk_thread v (thread_stack t) (state t) (context t).
Definition set_state (v : Z) (t : thread) : thread :=
  mk_thread (TID t) (thread_stack t) v (context t).
Definition set_context (c : ucontext) (t : thread) : thread :=
  mk_thread (TID t) (thread_stack t) (state t) c.

(** [main_thread] as static storage leaves it. *)
Definition zero_thread : thread := mk_thread 0 None 0 Uninit.

Inductive outcome :=
| Return (v : Z) (st : runtime)
    (* the call returns v to the code of current_thread *)
| CallMain (fn parg : Z) (st : runtime)
    (* thread_stub calls thread_main(arg): user code of a new thread starts *)
| Setcontext (st : runtime)
    (* setcontext(&(current_thread->context)) *)
| Exit (code : Z)
    (* exit(code): the process is gone *)
| Undefined
    (* control follows a pointer captured before the thread was suspended *)
| Diverges.
    (* a loop of the model ran out of budget *)

(** [malloc]: the next entry of [heap]; [free] leaves the state as it is. *)
Definition malloc (st : runtime) : option Z * runtime :=
  match heap st with
  | [] => (None, st)
  | r :: h => (r, set_heap h st)
  end.
Definition free (st : runtime) : runtime := st.

Definition free_stuff (st : runtime) : runtime :=
  let st := match to_free_1 st with
            | Some _ => set_to_free_1 None (free st)
            | None => st
            end in
  match to_free_2 st with
  | Some _ => set_to_free_2 None (free st)
  | None => st
  end.

(** [add_to_end]: walk from [current_thread] to the last block, link [t]. *)
Definition add_to_end (t : thread) (st : runtime) : runtime :=
  set_queue (queue st ++ [t]) st.

Section WithHeader.
Context `{thread_h}.

Definition thread_init (st : runtime) : runtime :=
  let st := set_current_thread (set_TID 0 (current_thread st)) st in
  let st := set_queue [] st in
  set_current_thread (set_state 1 (current_thread st)) st.

Definition thread_id (st : runtime) : Z := TID (current_thread st).

(** The identifier search of [thread_create]: the outer loop, with the
    inner walk over the chain [l] that starts at [current_thread]. *)
Inductive scan := Found (new_tid : Z) | NoMore | Spin.

Fixpoint find_tid (budget : nat) (l : list thread) (new_tid : Z) : scan :=
  match budget with
  | O => Spin
  | S budget =>
      let new_tid := new_tid + 1 in
      if new_tid =? THREAD_MAX_THREADS then NoMore
      else if existsb (fun curr => TID curr =? new_tid) l
           then find_tid budget l new_tid
           else Found new_tid
  end.

Definition thread_create (fn parg : Z) (st : runtime) : outcome :=
  match find_tid (Z.to_nat THREAD_MAX_THREADS)
          (current_thread st :: queue st) 0 with
  | Spin => Diverges
  | NoMore => Return THREAD_NOMORE st
  | Found new_tid =>
      match malloc st with
      | (None, st) => Return THREAD_NOMEMORY st
      | (Some _, st) =>
          match malloc st with
          | (None, st) => Return THREAD_NOMEMORY (free st)
          | (Some stack, st) =>
              let new_thread :=
                mk_thread new_tid (Some stack) 1 (Bootstrap fn parg) in
              Return new_tid (add_to_end new_thread st)
          end
      end
  end.

Definition thread_exit (exit_code : Z) (st : runtime) : outcome :=
  if TID (current_thread st) =? 0 then
    match queue st with
    | [] => let st := free_stuff st in Exit exit_code
    | next :: rest => Setcontext (set_queue rest (set_current_thread next st))
    end
  else
    let st := set_to_free_1 (thread_stack (current_thread st)) st in
    let st := set_to_free_2 (Some (current_thread st)) st in
    match queue st with
    | [] => let st := free_stuff st in Exit exit_code
    | next :: rest => Setcontext (set_queue rest (set_current_thread next st))
    end.

(** The part of [thread_yield] from [free_stuff()] on; it runs when the
    context is captured and again each time the context is resumed.

    [wanted] is the local pointer of that name.  When the call captures its
    context it is [Some before]: the blocks from [*wanted] up to, and
    without, the caller ([[]] when [wanted] is the caller itself); behind
    the caller comes [queue st].  On a later resumption the pointer is
    whatever it was back then and the model does not follow it ([None]). *)
Definition yield_from_getcontext (want_tid : Z) (wanted : option (list thread))
    (st : runtime) : outcome :=
  let st := free_stuff st in
  if state (current_thread st) =? 3 then
    thread_exit 0 st
  else if state (current_thread st) =? 2 then
    let st := set_current_thread (set_state 1 (current_thread st)) st in
    Return want_tid st
  else
    let st := set_current_thread (set_state 2 (current_thread st)) st in
    match wanted with
    | None => Undefined
    | Some [] => Setcontext st
    | Some (w :: before) =>
        Setcontext
          (set_queue (before ++ current_thread st :: queue st)
             (set_current_thread w st))
    end.

(** The search of the third branch of [thread_yield] in the chain behind
    [curr]: the block found and the chain without it. *)
Fixpoint unlink (want_tid : Z) (rest : list thread)
    : option (thread * list thread) :=
  match rest with
  | [] => None
  | t :: rest =>
      if TID t =? want_tid then Some (t, rest)
      else match unlink want_tid rest with
           | Some (wanted, rest) => Some (wanted, t :: rest)
           | None => None
           end
  end.

Definition thread_yield (want_tid : Z) (st : runtime) : outcome :=
  let continue (want_tid : Z) (before after : list thread) :=
    (* the chain is now before ++ caller :: after *)
    let st := set_queue after st in
    let st := set_current_thread
                (set_context (InYield want_tid) (current_thread st)) st in
    yield_from_getcontext want_tid (Some before) st in
  if (want_tid =? THREAD_ANY)
     || match queue st with
        | next :: _ => want_tid =? TID next
        | [] => false
        end
  then
    match queue st with
    | [] => Return THREAD_NONE st
    | next :: rest =>
        (* wanted = next; add_to_end(current_thread); current_thread->next = NULL *)
        continue (TID next) (next :: rest) []
    end
  else if (want_tid =? THREAD_SELF) || (want_tid =? thread_id st) then
    continue (thread_id st) [] (queue st)
  else
    match queue st with
    | [] => Return THREAD_INVALID st
    | curr :: rest =>
        if to_unsigned THREAD_MAX_THREADS <=? to_unsigned want_tid
        then Return THREAD_INVALID st
        else
          match unlink want_tid rest with
          | None => Return THREAD_INVALID st
          | Some (wanted, rest) =>
              (* wanted->next = current_thread->next;
                 add_to_end(current_thread); current_thread->next = NULL *)
              continue want_tid (wanted :: curr :: rest) []
          end
    end.

(** The walk of [thread_kill] over the chain behind [current_thread]. *)
Fixpoint mark_killed (tid : Z) (l : list thread) : option (list thread) :=
  match l with
  | [] => None
  | curr :: l =>
      if TID curr =? tid then Some (set_state 3 curr :: l)
      else match mark_killed tid l with
           | Some l => Some (curr :: l)
           | None => None
           end
  end.

Definition thread_kill (tid : Z) (st : runtime) : outcome :=
  match mark_killed tid (queue st) with
  | Some q => Return tid (set_queue q st)
  | None => Return THREAD_INVALID st
  end.

(** [thread_stub], up to the call of [thread_main]. *)
Definition thread_stub (thread_main arg : Z) (st : runtime) : outcome :=
  let st := free_stuff st in
  CallMain thread_main arg st.

(** [thread_stub], from the return of [thread_main] on. *)
Definition thread_stub_return (st : runtime) : outcome :=
  thread_exit 0 st.

(** What [setcontext(&(current_thread->context))] continues with. *)
Definition resume (st : runtime) : outcome :=
  match context (current_thread st) with
  | Uninit => Setcontext st
  | Bootstrap fn parg => thread_stub fn parg st
  | InYield want_tid => yield_from_getcontext want_tid None st
  end.

(** Follow control through at most [n] context switches. *)
Fixpoint run (n : nat) (o : outcome) : outcome :=
  match n, o with
  | S n, Setcontext st => run n (resume st)
  | _, _ => o
  end.

(** ** Conditions on states used in the statements below *)

(** The identifiers held by the blocks of a chain. *)
Definition tids (l : list thread) : list Z := map TID l.

(** The state between two library calls: the running thread is marked
    active, identifiers are within the capacity and no two blocks on the
    chain share one. *)
Definition running_ok (st : runtime) : Prop :=
  state (current_thread st) = 1
  /\ Forall (fun t => 0 <= TID t < THREAD_MAX_THREADS)
       (current_thread st :: queue st)
  /\ NoDup (tids (current_thread st :: queue st)).

(** The part of it that does not look at the caller's own mark. *)
Definition ids_ok (st : runtime) : Prop :=
  Forall (fun t => 0 <= TID t < THREAD_MAX_THREADS)
    (current_thread st :: queue st)
  /\ NoDup (tids (current_thread st :: queue st)).

(** [v] is the smallest identifier from 1 on that no block of [l] holds. *)
Definition lowest_unused (l : list thread) (v : Z) : Prop :=
  1 <= v < THREAD_MAX_THREADS
  /\ (v ∉ tids l)
  /\ forall i, 1 <= i < v -> i ∈ tids l.

(** The caller as it is left behind by a switch: marked as waiting, its
    context holding the identifier it asked for. *)
Definition parked (want_tid : Z) (t : thread) : thread :=
  set_state 2 (set_context (InYield want_tid) t).

(** ** Conditions and runs used in the further statements *)

(** The run order: the running block and the chain behind it. *)
Definition chain (st : runtime) : list thread :=
  current_thread st :: queue st.

(** A queued block that can be switched to: it has not started yet, or it
    is parked in [thread_yield]. *)
Definition startable (t : thread) : Prop :=
  (state t = 1 /\ exists fn parg, context t = Bootstrap fn parg)
  \/ (state t = 2 /\ exists w, context t = InYield w).

Definition round_ok (st : runtime) : Prop :=
  running_ok st /\ Forall startable (queue st).

(** Nothing is waiting in [to_free_1] and [to_free_2]. *)
Definition buffer_empty (st : runtime) : Prop :=
  to_free_1 st = None /\ to_free_2 st = None.

(** The state in which user code goes on after a call, if it does. *)
Definition user_state (o : outcome) : option runtime :=
  match o with
  | Return _ st | CallMain _ _ st => Some st
  | _ => None
  end.

(** The running thread calls [thread_yield(THREAD_ANY)]; the state is the
    one user code goes on in. *)
Definition yield_any (st : runtime) : runtime :=
  default st (user_state (run 1 (thread_yield THREAD_ANY st))).

End WithHeader.

End A1.

(** * A2L: wait queues, [thread_sleep] and [thread_wakeup]

    These functions of [A2/thread.c] follow [current_thread->next] and hand
    control blocks to a two-argument [add_to_end]: they work on control
    blocks linked through [next] pointers, as declared in [A1/thread.c], and
    a wait queue and the run chain can come to share blocks.  Memory is
    therefore explicit here: blocks and wait queues live at addresses. *)
Module A2L.

Inductive ucontext :=
| Uninit
| Bootstrap (fn parg : Z)
| InSleep (ret : Z) (enabled : bool) (new_head : Z).
    (* getcontext in thread_sleep; ret, enabled and new_head are its locals *)

(** [struct thread] with the [next] pointer these functions use. *)
Record thread := mk_thread {
  TID : Z;
  thread_stack : option Z;
  next : option Z;
  state : Z;
  context : ucontext;
}.

Record wait_queue := mk_wait_queue {
  head : option Z;
}.

(** [current_thread] is the address of the running block, [blocks] and
    [wait_queues] are the objects in memory by address. *)
Record machine := mk_machine {
  current_thread : Z;
  blocks : gmap Z thread;
  wait_queues : gmap Z wait_queue;
  to_free_1 : option Z;
  to_free_2 : option Z;
  interrupts_enabled : bool;
  heap369 : list (option Z);
}.

Definition set_current_thread (c : Z) (m : machine) : machine :=
  mk_machine c (blocks m) (wait_queues m) (to_free_1 m) (to_free_2 m)
    (interrupts_enabled m) (heap369 m).
Definition set_blocks (b : gmap Z thread) (m : machine) : machine :=
  mk_machine (current_thread m) b (wait_queues m) (to_free_1 m) (to_free_2 m)
    (interrupts_enabled m) (heap369 m).
Definition set_wait_queues (w : gmap Z wait_queue) (m : machine) : machine :=
  mk_machine (current_thread m) (blocks m) w (to_free_1 m) (to_free_2 m)
    (interrupts_enabled m) (heap369 m).
Definition set_to_free_1 (p : option Z) (m : machine) : machine :=
  mk_machine (current_thread m) (blocks m) (wait_queues m) p (to_free_2 m)
    (interrupts_enabled m) (heap369 m).
Definition set_to_free_2 (p : option Z) (m : machine) : machine :=
  mk_machine (current_thread m) (blocks m) (wait_queues m) (to_free_1 m) p
    (interrupts_enabled m) (heap369 m).
Definition set_interrupts_enabled (b : bool) (m : machine) : machine :=
  mk_machine (current_thread m) (blocks m) (wait_queues m) (to_free_1 m)
    (to_free_2 m) b (heap369 m).
Definition set_heap369 (h : list (option Z)) (m : machine) : machine :=
  mk_machine (current_thread m) (blocks m) (wait_queues m) (to_free_1 m)
    (to_free_2 m) (interrupts_enabled m) h.

Definition set_next (p : option Z) (t : thread) : thread :=
  mk_thread (TID t) (thread_stack t) p (state t) (context t).
Definition set_state (v : Z) (t : thread) : thread :=
  mk_thread (TID t) (thread_stack t) (next t) v (context t).
Definition set_context (c : ucontext) (t : thread) : thread :=
  mk_thread (TID t) (thread_stack t) (next t) (state t) c.

Inductive outcome :=
| Return (v : Z) (m : machine)
    (* the call returns v to the code of the running thread *)
| Done (m : machine)
    (* a void function returns *)
| CallMain (fn parg : Z) (m : machine)
    (* thread_stub calls thread_main(arg) *)
| Setcontext (m : machine)
    (* setcontext(&(current_thread->context)) *)
| ThreadExit (exit_code : Z) (m : machine)
    (* thread_exit(exit_code) is entered *)
| Abort
    (* an assert failed *)
| Fault
    (* a pointer to no object was followed *)
| Diverges.
    (* a walk went on for longer than there are blocks: the chain is a cycle *)

(** Modelled from the spec: the interrupt-control facility is not in the
    source; "save/restore of the asynchronous-interrupt enabled flag". *)
Definition interrupts_set (enabled : bool) (m : machine) : bool * machine :=
  (interrupts_enabled m, set_interrupts_enabled enabled m).
Definition interrupts_off (m : machine) : bool * machine :=
  interrupts_set false m.
Definition interrupts_on (m : machine) : bool * machine :=
  interrupts_set true m.

(** Modelled from the spec: [malloc369]/[free369] are not in the source.  An
    allocation yields the next entry of [heap369]; a freed object is gone
    from memory. *)
Definition malloc369 (m : machine) : option Z * machine :=
  match heap369 m with
  | [] => (None, m)
  | r :: h => (r, set_heap369 h m)
  end.
Definition free369 (p : Z) (m : machine) : machine :=
  set_blocks (delete p (blocks m)) m.

Definition free_stuff (m : machine) : machine :=
  let m := match to_free_1 m with
           | Some p => set_to_free_1 None (free369 p m)
           | None => m
           end in
  match to_free_2 m with
  | Some p => set_to_free_2 None (free369 p m)
  | None => m
  end.

(** The result of a walk along [next] pointers. *)
Inductive walk (A : Type) :=
| Walked (a : A)
| BadPointer
| Cycle.
Arguments Walked {A} a.
Arguments BadPointer {A}.
Arguments Cycle {A}.

(** Modelled from the spec: the two-argument [add_to_end] is not in the
    source.  [thread_sleep] "appends it to queue" and [thread_wakeup] "moves
    it to the ready-queue tail" through it: as the one-argument [add_to_end]
    of [A1/thread.c] does from [current_thread], it walks from [head] to the
    last block of the chain and links [t] behind it. *)
Fixpoint add_to_end_from (budget : nat) (head t : Z) (b : gmap Z thread)
    : walk (gmap Z thread) :=
  match budget with
  | O => Cycle
  | S budget =>
      match b !! head with
      | None => BadPointer
      | Some curr =>
          match next curr with
          | None => Walked (<[head := set_next (Some t) curr]> b)
          | Some n => add_to_end_from budget n t b
          end
      end
  end.

Definition add_to_end (head t : Z) (b : gmap Z thread) : walk (gmap Z thread) :=
  add_to_end_from (size b) head t b.

(** The counting loop of [thread_wakeup]. *)
Fixpoint count_from (budget : nat) (curr : option Z) (b : gmap Z thread)
    (num : Z) : walk Z :=
  match curr with
  | None => Walked num
  | Some p =>
      match budget with
      | O => Cycle
      | S budget =>
          match b !! p with
          | None => BadPointer
          | Some t => count_from budget (next t) b (num + 1)
          end
      end
  end.

Definition of_walk {A} (w : walk A) (k : A -> outcome) : outcome :=
  match w with
  | Walked a => k a
  | BadPointer => Fault
  | Cycle => Diverges
  end.

Section WithHeader.
Context `{thread_h}.

Definition wait_queue_create (m : machine) : outcome :=
  match malloc369 m with
  | (None, m) => Abort
  | (Some wq, m) =>
      Return wq (set_wait_queues (<[wq := mk_wait_queue None]> (wait_queues m)) m)
  end.

Definition wait_queue_destroy (wq : Z) (m : machine) : outcome :=
  match wait_queues m !! wq with
  | None => Fault
  | Some q =>
      match head q with
      | Some _ => Abort
      | None => Done (set_wait_queues (delete wq (wait_queues m)) m)
      end
  end.

(** The part of [thread_sleep] from [free_stuff()] on; it runs when the
    context is captured and again when the context is resumed. *)
Definition sleep_from_getcontext (ret : Z) (enabled : bool) (new_head : Z)
    (m : machine) : outcome :=
  let m := free_stuff m in
  match blocks m !! current_thread m with
  | None => Fault
  | Some cur =>
      if state cur =? 3 then ThreadExit 0 m
      else if state cur =? 2 then
        let m := set_blocks (<[current_thread m := set_state 1 cur]> (blocks m)) m in
        let '(_, m) := interrupts_set enabled m in
        Return ret m
      else
        let m := set_blocks (<[current_thread m := set_state 2 cur]> (blocks m)) m in
        let m := set_current_thread new_head m in
        Setcontext m
  end.

Definition thread_sleep (queue : option Z) (m : machine) : outcome :=
  match queue with
  | None => Return THREAD_INVALID m
  | Some queue =>
      let '(enabled, m) := interrupts_off m in
      match blocks m !! current_thread m with
      | None => Fault
      | Some cur =>
          match next cur with
          | None =>
              let '(_, m) := interrupts_set enabled m in
              Return THREAD_NONE m
          | Some new_head =>
              let cur := set_next None cur in
              let m := set_blocks (<[current_thread m := cur]> (blocks m)) m in
              match wait_queues m !! queue with
              | None => Fault
              | Some q =>
                  let enqueued :=
                    match head q with
                    | None =>
                        Walked
                          (set_wait_queues
                             (<[queue := mk_wait_queue (Some (current_thread m))]>
                                (wait_queues m)) m)
                    | Some h =>
                        match add_to_end h (current_thread m) (blocks m) with
                        | Walked b => Walked (set_blocks b m)
                        | BadPointer => BadPointer
                        | Cycle => Cycle
                        end
                    end in
                  of_walk enqueued (fun m =>
                    match blocks m !! new_head with
                    | None => Fault
                    | Some nh =>
                        let ret := TID nh in
                        match blocks m !! current_thread m with
                        | None => Fault
                        | Some cur =>
                            let m :=
                              set_blocks
                                (<[current_thread m :=
                                     set_context (InSleep ret enabled new_head) cur]>
                                   (blocks m)) m in
                            sleep_from_getcontext ret enabled new_head m
                        end
                    end)
              end
          end
      end
  end.

Definition thread_wakeup (queue : option Z) (all : Z) (m : machine) : outcome :=
  match queue with
  | None => Return 0 m
  | Some queue =>
      match wait_queues m !! queue with
      | None => Fault
      | Some q =>
          match head q with
          | None => Return 0 m
          | Some h =>
              let '(enabled, m) := interrupts_off m in
              if negb (all =? 0) then
                of_walk (add_to_end (current_thread m) h (blocks m)) (fun b =>
                  let m := set_blocks b m in
                  of_walk (count_from (size (blocks m)) (Some h) (blocks m) 0)
                    (fun num =>
                       let '(_, m) := interrupts_set enabled m in
                       Return num m))
              else
                match blocks m !! h with
                | None => Fault
                | Some first =>
                    let new_head := next first in
                    let m := set_blocks (<[h := set_next None first]> (blocks m)) m in
                    of_walk (add_to_end (current_thread m) h (blocks m)) (fun b =>
                      let m := set_blocks b m in
                      let m := set_wait_queues
                                 (<[queue := mk_wait_queue new_head]>
                                    (wait_queues m)) m in
                      let '(_, m) := interrupts_set enabled m in
                      Return 1 m)
                end
          end
      end
  end.

(** [thread_stub], up to the call of [thread_main]. *)
Definition thread_stub (thread_main arg : Z) (m : machine) : outcome :=
  let m := free_stuff m in
  let '(_, m) := interrupts_on m in
  CallMain thread_main arg m.

(** What [setcontext(&(current_thread->context))] continues with. *)
Definition resume (m : machine) : outcome :=
  match blocks m !! current_thread m with
  | None => Fault
  | Some cur =>
      match context cur with
      | Uninit => Setcontext m
      | Bootstrap fn parg => thread_stub fn parg m
      | InSleep ret enabled new_head =>
          sleep_from_getcontext ret enabled new_head m
      end
  end.

End WithHeader.

(** The blocks reached from [p] along [next], in order, up to [NULL]. *)
Fixpoint chain (b : gmap Z thread) (p : option Z) (l : list Z) : Prop :=
  match l with
  | [] => p = None
  | x :: l => p = Some x /\ exists t, b !! x = Some t /\ chain b (next t) l
  end.



(** The run chain [rc] starts at the caller, the wait queue at [queue]
    holds the chain [ws], and the two share no block. *)
Record wakeup_ready (m : machine) (queue : Z) (wq : wait_queue)
    (rc ws : list Z) : Prop := {
  wr_run : chain (blocks m) (Some (current_thread m)) rc;
  wr_queue : wait_queues m !! queue = Some wq;
  wr_wait : chain (blocks m) (head wq) ws;
  wr_apart : forall x, x ∈ ws -> x ∉ rc;
}.

(** [n] calls of [thread_wakeup(queue, 0)] in a row by the running thread,
    as long as each of them returns 1. *)
Fixpoint wakeup_one_by_one (n : nat) (queue : Z) (m : machine)
    : option machine :=
  match n with
  | O => Some m
  | S n =>
      match thread_wakeup (Some queue) 0 m with
      | Return v m => if v =? 1 then wakeup_one_by_one n queue m else None
      | _ => None
      end
  end.

End A2L.

(** * Sample states for concrete runs *)
Module Sample.

(** [A2]: the state [thread_init] leaves when it starts from the zeroed
    table of static storage, interrupts enabled, with [heap] as the
    allocations to come. *)
Definition a2_boot (heap : list (option Z)) : A2.runtime :=
  A2.thread_init
    (A2.mk_runtime 0 (replicate (Z.to_nat THREAD_MAX_THREADS) A2.zero_thread)
       None None [] true heap).

(** [A1]: the state [thread_init] leaves. *)
Definition a1_boot (heap : list (option Z)) : A1.runtime :=
  A1.thread_init (A1.mk_runtime A1.zero_thread [] None None heap).

(** [A2L]: the running block at address 10 with nothing behind it, one
    sleeper at address 20 in the wait queue at address 1. *)
Definition a2l_one_sleeper : A2L.machine :=
  A2L.mk_machine 10
    (<[10 := A2L.mk_thread 0 None None 1 A2L.Uninit]>
       (<[20 := A2L.mk_thread 1 (Some 5) None 2 (A2L.InSleep 0 true 10)]> ∅))
    (<[1 := A2L.mk_wait_queue (Some 20)]> ∅)
    None None true [].

(** [A2L]: the running block at 10 with the block at 30 behind it, one
    sleeper at 20 in the wait queue at 1, an empty wait queue at 2. *)
Definition a2l_two_ready : A2L.machine :=
  A2L.mk_machine 10
    (<[10 := A2L.mk_thread 0 None (Some 30) 1 A2L.Uninit]>
       (<[20 := A2L.mk_thread 1 (Some 5) None 2 (A2L.InSleep 0 true 10)]>
          (<[30 := A2L.mk_thread 2 (Some 6) None 1 (A2L.Bootstrap 7 8)]> ∅)))
    (<[1 := A2L.mk_wait_queue (Some 20)]> (<[2 := A2L.mk_wait_queue None]> ∅))
    None None true [].

(** The state an outcome carries on. *)
Definition a1_after (o : A1.outcome) : A1.runtime :=
  match o with
  | A1.Return _ st | A1.CallMain _ _ st | A1.Setcontext st => st
  | _ => a1_boot []
  end.

Definition a2_after (o : A2.outcome) : A2.runtime :=
  match o with
  | A2.Return _ st | A2.CallMain _ _ st | A2.Setcontext st => st
  | _ => a2_boot []
  end.

(** [A1]: the initial thread creates a thread, ... *)
Definition a1_created : A1.runtime :=
  a1_after (A1.thread_create 7 8
              (a1_boot [Some 100; Some 101; Some 102; Some 103])).

(** ... kills it, ... *)
Definition a1_killed : A1.runtime :=
  a1_after (A1.thread_kill 1 a1_created).

(** ... and yields to it. *)
Definition a1_dispatched : A1.runtime :=
  a1_after (A1.thread_yield THREAD_ANY a1_killed).

(** [A1]: the initial thread creates a thread and exits; the new thread
    has started. *)
Definition a1_main_gone : A1.runtime :=
  a1_after (A1.run 1 (A1.thread_exit 0 a1_created)).

(** [A1]: the initial thread with three threads behind it. *)
Definition a1_three : A1.runtime :=
  a1_after (A1.thread_create 7 8
    (a1_after (A1.thread_create 7 8
      (a1_after (A1.thread_create 7 8
        (a1_boot [Some 100; Some 101; Some 102; Some 103; Some 104;
                  Some 105; Some 106; Some 107])))))).

(** [A2]: the initial thread with three threads in the ready queue. *)
Definition a2_three : A2.runtime :=
  a2_after (A2.thread_create 7 8
    (a2_after (A2.thread_create 7 8
      (a2_after (A2.thread_create 7 8
        (a2_boot [Some 100; Some 101; Some 102; Some 103; Some 104;
                  Some 105; Some 106; Some 107])))))).

End Sample.

(** * Facts about the table-based runtime *)
Module A2_facts.
Import A2.

Section WithHeader.
Context `{thread_h}.

Lemma slot_alter_eq (ts : list thread) (f : thread -> thread) (i : Z) :
  (Z.to_nat i < length ts)%nat ->
  slot (alter f (Z.to_nat i) ts) i = f (slot ts i).
Proof.
  intros Hlt. unfold slot. rewrite list_lookup_alter_eq.
  destruct (lookup_lt_is_Some_2 ts _ Hlt) as [t Ht]. by rewrite Ht.
Qed.

Lemma slot_alter_ne (ts : list thread) (f : thread -> thread) (i j : Z) :
  Z.to_nat i <> Z.to_nat j ->
  slot (alter f (Z.to_nat i) ts) j = slot ts j.
Proof.
  intros Hne. unfold slot. by rewrite list_lookup_alter_ne.
Qed.

Lemma slot_alter_state (ts : list thread) (f : thread -> thread) (i j : Z) :
  (forall t, state (f t) = state t) ->
  state (slot (alter f (Z.to_nat i) ts) j) = state (slot ts j).
Proof.
  intros Hf. unfold slot.
  destruct (decide (Z.to_nat i = Z.to_nat j)) as [->|Hne].
  - rewrite list_lookup_alter_eq. destruct (ts !! Z.to_nat j); simpl; auto.
  - by rewrite list_lookup_alter_ne.
Qed.

(** The slot search stops at a FREE slot, having passed only used ones. *)
Lemma find_free_found (budget : nat) (ts : list thread) (start new_tid : Z) :
  find_free budget ts start = Found new_tid ->
  start <= new_tid
  /\ state (slot ts new_tid) = 0
  /\ forall i, start <= i < new_tid -> state (slot ts i) <> 0.
Proof.
  revert start. induction budget as [|budget IH]; intros start; simpl.
  - destruct (state (slot ts start) =? 0) eqn:E; [|discriminate].
    intros [= <-]. apply Z.eqb_eq in E. repeat split; [lia | done | lia].
  - destruct (state (slot ts start) =? 0) eqn:E.
    + intros [= <-]. apply Z.eqb_eq in E. repeat split; [lia | done | lia].
    + destruct (start + 1 =? THREAD_MAX_THREADS) eqn:E2; [discriminate|].
      intros Hf. destruct (IH _ Hf) as (Hle & Hst & Hused).
      apply Z.eqb_neq in E. repeat split; [lia | done |].
      intros i Hi. destruct (decide (i = start)) as [->|]; [done|].
      apply Hused. lia.
Qed.

Lemma find_free_nomore (budget : nat) (ts : list thread) (start : Z) :
  find_free budget ts start = NoMore ->
  forall i, start <= i < THREAD_MAX_THREADS -> state (slot ts i) <> 0.
Proof.
  revert start. induction budget as [|budget IH]; intros start; simpl.
  - destruct (state (slot ts start) =? 0); discriminate.
  - destruct (state (slot ts start) =? 0) eqn:E; [discriminate|].
    apply Z.eqb_neq in E.
    destruct (start + 1 =? THREAD_MAX_THREADS) eqn:E2.
    + apply Z.eqb_eq in E2. intros _ i Hi. by replace i with start by lia.
    + intros Hf i Hi. destruct (decide (i = start)) as [->|]; [done|].
      apply (IH _ Hf). lia.
Qed.

(** With a budget of one step per slot the search never runs dry, and a
    slot it finds is inside the table. *)
Lemma find_free_total (budget : nat) (ts : list thread) (start : Z) :
  0 <= start < THREAD_MAX_THREADS ->
  (Z.to_nat (THREAD_MAX_THREADS - start) <= budget)%nat ->
  match find_free budget ts start with
  | Found new_tid => start <= new_tid < THREAD_MAX_THREADS
  | NoMore => True
  | Spin => False
  end.
Proof.
  revert start. induction budget as [|budget IH]; intros start Hs Hb; simpl.
  - destruct (state (slot ts start) =? 0); [lia|]. lia.
  - destruct (state (slot ts start) =? 0); [lia|].
    destruct (start + 1 =? THREAD_MAX_THREADS) eqn:E2; [done|].
    apply Z.eqb_neq in E2.
    specialize (IH (start + 1) ltac:(lia) ltac:(lia)).
    destruct (find_free budget ts (start + 1)); [lia | done | done].
Qed.

(** The error returns of [thread_yield] and [thread_create] come before
    any [interrupts_set(enabled)]: they leave interrupts masked. *)
Lemma thread_yield_none_state (st : runtime) :
  ready_head st = [] ->
  thread_yield THREAD_ANY st = Return THREAD_NONE (set_interrupts_enabled false st).
Proof.
  intros Hq. unfold thread_yield. simpl. rewrite Z.eqb_refl. simpl.
  by rewrite Hq.
Qed.

Lemma thread_create_nomore_state (fn parg : Z) (st : runtime) :
  find_free (Z.to_nat THREAD_MAX_THREADS) (threads st) 0 = NoMore ->
  thread_create fn parg st = Return THREAD_NOMORE (set_interrupts_enabled false st).
Proof.
  intros Hf. unfold thread_create. simpl. by rewrite Hf.
Qed.

(** [thread_kill] restores the flag on both of its paths. *)
Lemma thread_kill_interrupts (tid : Z) (st : runtime) :
  exists v st', thread_kill tid st = Return v st'
                /\ interrupts_enabled st' = interrupts_enabled st.
Proof.
  unfold thread_kill. simpl.
  match goal with |- context [if ?c then _ else _] => destruct c end;
    eexists _, _; split; reflexivity.
Qed.

End WithHeader.
End A2_facts.

(** * The unsigned comparison against [THREAD_MAX_THREADS] *)
Section Unsigned.
Context `{thread_h}.

Lemma to_unsigned_max : to_unsigned THREAD_MAX_THREADS = THREAD_MAX_THREADS.
Proof.
  unfold to_unsigned. pose proof max_threads_range. apply Z.mod_small. lia.
Qed.

Lemma unsigned_out_of_range (tid : Z) :
  - 2 ^ 31 <= tid < 2 ^ 31 ->
  (to_unsigned THREAD_MAX_THREADS <=? to_unsigned tid) = true
  <-> ~ (0 <= tid < THREAD_MAX_THREADS).
Proof.
  intros Hint. rewrite to_unsigned_max. pose proof max_threads_range.
  rewrite Z.leb_le. unfold to_unsigned.
  destruct (Z_lt_le_dec tid 0) as [Hneg|Hpos].
  - replace (tid mod 2 ^ 32) with (tid + 2 ^ 32).
    + lia.
    + rewrite <- (Z.mod_small (tid + 2 ^ 32) (2 ^ 32)) by lia.
      replace (tid + 2 ^ 32) with (tid + 1 * 2 ^ 32) by lia.
      by rewrite Z.mod_add.
  - rewrite Z.mod_small by lia. lia.
Qed.

Lemma unsigned_in_range (tid : Z) :
  - 2 ^ 31 <= tid < 2 ^ 31 ->
  (to_unsigned THREAD_MAX_THREADS <=? to_unsigned tid) = false
  <-> 0 <= tid < THREAD_MAX_THREADS.
Proof.
  intros Hint. pose proof (unsigned_out_of_range tid Hint) as Hout.
  destruct (to_unsigned THREAD_MAX_THREADS <=? to_unsigned tid).
  - split; [discriminate|]. intros Hr. exfalso. by apply Hout.
  - split; [|done]. intros _.
    destruct (decide (0 <= tid < THREAD_MAX_THREADS)) as [|Hn]; [done|].
    apply Hout in Hn. discriminate.
Qed.

End Unsigned.

(** * [thread_create] and [thread_kill] on the table *)
Module A2_table.
Import A2 A2_facts.

Section WithHeader.
Context `{thread_h}.

Lemma restore_interrupts_a2 (st : runtime) :
  set_interrupts_enabled (interrupts_enabled st) (set_interrupts_enabled false st) = st.
Proof. by destruct st. Qed.

Lemma find_free_lowest (st : runtime) (i : Z) :
  lowest_free st i ->
  find_free (Z.to_nat THREAD_MAX_THREADS) (threads st) 0 = Found i.
Proof.
  intros (Hi & Hst & Hlow). pose proof max_threads_range as HM.
  assert (match find_free (Z.to_nat THREAD_MAX_THREADS) (threads st) 0 with
          | Found new_tid => 0 <= new_tid < THREAD_MAX_THREADS
          | NoMore => True
          | Spin => False
          end) as Htot by (apply find_free_total; lia).
  destruct (find_free _ _ _) as [j| |] eqn:E; [|exfalso|done].
  - destruct (find_free_found _ _ _ _ E) as (_ & Hj & Hused). f_equal.
    destruct (Z_lt_le_dec i j) as [Hlt|Hle].
    + exfalso. by apply (Hused i ltac:(lia)).
    + destruct (Z_lt_le_dec j i) as [Hlt'|Hle']; [|lia].
      exfalso. by apply (Hlow j ltac:(lia)).
  - by apply (find_free_nomore _ _ _ E i ltac:(lia)).
Qed.

Lemma find_free_full (st : runtime) :
  (forall i, 0 <= i < THREAD_MAX_THREADS -> state (slot (threads st) i) <> 0) ->
  find_free (Z.to_nat THREAD_MAX_THREADS) (threads st) 0 = NoMore.
Proof.
  intros Hfull. pose proof max_threads_range as HM.
  assert (match find_free (Z.to_nat THREAD_MAX_THREADS) (threads st) 0 with
          | Found new_tid => 0 <= new_tid < THREAD_MAX_THREADS
          | NoMore => True
          | Spin => False
          end) as Htot by (apply find_free_total; lia).
  destruct (find_free _ _ _) as [j| |] eqn:E; [exfalso|done|done].
  destruct (find_free_found _ _ _ _ E) as (_ & Hj & _).
  by apply (Hfull j ltac:(lia)).
Qed.

Lemma in_table (st : runtime) (i : Z) :
  table_ok st -> 0 <= i < THREAD_MAX_THREADS ->
  (Z.to_nat i < length (threads st))%nat.
Proof. unfold table_ok. intros -> Hi. lia. Qed.

(** [thread_create] always returns: the slot search ends within its
    budget. *)
Lemma thread_create_returns_a2 (fn parg : Z) (st : runtime) :
  exists v st', thread_create fn parg st = Return v st'.
Proof.
  pose proof max_threads_range as HM. unfold thread_create. simpl.
  assert (match find_free (Z.to_nat THREAD_MAX_THREADS) (threads st) 0 with
          | Found new_tid => 0 <= new_tid < THREAD_MAX_THREADS
          | NoMore => True
          | Spin => False
          end) as Htot by (apply find_free_total; lia).
  destruct (find_free _ _ _) as [j| |]; [|by eexists _, _|done].
  unfold malloc369, ready_enqueue, malloc369. simpl.
  destruct (heap369 st) as [|[stack|] [|[node|] h]]; simpl; by eexists _, _.
Qed.

(** Whatever [thread_create] returns is a failure result or the
    lowest-numbered FREE slot. *)
Lemma thread_create_result_a2 (fn parg : Z) (st : runtime) :
  exists v st',
    thread_create fn parg st = Return v st'
    /\ (v = THREAD_NOMORE \/ v = THREAD_NOMEMORY \/ lowest_free st v).
Proof.
  pose proof max_threads_range as HM. unfold thread_create. simpl.
  assert (match find_free (Z.to_nat THREAD_MAX_THREADS) (threads st) 0 with
          | Found new_tid => 0 <= new_tid < THREAD_MAX_THREADS
          | NoMore => True
          | Spin => False
          end) as Htot by (apply find_free_total; lia).
  destruct (find_free _ _ _) as [j| |] eqn:E; [|eexists _, _; by eauto|done].
  destruct (find_free_found _ _ _ _ E) as (_ & Hj & Hused).
  assert (lowest_free st j) as Hlow by done.
  unfold malloc369, ready_enqueue, malloc369. simpl.
  destruct (heap369 st) as [|[stack|] [|[node|] h]]; simpl;
    eexists _, _; eauto.
Qed.

(** A full table: capacity-exhausted, nothing changed but the interrupt
    flag. *)
Lemma thread_create_full_a2 (fn parg : Z) (st : runtime) :
  (forall i, 0 <= i < THREAD_MAX_THREADS -> state (slot (threads st) i) <> 0) ->
  thread_create fn parg st
  = Return THREAD_NOMORE (set_interrupts_enabled false st).
Proof.
  intros Hfull. apply thread_create_nomore_state. by apply find_free_full.
Qed.

(** The stack allocation fails: out-of-memory, and the slot that had been
    chosen stays marked as in use. *)
Lemma thread_create_no_stack (fn parg : Z) (st : runtime) (new_tid : Z) :
  table_ok st ->
  lowest_free st new_tid ->
  fst (malloc369 st) = None ->
  exists st',
    thread_create fn parg st = Return THREAD_NOMEMORY st'
    /\ state (slot (threads st') new_tid) = 1
    /\ ready_head st' = ready_head st
    /\ interrupts_enabled st' = false.
Proof.
  intros Hok Hlow Hmalloc. unfold thread_create. simpl.
  rewrite (find_free_lowest _ _ Hlow).
  destruct Hlow as (Hi & _ & _).
  unfold malloc369 in *. simpl in *.
  destruct (heap369 st) as [|[r|] h]; simpl in *; try discriminate.
  - eexists. split; [reflexivity|]. simpl. split; [|done].
    rewrite slot_alter_state by done. rewrite slot_alter_eq; [done|].
    rewrite length_alter. by apply in_table.
  - eexists. split; [reflexivity|]. simpl. split; [|done].
    rewrite slot_alter_state by done. rewrite slot_alter_eq; [done|].
    rewrite length_alter. by apply in_table.
Qed.

(** Both allocations succeed: the lowest FREE slot is taken and queued. *)
Lemma thread_create_ok_a2 (fn parg : Z) (st : runtime) (new_tid stack node : Z)
    (h : list (option Z)) :
  table_ok st ->
  lowest_free st new_tid ->
  heap369 st = Some stack :: Some node :: h ->
  exists st',
    thread_create fn parg st = Return new_tid st'
    /\ state (slot (threads st') new_tid) = 1
    /\ context (slot (threads st') new_tid) = Bootstrap fn parg
    /\ (forall j, j <> new_tid -> 0 <= j -> slot (threads st') j = slot (threads st) j)
    /\ ready_head st' = ready_head st ++ [new_tid]
    /\ current_thread st' = current_thread st
    /\ interrupts_enabled st' = interrupts_enabled st.
Proof.
  intros Hok Hlow Hheap. unfold thread_create. simpl.
  rewrite (find_free_lowest _ _ Hlow).
  destruct Hlow as (Hi & _ & _).
  unfold malloc369, ready_enqueue, malloc369. simpl. rewrite Hheap. simpl.
  eexists. split; [reflexivity|]. simpl.
  pose proof (in_table _ _ Hok Hi) as Hlen.
  repeat split.
  - rewrite !slot_alter_state by done. rewrite slot_alter_eq; [done|].
    by rewrite length_alter.
  - rewrite slot_alter_eq; [done|]. by rewrite !length_alter.
  - intros j Hne Hj. rewrite !slot_alter_ne; [done|lia..].
Qed.

(** [thread_kill]: the three ways to be refused, and the effect otherwise. *)
Lemma thread_kill_refused (tid : Z) (st : runtime) :
  - 2 ^ 31 <= tid < 2 ^ 31 ->
  tid = thread_id st \/ ~ (0 <= tid < THREAD_MAX_THREADS)
  \/ state (slot (threads st) tid) = 0 ->
  thread_kill tid st = Return THREAD_INVALID st.
Proof.
  intros Hint Hc. unfold thread_kill. simpl.
  replace ((tid =? current_thread st)
           || (to_unsigned THREAD_MAX_THREADS <=? to_unsigned tid)
           || (state (slot (threads st) tid) =? 0)) with true.
  - by rewrite restore_interrupts_a2.
  - symmetry. rewrite !orb_true_iff, Z.eqb_eq, Z.eqb_eq.
    rewrite (unsigned_out_of_range tid Hint). unfold thread_id in Hc. tauto.
Qed.

Lemma thread_kill_marks_a2 (tid : Z) (st : runtime) :
  - 2 ^ 31 <= tid < 2 ^ 31 ->
  tid <> thread_id st -> 0 <= tid < THREAD_MAX_THREADS ->
  state (slot (threads st) tid) <> 0 ->
  thread_kill tid st = Return tid (update_slot tid (set_state 0) st).
Proof.
  intros Hint Hself Hr Hlive. unfold thread_kill. simpl.
  replace ((tid =? current_thread st)
           || (to_unsigned THREAD_MAX_THREADS <=? to_unsigned tid)
           || (state (slot (threads st) tid) =? 0)) with false.
  - reflexivity.
  - symmetry. rewrite !orb_false_iff, !Z.eqb_neq.
    by rewrite (unsigned_in_range tid Hint).
Qed.

End WithHeader.
End A2_table.

(** * [thread_yield] on the table *)
Module A2_yield.
Import A2 A2_facts A2_table.

Section WithHeader.
Context `{thread_h}.

Lemma free_stuff_eq_a2 (st : runtime) :
  free_stuff st = set_to_free_2 None (set_to_free_1 None st).
Proof.
  destruct st as [c ts f1 f2 q i h]. unfold free_stuff. simpl.
  destruct f1, f2; reflexivity.
Qed.

Lemma unlink_some_a2 (want_tid : Z) (rest : list Z) :
  want_tid ∈ rest ->
  exists l1 l2, rest = l1 ++ want_tid :: l2 /\ (want_tid ∉ l1)
                /\ unlink want_tid rest = Some (want_tid, l1 ++ l2).
Proof.
  induction rest as [|n rest IH]; intros Hin; [by apply elem_of_nil in Hin|].
  simpl. destruct (n =? want_tid) eqn:E.
  - apply Z.eqb_eq in E. subst n. exists [], rest.
    repeat split; [apply not_elem_of_nil].
  - apply Z.eqb_neq in E. apply elem_of_cons in Hin as [->|Hin]; [done|].
    destruct (IH Hin) as (l1 & l2 & -> & Hnot & ->).
    exists (n :: l1), l2. repeat split.
    intros [->|Hin']%elem_of_cons; [done|]. by apply Hnot.
Qed.

Lemma unlink_none_a2 (want_tid : Z) (rest : list Z) :
  want_tid ∉ rest -> unlink want_tid rest = None.
Proof.
  induction rest as [|n rest IH]; intros Hnot; [done|]. simpl.
  apply not_elem_of_cons in Hnot as [Hne Hnot].
  destruct (n =? want_tid) eqn:E; [apply Z.eqb_eq in E; congruence|].
  by rewrite IH.
Qed.

(** The three ways on from [getcontext]. *)
Lemma yield_from_getcontext_switch (want_tid : Z) (enabled : bool) (st : runtime) :
  state (slot (threads st) (current_thread st)) <> 3 ->
  state (slot (threads st) (current_thread st)) <> 2 ->
  yield_from_getcontext want_tid enabled st
  = Setcontext (set_current_thread want_tid
                  (update_slot (current_thread st) (set_state 2) (free_stuff st))).
Proof.
  intros H3 H2. unfold yield_from_getcontext. rewrite free_stuff_eq_a2. simpl.
  apply Z.eqb_neq in H3, H2. by rewrite H3, H2.
Qed.

Lemma yield_from_getcontext_return (want_tid : Z) (enabled : bool) (st : runtime) :
  state (slot (threads st) (current_thread st)) = 2 ->
  yield_from_getcontext want_tid enabled st
  = Return want_tid
      (set_interrupts_enabled enabled
         (update_slot (current_thread st) (set_state 1) (free_stuff st))).
Proof.
  intros H2. unfold yield_from_getcontext. rewrite free_stuff_eq_a2. simpl.
  by rewrite H2.
Qed.

Lemma yield_from_getcontext_killed (want_tid : Z) (enabled : bool) (st : runtime) :
  state (slot (threads st) (current_thread st)) = 3 ->
  yield_from_getcontext want_tid enabled st = thread_exit 0 (free_stuff st).
Proof.
  intros H3. unfold yield_from_getcontext. rewrite free_stuff_eq_a2. simpl.
  by rewrite H3.
Qed.

Lemma captured_state (want_tid : Z) (st : runtime) (i : Z) :
  state (slot (threads (captured want_tid st)) i) = state (slot (threads st) i).
Proof. unfold captured. simpl. by apply slot_alter_state. Qed.

(** "any" with nothing queued. *)
Lemma thread_yield_any_none_a2 (st : runtime) :
  ready_head st = [] ->
  thread_yield THREAD_ANY st
  = Return THREAD_NONE (set_interrupts_enabled false st).
Proof. apply thread_yield_none_state. Qed.

(** An identifier that is neither queued nor the caller's. *)
Lemma thread_yield_unknown_a2 (want_tid : Z) (st : runtime) :
  want_tid <> THREAD_ANY -> want_tid <> THREAD_SELF ->
  want_tid <> thread_id st -> want_tid ∉ ready_head st ->
  thread_yield want_tid st
  = Return THREAD_INVALID (set_interrupts_enabled false st).
Proof.
  intros Hany Hself Hown Hnot. unfold thread_yield, thread_id in *. simpl.
  apply Z.eqb_neq in Hany, Hself, Hown. rewrite Hany, Hself, Hown. simpl.
  destruct (ready_head st) as [|curr rest]; [done|].
  apply not_elem_of_cons in Hnot as [Hne Hnot].
  apply Z.eqb_neq in Hne. rewrite Hne. rewrite (unlink_none_a2 _ _ Hnot).
  by destruct (_ || _).
Qed.

(** "self", or the caller's own identifier: nothing is queued, the context
    is captured and control goes on in it. *)
Lemma thread_yield_self_a2 (want_tid : Z) (st : runtime) :
  running_ok st ->
  want_tid = THREAD_SELF \/ want_tid = thread_id st ->
  thread_yield want_tid st
  = yield_from_getcontext (thread_id st) (interrupts_enabled st)
      (captured (thread_id st) st).
Proof.
  intros (Hok & Hcur & Hst & Hq & Hnq) Hw. unfold thread_yield, thread_id in *.
  simpl. pose proof any_range. pose proof self_range. pose proof any_not_self.
  assert ((want_tid =? THREAD_ANY) = false) as -> by (apply Z.eqb_neq; lia).
  assert (match ready_head st with
          | node :: _ => want_tid =? node
          | [] => false
          end = false) as ->.
  { destruct (ready_head st) as [|n rest]; [done|]. apply Z.eqb_neq.
    apply Forall_cons in Hq as [Hn _]. apply not_elem_of_cons in Hnq as [Hne _].
    lia. }
  simpl.
  assert ((want_tid =? THREAD_SELF) || (want_tid =? current_thread st) = true)
    as ->; [|done].
  apply orb_true_iff. rewrite !Z.eqb_eq. done.
Qed.

Lemma thread_yield_self_round_trip_a2 (want_tid : Z) (st : runtime) :
  running_ok st ->
  want_tid = THREAD_SELF \/ want_tid = thread_id st ->
  exists st',
    run 1 (thread_yield want_tid st) = Return (thread_id st) st'
    /\ current_thread st' = current_thread st
    /\ ready_head st' = ready_head st
    /\ interrupts_enabled st' = interrupts_enabled st
    /\ forall i, state (slot (threads st') i) = state (slot (threads st) i).
Proof.
  intros Hrun Hw. rewrite (thread_yield_self_a2 _ _ Hrun Hw).
  destruct Hrun as (Hok & Hcur & Hst & Hq & Hnq). unfold thread_id.
  rewrite yield_from_getcontext_switch
    by (rewrite captured_state; simpl; lia).
  pose proof (in_table _ _ Hok Hcur) as Hlen.
  set (st1 := set_current_thread _ _).
  assert (current_thread st1 = current_thread st) as Hc1 by done.
  assert (context (slot (threads st1) (current_thread st))
          = InYield (current_thread st) (interrupts_enabled st)) as Hctx.
  { subst st1. rewrite free_stuff_eq_a2. simpl.
    rewrite slot_alter_eq by (by rewrite length_alter). simpl.
    by rewrite slot_alter_eq. }
  assert (state (slot (threads st1) (current_thread st)) = 2) as Hst1.
  { subst st1. rewrite free_stuff_eq_a2. simpl.
    by rewrite slot_alter_eq by (by rewrite length_alter). }
  simpl. unfold resume. rewrite Hc1, Hctx.
  rewrite yield_from_getcontext_return by (by rewrite Hc1).
  eexists. split; [reflexivity|]. subst st1. simpl.
  rewrite !free_stuff_eq_a2. simpl.
  split; [done|]. split; [done|]. split; [done|]. intros i.
  destruct (decide (Z.to_nat i = Z.to_nat (current_thread st))) as [Hi|Hi].
  - assert (forall ts, slot ts i = slot ts (current_thread st)) as Hsl
      by (intros ts; unfold slot; by rewrite Hi).
    rewrite !Hsl.
    rewrite slot_alter_eq; [by rewrite Hst|]. by rewrite !length_alter.
  - rewrite slot_alter_ne by done. rewrite slot_alter_ne by done.
    by rewrite slot_alter_state.
Qed.

End WithHeader.
End A2_yield.

Module A2_dispatch.
Import A2 A2_facts A2_table A2_yield.

Section WithHeader.
Context `{thread_h}.

Lemma switch_parks (want_tid : Z) (q : list Z) (h : list (option Z))
    (st : runtime) :
  running_ok st ->
  let st0 := set_heap369 h (set_ready_head q (set_interrupts_enabled false st)) in
  let st1 := update_slot (current_thread st)
               (set_context (InYield want_tid (interrupts_enabled st))) st0 in
  exists st',
    yield_from_getcontext want_tid (interrupts_enabled st) st1 = Setcontext st'
    /\ current_thread st' = want_tid
    /\ ready_head st' = q
    /\ parked st st' want_tid.
Proof.
  intros (Hok & Hcur & Hst & Hq & Hnq). simpl.
  pose proof (in_table _ _ Hok Hcur) as Hlen.
  rewrite yield_from_getcontext_switch;
    [| simpl; rewrite slot_alter_state by done; lia ..].
  eexists. split; [reflexivity|]. rewrite free_stuff_eq_a2. simpl.
  split; [done|]. split; [done|]. unfold parked. simpl. split; [|split].
  - rewrite slot_alter_eq; [done|]. by rewrite length_alter.
  - rewrite slot_alter_eq by (by rewrite length_alter). simpl.
    by rewrite slot_alter_eq.
  - intros i Hi Hne. rewrite !slot_alter_ne; [done|lia..].
Qed.

(** "any", or the identifier at the head of the ready queue: the head is
    dequeued, the caller queued at the tail, control goes to the head. *)
Lemma thread_yield_head_a2 (want_tid : Z) (st : runtime) (n : Z) (rest : list Z)
    (node : Z) (h : list (option Z)) :
  running_ok st ->
  ready_head st = n :: rest ->
  want_tid = THREAD_ANY \/ want_tid = n ->
  heap369 st = Some node :: h ->
  exists st',
    thread_yield want_tid st = Setcontext st'
    /\ current_thread st' = n
    /\ ready_head st' = rest ++ [current_thread st]
    /\ parked st st' n.
Proof.
  intros Hrun Hq Hw Hheap. unfold thread_yield. simpl. rewrite Hq.
  assert ((want_tid =? THREAD_ANY) || (want_tid =? n) = true) as ->.
  { apply orb_true_iff. rewrite !Z.eqb_eq. done. }
  unfold ready_enqueue, malloc369, thread_id. simpl. rewrite Hheap. simpl.
  unfold free369.
  destruct (switch_parks n (rest ++ [current_thread st]) h st Hrun)
    as (st' & Hy & Hc & Hr & Hp).
  exists st'. split; [|done]. rewrite <- Hy. reflexivity.
Qed.

(** An identifier queued behind the head: it is unlinked, the caller queued
    at the tail, control goes to the thread named. *)
Lemma thread_yield_queued_a2 (want_tid : Z) (st : runtime) (curr : Z)
    (l1 l2 : list Z) (node : Z) (h : list (option Z)) :
  running_ok st ->
  ready_head st = curr :: l1 ++ want_tid :: l2 ->
  want_tid <> curr -> want_tid ∉ l1 ->
  state (slot (threads st) want_tid) <> 0 ->
  heap369 st = Some node :: h ->
  exists st',
    thread_yield want_tid st = Setcontext st'
    /\ current_thread st' = want_tid
    /\ ready_head st' = curr :: l1 ++ l2 ++ [current_thread st]
    /\ parked st st' want_tid.
Proof.
  intros Hrun Hq Hne Hl1 Hlive Hheap.
  pose proof Hrun as (Hok & Hcur & Hst & Hqok & Hnq).
  assert (0 <= want_tid < THREAD_MAX_THREADS) as Hr.
  { rewrite Hq in Hqok. apply Forall_cons in Hqok as [_ Hqok].
    apply Forall_app in Hqok as [_ Hqok]. by apply Forall_cons in Hqok as [? _]. }
  assert (want_tid <> current_thread st) as Hown.
  { intros ->. apply Hnq. rewrite Hq.
    rewrite elem_of_cons, elem_of_app, elem_of_cons. tauto. }
  pose proof any_range. pose proof self_range. pose proof max_threads_range.
  unfold thread_yield, thread_id. simpl. rewrite Hq.
  assert ((want_tid =? THREAD_ANY) = false) as -> by (apply Z.eqb_neq; lia).
  assert ((want_tid =? curr) = false) as -> by (by apply Z.eqb_neq).
  assert ((want_tid =? THREAD_SELF) = false) as -> by (apply Z.eqb_neq; lia).
  assert ((want_tid =? current_thread st) = false) as -> by (by apply Z.eqb_neq).
  simpl.
  assert ((to_unsigned THREAD_MAX_THREADS <=? to_unsigned want_tid) = false) as ->
    by (apply unsigned_in_range; lia).
  assert ((state (slot (threads st) want_tid) =? 0) = false) as ->
    by (by apply Z.eqb_neq).
  simpl.
  assert (want_tid ∈ l1 ++ want_tid :: l2) as Hin
    by (rewrite elem_of_app, elem_of_cons; tauto).
  destruct (unlink_some_a2 want_tid (l1 ++ want_tid :: l2) Hin)
    as (l1' & l2' & Heq & Hl1' & Hun).
  assert (l1' = l1 /\ l2' = l2) as [-> ->].
  { clear -Heq Hl1 Hl1'. revert l1' Heq Hl1'.
    induction l1 as [|a l1 IH]; intros [|b l1'] Heq Hl1'; simpl in *.
    - by inversion Heq.
    - inversion Heq; subst. exfalso. apply Hl1'. apply elem_of_cons. tauto.
    - inversion Heq; subst. exfalso. apply Hl1. apply elem_of_cons. tauto.
    - inversion Heq; subst.
      apply not_elem_of_cons in Hl1 as [_ Hl1].
      apply not_elem_of_cons in Hl1' as [_ Hl1'].
      destruct (IH Hl1 l1' ltac:(done) Hl1') as [-> ->]. done. }
  rewrite Hun.
  unfold ready_enqueue, malloc369. simpl. rewrite Hheap. simpl.
  unfold free369.
  destruct (switch_parks want_tid ((curr :: l1 ++ l2) ++ [current_thread st]) h
              st Hrun) as (st' & Hy & Hc & Hrd & Hp).
  exists st'. split; [by rewrite <- Hy|]. split; [done|]. split; [|done].
  rewrite Hrd. simpl. by rewrite <- app_assoc.
Qed.

(** A parked thread that is switched to again: [thread_yield] returns the
    identifier it had asked for and reinstates its interrupt flag; a thread
    marked 3 in the meantime goes into [thread_exit] instead. *)
Lemma resume_parked_a2 (st : runtime) (want_tid : Z) (enabled : bool) :
  context (slot (threads st) (current_thread st)) = InYield want_tid enabled ->
  state (slot (threads st) (current_thread st)) = 2 ->
  resume st
  = Return want_tid
      (set_interrupts_enabled enabled
         (update_slot (current_thread st) (set_state 1) (free_stuff st))).
Proof.
  intros Hctx Hst. unfold resume. rewrite Hctx.
  by apply yield_from_getcontext_return.
Qed.

Lemma resume_marked_3_a2 (st : runtime) (want_tid : Z) (enabled : bool) :
  context (slot (threads st) (current_thread st)) = InYield want_tid enabled ->
  state (slot (threads st) (current_thread st)) = 3 ->
  resume st = thread_exit 0 (free_stuff st).
Proof.
  intros Hctx Hst. unfold resume. rewrite Hctx.
  by apply yield_from_getcontext_killed.
Qed.

(** A thread that has not run yet starts [thread_main], whatever its slot
    is marked as. *)
Lemma resume_bootstrap_a2 (st : runtime) (fn parg : Z) :
  context (slot (threads st) (current_thread st)) = Bootstrap fn parg ->
  resume st = CallMain fn parg (set_interrupts_enabled true (free_stuff st)).
Proof. intros Hctx. unfold resume. by rewrite Hctx. Qed.

End WithHeader.
End A2_dispatch.

(** * Facts about the list-based runtime *)
Module A1_facts.
Import A1.

Section WithHeader.
Context `{thread_h}.

Lemma free_stuff_eq_a1 (st : runtime) :
  free_stuff st = set_to_free_2 None (set_to_free_1 None st).
Proof.
  destruct st as [c q f1 f2 h]. unfold free_stuff. simpl.
  destruct f1, f2; reflexivity.
Qed.

Lemma held_iff (l : list thread) (v : Z) :
  existsb (fun curr => TID curr =? v) l = true <-> v ∈ tids l.
Proof.
  unfold tids. induction l as [|t l IH]; simpl.
  - split; [discriminate|]. by intros ?%elem_of_nil.
  - rewrite orb_true_iff, IH, elem_of_cons, Z.eqb_eq. split; intros [?|?]; auto.
Qed.

Lemma find_tid_found (budget : nat) (l : list thread) (start v : Z) :
  find_tid budget l start = Found v ->
  start < v /\ (v ∉ tids l) /\ forall i, start < i < v -> i ∈ tids l.
Proof.
  revert start. induction budget as [|budget IH]; intros start; simpl;
    [discriminate|].
  destruct (start + 1 =? THREAD_MAX_THREADS); [discriminate|].
  destruct (existsb _ l) eqn:E.
  - intros Hf. destruct (IH _ Hf) as (Hlt & Hnot & Hheld).
    apply held_iff in E. split; [lia|]. split; [done|].
    intros i Hi. destruct (decide (i = start + 1)) as [->|]; [done|].
    apply Hheld. lia.
  - intros [= <-]. split; [lia|]. split.
    + intros Hin%held_iff. congruence.
    + intros i Hi. lia.
Qed.

Lemma find_tid_nomore (budget : nat) (l : list thread) (start : Z) :
  find_tid budget l start = NoMore ->
  forall i, start < i < THREAD_MAX_THREADS -> i ∈ tids l.
Proof.
  revert start. induction budget as [|budget IH]; intros start; simpl;
    [discriminate|].
  destruct (start + 1 =? THREAD_MAX_THREADS) eqn:E1.
  - apply Z.eqb_eq in E1. intros _ i Hi. lia.
  - destruct (existsb _ l) eqn:E; [|discriminate].
    apply held_iff in E. intros Hf i Hi.
    destruct (decide (i = start + 1)) as [->|]; [done|].
    apply (IH _ Hf). lia.
Qed.

Lemma find_tid_total (budget : nat) (l : list thread) (start : Z) :
  0 <= start < THREAD_MAX_THREADS ->
  (Z.to_nat (THREAD_MAX_THREADS - start) <= budget)%nat ->
  match find_tid budget l start with
  | Found v => start < v < THREAD_MAX_THREADS
  | NoMore => True
  | Spin => False
  end.
Proof.
  revert start. induction budget as [|budget IH]; intros start Hs Hb; simpl;
    [lia|].
  destruct (start + 1 =? THREAD_MAX_THREADS) eqn:E1; [done|].
  apply Z.eqb_neq in E1.
  destruct (existsb _ l); [|lia].
  specialize (IH (start + 1) ltac:(lia) ltac:(lia)).
  destruct (find_tid budget l (start + 1)); [lia|done|done].
Qed.

Lemma find_tid_lowest (l : list thread) (v : Z) :
  lowest_unused l v ->
  find_tid (Z.to_nat THREAD_MAX_THREADS) l 0 = Found v.
Proof.
  intros (Hv & Hnot & Hlow). pose proof max_threads_range as HM.
  assert (match find_tid (Z.to_nat THREAD_MAX_THREADS) l 0 with
          | Found v => 0 < v < THREAD_MAX_THREADS
          | NoMore => True
          | Spin => False
          end) as Htot by (apply find_tid_total; lia).
  destruct (find_tid _ _ _) as [j| |] eqn:E; [|exfalso|done].
  - destruct (find_tid_found _ _ _ _ E) as (_ & Hj & Hheld). f_equal.
    destruct (Z_lt_le_dec v j) as [Hlt|Hle].
    + exfalso. apply Hnot, Hheld. lia.
    + destruct (Z_lt_le_dec j v) as [Hlt'|Hle']; [|lia].
      exfalso. apply Hj, Hlow. lia.
  - apply Hnot. apply (find_tid_nomore _ _ _ E). lia.
Qed.

Lemma find_tid_full (l : list thread) :
  (forall i, 1 <= i < THREAD_MAX_THREADS -> i ∈ tids l) ->
  find_tid (Z.to_nat THREAD_MAX_THREADS) l 0 = NoMore.
Proof.
  intros Hfull. pose proof max_threads_range as HM.
  assert (match find_tid (Z.to_nat THREAD_MAX_THREADS) l 0 with
          | Found v => 0 < v < THREAD_MAX_THREADS
          | NoMore => True
          | Spin => False
          end) as Htot by (apply find_tid_total; lia).
  destruct (find_tid _ _ _) as [j| |] eqn:E; [exfalso|done|done].
  destruct (find_tid_found _ _ _ _ E) as (_ & Hj & _).
  apply Hj, Hfull. lia.
Qed.

(** [thread_create] always returns: the identifier search ends within
    its budget. *)
Lemma thread_create_returns_a1 (fn parg : Z) (st : runtime) :
  exists v st', thread_create fn parg st = Return v st'.
Proof.
  pose proof max_threads_range as HM. unfold thread_create.
  assert (match find_tid (Z.to_nat THREAD_MAX_THREADS)
                  (current_thread st :: queue st) 0 with
          | Found v => 0 < v < THREAD_MAX_THREADS
          | NoMore => True
          | Spin => False
          end) as Htot by (apply find_tid_total; lia).
  destruct (find_tid _ _ _) as [j| |]; [|by eexists _, _|done].
  unfold malloc.
  destruct (heap st) as [|[block|] [|[stack|] h]]; simpl; by eexists _, _.
Qed.

(** Whatever [thread_create] returns is a failure result or the smallest
    identifier from 1 on that no block on the chain holds. *)
Lemma thread_create_result_a1 (fn parg : Z) (st : runtime) :
  exists v st',
    thread_create fn parg st = Return v st'
    /\ (v = THREAD_NOMORE \/ v = THREAD_NOMEMORY
        \/ lowest_unused (current_thread st :: queue st) v).
Proof.
  pose proof max_threads_range as HM. unfold thread_create.
  assert (match find_tid (Z.to_nat THREAD_MAX_THREADS)
                  (current_thread st :: queue st) 0 with
          | Found v => 0 < v < THREAD_MAX_THREADS
          | NoMore => True
          | Spin => False
          end) as Htot by (apply find_tid_total; lia).
  destruct (find_tid _ _ _) as [j| |] eqn:E; [|eexists _, _; by eauto|done].
  destruct (find_tid_found _ _ _ _ E) as (_ & Hj & Hheld).
  assert (lowest_unused (current_thread st :: queue st) j) as Hlow.
  { split; [lia|]. split; [done|]. intros i Hi. apply Hheld. lia. }
  unfold malloc.
  destruct (heap st) as [|[block|] [|[stack|] h]]; simpl;
    eexists _, _; eauto.
Qed.

(** [thread_create]: every identifier from 1 on is taken. *)
Lemma thread_create_full_a1 (fn parg : Z) (st : runtime) :
  (forall i, 1 <= i < THREAD_MAX_THREADS ->
             i ∈ tids (current_thread st :: queue st)) ->
  thread_create fn parg st = Return THREAD_NOMORE st.
Proof.
  intros Hfull. unfold thread_create. by rewrite (find_tid_full _ Hfull).
Qed.

(** [thread_create]: an identifier is there and so is the memory. *)
Lemma thread_create_ok_a1 (fn parg : Z) (st : runtime) (v block stack : Z)
    (h : list (option Z)) :
  lowest_unused (current_thread st :: queue st) v ->
  heap st = Some block :: Some stack :: h ->
  thread_create fn parg st
  = Return v
      (set_queue (queue st ++ [mk_thread v (Some stack) 1 (Bootstrap fn parg)])
         (set_heap h st)).
Proof.
  intros Hlow Hheap. unfold thread_create. rewrite (find_tid_lowest _ _ Hlow).
  unfold malloc. rewrite Hheap. simpl. reflexivity.
Qed.

(** [thread_create]: one of the two allocations fails. *)
Lemma thread_create_nomemory (fn parg : Z) (st : runtime) (v : Z) :
  lowest_unused (current_thread st :: queue st) v ->
  (forall block stack h, heap st <> Some block :: Some stack :: h) ->
  exists st',
    thread_create fn parg st = Return THREAD_NOMEMORY st'
    /\ current_thread st' = current_thread st
    /\ queue st' = queue st.
Proof.
  intros Hlow Hheap. unfold thread_create. rewrite (find_tid_lowest _ _ Hlow).
  unfold malloc.
  destruct (heap st) as [|[block|] [|[stack|] h]] eqn:E; simpl;
    try (eexists; split; [reflexivity|done]).
  exfalso. by eapply Hheap.
Qed.

(** [thread_kill]: the walk finds the first block with the identifier. *)
Lemma mark_killed_none (tid : Z) (l : list thread) :
  tid ∉ tids l -> mark_killed tid l = None.
Proof.
  unfold tids. induction l as [|t l IH]; intros Hnot; [done|]. simpl in *.
  apply not_elem_of_cons in Hnot as [Hne Hnot].
  destruct (TID t =? tid) eqn:E; [apply Z.eqb_eq in E; congruence|].
  by rewrite IH.
Qed.

Lemma mark_killed_some (tid : Z) (l : list thread) :
  tid ∈ tids l ->
  exists l1 t l2,
    l = l1 ++ t :: l2 /\ TID t = tid /\ (tid ∉ tids l1)
    /\ mark_killed tid l = Some (l1 ++ set_state 3 t :: l2).
Proof.
  unfold tids. induction l as [|t l IH]; intros Hin;
    [by apply elem_of_nil in Hin|].
  simpl in *. destruct (TID t =? tid) eqn:E.
  - apply Z.eqb_eq in E. exists [], t, l. repeat split; [done|].
    apply not_elem_of_nil.
  - apply Z.eqb_neq in E. apply elem_of_cons in Hin as [->|Hin]; [done|].
    destruct (IH Hin) as (l1 & t' & l2 & -> & Ht & Hnot & ->).
    exists (t :: l1), t', l2. repeat split; [done|]. simpl.
    intros [?|?]%elem_of_cons; [congruence|]. by apply Hnot.
Qed.

Lemma thread_kill_unknown (tid : Z) (st : runtime) :
  tid ∉ tids (queue st) ->
  thread_kill tid st = Return THREAD_INVALID st.
Proof.
  intros Hnot. unfold thread_kill. by rewrite (mark_killed_none _ _ Hnot).
Qed.

Lemma thread_kill_marks_a1 (tid : Z) (st : runtime) :
  tid ∈ tids (queue st) ->
  exists l1 t l2,
    queue st = l1 ++ t :: l2 /\ TID t = tid /\ (tid ∉ tids l1)
    /\ thread_kill tid st
       = Return tid (set_queue (l1 ++ set_state 3 t :: l2) st).
Proof.
  intros Hin. destruct (mark_killed_some _ _ Hin) as (l1 & t & l2 & ? & ? & ? & Hm).
  exists l1, t, l2. unfold thread_kill. by rewrite Hm.
Qed.

End WithHeader.
End A1_facts.

(** * [thread_yield] on the chain *)
Module A1_yield.
Import A1 A1_facts.

Section WithHeader.
Context `{thread_h}.

Lemma unlink_some_a1 (want_tid : Z) (rest : list thread) :
  want_tid ∈ tids rest ->
  exists l1 w l2,
    rest = l1 ++ w :: l2 /\ TID w = want_tid /\ (want_tid ∉ tids l1)
    /\ unlink want_tid rest = Some (w, l1 ++ l2).
Proof.
  unfold tids. induction rest as [|t rest IH]; intros Hin;
    [by apply elem_of_nil in Hin|].
  simpl in *. destruct (TID t =? want_tid) eqn:E.
  - apply Z.eqb_eq in E. exists [], t, rest. repeat split; [done|].
    apply not_elem_of_nil.
  - apply Z.eqb_neq in E. apply elem_of_cons in Hin as [->|Hin]; [done|].
    destruct (IH Hin) as (l1 & w & l2 & -> & Hw & Hnot & ->).
    exists (t :: l1), w, l2. repeat split; [done|]. simpl.
    intros [?|?]%elem_of_cons; [congruence|]. by apply Hnot.
Qed.

Lemma unlink_none_a1 (want_tid : Z) (rest : list thread) :
  want_tid ∉ tids rest -> unlink want_tid rest = None.
Proof.
  unfold tids. induction rest as [|t rest IH]; intros Hnot; [done|]. simpl in *.
  apply not_elem_of_cons in Hnot as [Hne Hnot].
  destruct (TID t =? want_tid) eqn:E; [apply Z.eqb_eq in E; congruence|].
  by rewrite IH.
Qed.

(** The first block of a chain with a given identifier is the only way to
    split the chain there. *)
Lemma split_at_first (l1 l1' l2 l2' : list thread) (w w' : thread) (v : Z) :
  l1 ++ w :: l2 = l1' ++ w' :: l2' ->
  TID w = v -> TID w' = v -> v ∉ tids l1 -> v ∉ tids l1' ->
  l1 = l1' /\ w = w' /\ l2 = l2'.
Proof.
  unfold tids. revert l1'.
  induction l1 as [|a l1 IH]; intros [|b l1'] Heq Hw Hw' Hn Hn'; simpl in *.
  - by inversion Heq.
  - inversion Heq; subst. exfalso. apply Hn'. apply elem_of_cons. by left.
  - inversion Heq; subst. exfalso. apply Hn. apply elem_of_cons. by left.
  - inversion Heq; subst.
    apply not_elem_of_cons in Hn as [_ Hn].
    apply not_elem_of_cons in Hn' as [_ Hn'].
    destruct (IH l1' ltac:(done) eq_refl ltac:(done) Hn Hn') as (-> & -> & ->).
    done.
Qed.

(** "any" with nothing behind the caller. *)
Lemma thread_yield_any_none_a1 (st : runtime) :
  queue st = [] -> thread_yield THREAD_ANY st = Return THREAD_NONE st.
Proof.
  intros Hq. unfold thread_yield. rewrite Z.eqb_refl. simpl. by rewrite Hq.
Qed.

(** An identifier that is neither on the chain behind the caller nor the
    caller's. *)
Lemma thread_yield_unknown_a1 (want_tid : Z) (st : runtime) :
  want_tid <> THREAD_ANY -> want_tid <> THREAD_SELF ->
  want_tid <> thread_id st -> want_tid ∉ tids (queue st) ->
  thread_yield want_tid st = Return THREAD_INVALID st.
Proof.
  intros Hany Hself Hown Hnot. unfold thread_yield.
  apply Z.eqb_neq in Hany, Hself, Hown. rewrite Hany, Hself, Hown. simpl.
  destruct (queue st) as [|curr rest]; [done|]. unfold tids in Hnot. simpl in *.
  apply not_elem_of_cons in Hnot as [Hne Hnot].
  apply Z.eqb_neq in Hne. rewrite Hne. rewrite (unlink_none_a1 _ _ Hnot).
  by destruct (_ <=? _).
Qed.

(** "self", or the caller's own identifier: the chain stays as it is, the
    context is captured and control goes on in it. *)
Lemma thread_yield_self_a1 (want_tid : Z) (st : runtime) :
  running_ok st ->
  want_tid = THREAD_SELF \/ want_tid = thread_id st ->
  thread_yield want_tid st
  = yield_from_getcontext (thread_id st) (Some [])
      (set_current_thread
         (set_context (InYield (thread_id st)) (current_thread st)) st).
Proof.
  intros (Hst & Hr & Hnd) Hw. unfold thread_yield, thread_id in *.
  pose proof any_range. pose proof self_range. pose proof any_not_self.
  apply Forall_cons in Hr as [Hc Hr].
  assert ((want_tid =? THREAD_ANY) = false) as -> by (apply Z.eqb_neq; lia).
  assert (match queue st with
          | next :: _ => want_tid =? TID next
          | [] => false
          end = false) as ->.
  { destruct (queue st) as [|n rest]; [done|]. apply Z.eqb_neq.
    apply Forall_cons in Hr as [Hn _]. unfold tids in Hnd. simpl in Hnd.
    apply NoDup_cons in Hnd as [Hnd _]. apply not_elem_of_cons in Hnd as [Hne _].
    lia. }
  simpl.
  assert ((want_tid =? THREAD_SELF) || (want_tid =? TID (current_thread st)) = true)
    as ->.
  { apply orb_true_iff. rewrite !Z.eqb_eq. done. }
  by destruct st.
Qed.

Lemma thread_yield_self_round_trip_a1 (want_tid : Z) (st : runtime) :
  running_ok st ->
  want_tid = THREAD_SELF \/ want_tid = thread_id st ->
  run 1 (thread_yield want_tid st)
  = Return (thread_id st)
      (set_current_thread
         (set_context (InYield (thread_id st)) (current_thread st))
         (free_stuff st)).
Proof.
  intros Hrun Hw. rewrite (thread_yield_self_a1 _ _ Hrun Hw).
  destruct Hrun as (Hst & _ & _).
  unfold yield_from_getcontext. rewrite free_stuff_eq_a1. simpl. rewrite Hst.
  simpl. unfold resume. simpl.
  unfold yield_from_getcontext. rewrite !free_stuff_eq_a1. simpl.
  f_equal. unfold set_current_thread, set_context, set_state. simpl.
  f_equal. destruct (current_thread st); simpl in *. by subst.
Qed.

(** "any", or the identifier of the block right behind the caller: the
    caller goes to the tail of the chain and control to that block. *)
Lemma thread_yield_head_a1 (want_tid : Z) (st : runtime) (n : thread)
    (rest : list thread) :
  running_ok st ->
  queue st = n :: rest ->
  want_tid = THREAD_ANY \/ want_tid = TID n ->
  thread_yield want_tid st
  = Setcontext
      (set_queue (rest ++ [parked (TID n) (current_thread st)])
         (set_current_thread n (free_stuff st))).
Proof.
  intros (Hst & _ & _) Hq Hw. unfold thread_yield. rewrite Hq.
  assert ((want_tid =? THREAD_ANY) || (want_tid =? TID n) = true) as ->.
  { apply orb_true_iff. rewrite !Z.eqb_eq. done. }
  unfold yield_from_getcontext. rewrite !free_stuff_eq_a1. simpl. rewrite Hst.
  simpl. reflexivity.
Qed.

(** An identifier further down the chain: its block is unlinked and put
    in front, the caller goes to the tail, control goes to that block. *)
Lemma thread_yield_queued_a1 (want_tid : Z) (st : runtime) (curr w : thread)
    (l1 l2 : list thread) :
  running_ok st ->
  queue st = curr :: l1 ++ w :: l2 ->
  TID w = want_tid -> want_tid <> TID curr -> want_tid ∉ tids l1 ->
  thread_yield want_tid st
  = Setcontext
      (set_queue (curr :: l1 ++ l2 ++ [parked want_tid (current_thread st)])
         (set_current_thread w (free_stuff st))).
Proof.
  intros (Hst & Hr & Hnd) Hq Hw Hne Hl1.
  pose proof any_range. pose proof self_range. pose proof max_threads_range.
  rewrite Hq in Hr, Hnd.
  assert (0 <= want_tid < THREAD_MAX_THREADS) as Hwr.
  { apply Forall_cons in Hr as [_ Hr]. apply Forall_cons in Hr as [_ Hr].
    apply Forall_app in Hr as [_ Hr]. apply Forall_cons in Hr as [Hw' _].
    by rewrite Hw in Hw'. }
  assert (want_tid <> TID (current_thread st)) as Hown.
  { unfold tids in Hnd. simpl in Hnd. apply NoDup_cons in Hnd as [Hnd _].
    intros Heq. apply Hnd. rewrite <- Heq.
    rewrite elem_of_cons, map_app, elem_of_app. simpl.
    rewrite elem_of_cons. auto. }
  unfold thread_yield, thread_id. rewrite Hq.
  assert ((want_tid =? THREAD_ANY) = false) as -> by (apply Z.eqb_neq; lia).
  assert ((want_tid =? TID curr) = false) as -> by (by apply Z.eqb_neq).
  assert ((want_tid =? THREAD_SELF) = false) as -> by (apply Z.eqb_neq; lia).
  assert ((want_tid =? TID (current_thread st)) = false) as ->
    by (by apply Z.eqb_neq).
  simpl.
  assert ((to_unsigned THREAD_MAX_THREADS <=? to_unsigned want_tid) = false) as ->
    by (apply unsigned_in_range; lia).
  assert (want_tid ∈ tids (l1 ++ w :: l2)) as Hin.
  { unfold tids. rewrite map_app, elem_of_app. simpl. rewrite elem_of_cons. auto. }
  destruct (unlink_some_a1 _ _ Hin) as (l1' & w' & l2' & Heq & Hw' & Hl1' & ->).
  destruct (split_at_first _ _ _ _ _ _ _ Heq Hw Hw' Hl1 Hl1') as (<- & <- & <-).
  unfold yield_from_getcontext. rewrite !free_stuff_eq_a1. simpl. rewrite Hst.
  simpl. unfold parked. rewrite <- !app_assoc. reflexivity.
Qed.

(** A parked thread that is switched to again: [thread_yield] returns the
    identifier it had asked for; a thread marked 3 in the meantime goes into
    [thread_exit] instead. *)
Lemma resume_parked_a1 (st : runtime) (want_tid : Z) :
  context (current_thread st) = InYield want_tid ->
  state (current_thread st) = 2 ->
  resume st
  = Return want_tid
      (set_current_thread (set_state 1 (current_thread st)) (free_stuff st)).
Proof.
  intros Hctx Hst. unfold resume. rewrite Hctx.
  unfold yield_from_getcontext. rewrite !free_stuff_eq_a1. simpl. by rewrite Hst.
Qed.

Lemma resume_marked_3_a1 (st : runtime) (want_tid : Z) :
  context (current_thread st) = InYield want_tid ->
  state (current_thread st) = 3 ->
  resume st = thread_exit 0 (free_stuff st).
Proof.
  intros Hctx Hst. unfold resume. rewrite Hctx.
  unfold yield_from_getcontext. rewrite !free_stuff_eq_a1. simpl. by rewrite Hst.
Qed.

(** A thread that has not run yet starts [thread_main], whatever its block
    is marked as: [thread_stub] does not look at [state]. *)
Lemma resume_bootstrap_a1 (st : runtime) (fn parg : Z) :
  context (current_thread st) = Bootstrap fn parg ->
  resume st = CallMain fn parg (free_stuff st).
Proof. intros Hctx. unfold resume. by rewrite Hctx. Qed.

End WithHeader.
End A1_yield.

(** * Chains of linked control blocks *)
Module A2L_chain.
Import A2L.

Lemma chain_frame (b b' : gmap Z thread) (p : option Z) (l : list Z) :
  chain b p l -> (forall x, x ∈ l -> b' !! x = b !! x) -> chain b' p l.
Proof.
  revert p. induction l as [|x l IH]; intros p; simpl; [done|].
  intros (-> & t & Ht & Hc) Hsame. split; [done|]. exists t. split.
  - rewrite Hsame; [done|]. apply elem_of_cons. by left.
  - apply IH; [done|]. intros y Hy. apply Hsame. apply elem_of_cons. by right.
Qed.

Lemma chain_functional (b : gmap Z thread) (p : option Z) (l1 l2 : list Z) :
  chain b p l1 -> chain b p l2 -> l1 = l2.
Proof.
  revert p l2. induction l1 as [|x l1 IH]; intros p [|y l2]; simpl.
  - done.
  - intros -> [? _]. discriminate.
  - intros [-> _] ?. discriminate.
  - intros (-> & t & Ht & Hc) ([= <-] & t' & Ht' & Hc').
    rewrite Ht in Ht'. inversion Ht'; subst t'. f_equal. by eapply IH.
Qed.

Lemma chain_suffix (b : gmap Z thread) (p : option Z) (l1 l2 : list Z) :
  chain b p (l1 ++ l2) -> exists q, chain b q l2.
Proof.
  revert p. induction l1 as [|x l1 IH]; intros p; simpl.
  - intros Hc. by exists p.
  - intros (_ & t & _ & Hc). by eapply IH.
Qed.

(** A chain that ends in [NULL] passes no block twice. *)
Lemma chain_NoDup (b : gmap Z thread) (p : option Z) (l : list Z) :
  chain b p l -> NoDup l.
Proof.
  revert p. induction l as [|x l IH]; intros p; [constructor|].
  intros Hc. pose proof Hc as (-> & t & Ht & Hc'). constructor; [|by eapply IH].
  intros (l1 & l2 & ->)%list_elem_of_split.
  destruct (chain_suffix _ _ _ _ Hc') as (q & Hq).
  pose proof Hq as [-> _].
  pose proof (chain_functional _ _ _ _ Hc Hq) as Heq.
  apply (f_equal length) in Heq. simpl in Heq. rewrite length_app in Heq.
  simpl in Heq. lia.
Qed.

Lemma chain_allocated (b : gmap Z thread) (p : option Z) (l : list Z) (x : Z) :
  chain b p l -> x ∈ l -> is_Some (b !! x).
Proof.
  revert p. induction l as [|y l IH]; intros p; simpl.
  - by intros _ ?%elem_of_nil.
  - intros (_ & t & Ht & Hc) [->|Hin]%elem_of_cons; [by exists t|].
    by eapply IH.
Qed.

Lemma distinct_keys_size (b : gmap Z thread) (l : list Z) :
  NoDup l -> (forall x, x ∈ l -> is_Some (b !! x)) ->
  (length l <= size b)%nat.
Proof.
  revert b. induction l as [|x l IH]; intros b Hnd Hall; simpl; [lia|].
  apply NoDup_cons in Hnd as [Hx Hnd].
  assert (is_Some (b !! x)) as Hsx by (apply Hall, elem_of_cons; by left).
  assert (length l <= size (delete x b))%nat as Hle.
  { apply IH; [done|]. intros y Hy.
    rewrite lookup_delete_ne by (intros ->; done).
    apply Hall, elem_of_cons. by right. }
  rewrite map_size_delete_Some in Hle by done.
  destruct Hsx as [t Ht].
  assert (size b <> 0)%nat.
  { intros Hz%map_size_empty_inv. subst b. by rewrite lookup_empty in Ht. }
  lia.
Qed.

(** A walk along a chain that ends in [NULL] is within the budget. *)
Lemma chain_length (b : gmap Z thread) (p : option Z) (l : list Z) :
  chain b p l -> (length l <= size b)%nat.
Proof.
  intros Hc. apply distinct_keys_size; [by eapply chain_NoDup|].
  intros x Hx. by eapply chain_allocated.
Qed.

(** [add_to_end] reaches the last block of the chain and links [t] there. *)
Lemma add_to_end_from_last (budget : nat) (b : gmap Z thread) (h t : Z)
    (l : list Z) :
  chain b (Some h) l -> (length l <= budget)%nat ->
  exists z tz,
    last l = Some z /\ b !! z = Some tz /\ next tz = None
    /\ add_to_end_from budget h t b = Walked (<[z := set_next (Some t) tz]> b).
Proof.
  revert h l. induction budget as [|budget IH]; intros h l Hc Hlen.
  - destruct l; simpl in *; [discriminate Hc|lia].
  - destruct l as [|x l]; simpl in Hc; [discriminate Hc|].
    destruct Hc as ([= <-] & tx & Htx & Hc). simpl in Hlen. simpl.
    rewrite Htx. destruct (next tx) as [n|] eqn:En.
    + destruct l as [|y l]; [simpl in Hc; discriminate Hc|].
      pose proof Hc as [[= ->] _].
      assert (length (y :: l) <= budget)%nat as Hlen' by (simpl in *; lia).
      destruct (IH y (y :: l) Hc Hlen') as (z & tz & Hl & Hz & Hn & Ha).
      exists z, tz. by rewrite last_cons_cons.
    + destruct l as [|y l]; [|destruct Hc as [? _]; discriminate].
      exists h, tx. done.
Qed.

(** Linking a chain behind the last block of another one joins them, as
    long as they share no block. *)
Lemma chain_link (b : gmap Z thread) (h t z : Z) (tz : thread)
    (l l' : list Z) :
  chain b (Some h) l -> last l = Some z -> b !! z = Some tz ->
  chain b (Some t) l' -> (forall x, x ∈ l' -> x ∉ l) ->
  chain (<[z := set_next (Some t) tz]> b) (Some h) (l ++ l').
Proof.
  intros Hc Hlast Hz Hc' Hdisj. pose proof (chain_NoDup _ _ _ Hc) as Hnd.
  revert h Hc Hlast Hnd Hdisj.
  induction l as [|x l IH]; intros h Hc Hlast Hnd Hdisj; [done|].
  destruct Hc as ([= <-] & tx & Htx & Hc).
  apply NoDup_cons in Hnd as [Hx Hnd]. simpl.
  split; [done|]. destruct l as [|y l].
  - simpl in Hlast. inversion Hlast; subst z. rewrite Htx in Hz.
    inversion Hz; subst tz. exists (set_next (Some t) tx).
    split; [by rewrite lookup_insert_eq|]. simpl.
    apply (chain_frame b); [done|]. intros y Hy.
    rewrite lookup_insert_ne; [done|]. intros ->.
    apply (Hdisj _ Hy). apply elem_of_cons. by left.
  - rewrite last_cons_cons in Hlast. exists tx. split.
    + rewrite lookup_insert_ne; [done|]. intros ->. apply Hx.
      by apply last_Some_elem_of.
    + pose proof Hc as [Hn _]. rewrite Hn in Hc |- *. apply IH; [done..|].
      intros w Hw Hin. apply (Hdisj _ Hw). apply elem_of_cons. by right.
Qed.


End A2L_chain.

(** * [thread_sleep] and [thread_wakeup] *)
Module A2L_facts.
Import A2L A2L_chain.

Section WithHeader.
Context `{thread_h}.




(** A [NULL] queue, and nothing behind the caller to switch to. *)
Lemma thread_sleep_null (m : machine) :
  thread_sleep None m = Return THREAD_INVALID m.
Proof. reflexivity. Qed.





End WithHeader.
End A2L_facts.

Module A2L_sleep.
Import A2L A2L_chain A2L_facts.

Section WithHeader.
Context `{thread_h}.


End WithHeader.
End A2L_sleep.

Module A2L_wakeup.
Import A2L A2L_chain A2L_facts.

Section WithHeader.
Context `{thread_h}.

Lemma count_from_chain (budget : nat) (b : gmap Z thread) (p : option Z)
    (l : list Z) (num : Z) :
  chain b p l -> (length l <= budget)%nat ->
  count_from budget p b num = Walked (num + Z.of_nat (length l)).
Proof.
  revert p l num. induction budget as [|budget IH]; intros p l num Hc Hlen.
  - destruct l as [|x l]; simpl in *; [|lia]. subst p. simpl. f_equal. lia.
  - destruct l as [|x l]; simpl in Hc.
    + subst p. simpl. f_equal. lia.
    + destruct Hc as (-> & t & Ht & Hc). simpl. rewrite Ht.
      rewrite (IH _ l) by (simpl in Hlen; done || lia). f_equal.
      simpl length. lia.
Qed.

(** [all] set: the wait chain is linked behind the run chain and counted;
    the wait queue is not written. *)
Lemma thread_wakeup_all_a2l (m : machine) (queue : Z) (wq : wait_queue)
    (all : Z) (rc ws : list Z) :
  wakeup_ready m queue wq rc ws ->
  ws <> [] -> all <> 0 ->
  exists m',
    thread_wakeup (Some queue) all m = Return (Z.of_nat (length ws)) m'
    /\ current_thread m' = current_thread m
    /\ interrupts_enabled m' = interrupts_enabled m
    /\ chain (blocks m') (Some (current_thread m)) (rc ++ ws)
    /\ wait_queues m' = wait_queues m
    /\ chain (blocks m') (head wq) ws.
Proof.
  intros [Hrun Hwq Hws Hapart] Hne Hall.
  destruct ws as [|h ws]; [done|]. pose proof Hws as [Hh _].
  unfold thread_wakeup. rewrite Hwq, Hh. simpl.
  apply Z.eqb_neq in Hall. rewrite Hall. simpl.
  pose proof (chain_length _ _ _ Hrun) as Hlen.
  destruct (add_to_end_from_last (size (blocks m)) (blocks m)
              (current_thread m) h rc Hrun Hlen)
    as (z & tz & Hlast & Hz & Hzn & Hadd).
  unfold add_to_end. rewrite Hadd. simpl.
  assert (z ∈ rc) as Hz_rc by (by apply last_Some_elem_of).
  set (b' := <[z := set_next (Some h) tz]> (blocks m)).
  rewrite Hh in Hws.
  assert (chain b' (Some h) (h :: ws)) as Hws'.
  { apply (chain_frame (blocks m)); [done|]. intros x Hx. unfold b'.
    rewrite lookup_insert_ne; [done|]. intros ->. by apply (Hapart x). }
  assert (chain b' (Some (current_thread m)) (rc ++ h :: ws)) as Hrun'.
  { apply chain_link; [done..|]. intros x Hx Hin. by apply (Hapart x). }
  rewrite (count_from_chain _ _ _ (h :: ws));
    [|done|by apply (chain_length _ (Some h))].
  simpl. eexists. split; [reflexivity|]. simpl. done.
Qed.

(** [all] clear: the head of the wait chain is unlinked, linked behind the
    run chain, and the queue goes on with the block that was second. *)
Lemma thread_wakeup_one_a2l (m : machine) (queue : Z) (wq : wait_queue)
    (rc : list Z) (w : Z) (ws : list Z) :
  wakeup_ready m queue wq rc (w :: ws) ->
  exists m' wq',
    thread_wakeup (Some queue) 0 m = Return 1 m'
    /\ current_thread m' = current_thread m
    /\ interrupts_enabled m' = interrupts_enabled m
    /\ chain (blocks m') (Some (current_thread m)) (rc ++ [w])
    /\ wait_queues m' !! queue = Some wq'
    /\ chain (blocks m') (head wq') ws.
Proof.
  intros [Hrun Hwq Hws Hapart].
  pose proof (chain_NoDup _ _ _ Hws) as Hnd.
  apply NoDup_cons in Hnd as [Hw_ws _].
  destruct Hws as (Hh & first & Hfirst & Hrest).
  unfold thread_wakeup. rewrite Hwq, Hh. simpl. rewrite Hfirst.
  set (b1 := <[w := set_next None first]> (blocks m)).
  assert (w ∉ rc) as Hw_rc.
  { intros Hin. apply (Hapart w); [|done]. apply elem_of_cons. by left. }
  assert (chain b1 (Some (current_thread m)) rc) as Hrun1.
  { apply (chain_frame (blocks m)); [done|]. intros x Hx. unfold b1.
    rewrite lookup_insert_ne; [done|]. by intros ->. }
  assert (chain b1 (Some w) [w]) as Hw1.
  { simpl. split; [done|]. exists (set_next None first).
    split; [apply lookup_insert_eq|done]. }
  pose proof (chain_length _ _ _ Hrun1) as Hlen.
  destruct (add_to_end_from_last (size b1) b1 (current_thread m) w rc Hrun1 Hlen)
    as (z & tz & Hlast & Hz & Hzn & Hadd).
  unfold add_to_end. rewrite Hadd. simpl.
  assert (z ∈ rc) as Hz_rc by (by apply last_Some_elem_of).
  eexists _, _. split; [reflexivity|]. simpl.
  split; [done|]. split; [done|]. split; [|split].
  - apply chain_link; [done..|]. intros x ->%list_elem_of_singleton. done.
  - apply lookup_insert_eq.
  - simpl. apply (chain_frame (blocks m)); [done|]. intros x Hx.
    rewrite lookup_insert_ne.
    + unfold b1. rewrite lookup_insert_ne; [done|]. by intros ->.
    + intros ->. apply (Hapart x); [|done]. apply elem_of_cons. by right.
Qed.

(** An empty or [NULL] queue: nothing to wake. *)
Lemma thread_wakeup_empty_a2l (m : machine) (queue : Z) (wq : wait_queue)
    (all : Z) :
  wait_queues m !! queue = Some wq -> head wq = None ->
  thread_wakeup (Some queue) all m = Return 0 m
  /\ thread_wakeup None all m = Return 0 m.
Proof.
  intros Hwq Hh. unfold thread_wakeup. by rewrite Hwq, Hh.
Qed.

End WithHeader.
End A2L_wakeup.

(** * The claims *)
Section Claims.
Context `{thread_h}.

(** C1.  Not every exit path restores the interrupt flag: when
    [thread_yield(THREAD_ANY)] of [A2/thread.c] finds the ready queue empty
    it returns [THREAD_NONE] straight after [interrupts_off()], so a caller
    that entered with interrupts enabled gets control back with interrupts
    masked. *)
Theorem thread_yield_none_leaves_interrupts_masked (st : A2.runtime) :
  A2.interrupts_enabled st = true ->
  A2.ready_head st = [] ->
  exists st',
    A2.thread_yield THREAD_ANY st = A2.Return THREAD_NONE st'
    /\ A2.interrupts_enabled st' = false
    /\ A2.interrupts_enabled st' <> A2.interrupts_enabled st.
Proof.
  intros Hon Hq. eexists. split; [by apply A2_facts.thread_yield_none_state|].
  simpl. split; [done|]. by rewrite Hon.
Qed.

(** C2.  A failed stack allocation in [thread_create] of [A2/thread.c] is
    not a no-op: the call returns [THREAD_NOMEMORY] but the slot it had
    chosen, FREE before the call, stays marked 1 (in use). *)
Theorem thread_create_nomemory_leaves_slot_taken (fn parg : Z)
    (st : A2.runtime) (new_tid : Z) :
  A2.table_ok st ->
  A2.lowest_free st new_tid ->
  fst (A2.malloc369 st) = None ->
  exists st',
    A2.thread_create fn parg st = A2.Return THREAD_NOMEMORY st'
    /\ A2.state (A2.slot (A2.threads st) new_tid) = 0
    /\ A2.state (A2.slot (A2.threads st') new_tid) = 1.
Proof.
  intros Hok Hlow Hm.
  destruct (A2_table.thread_create_no_stack fn parg st new_tid Hok Hlow Hm)
    as (st' & Hc & Hs & _).
  exists st'. split; [done|]. split; [|done]. by destruct Hlow as (_ & ? & _).
Qed.

(** C3.  A thread that is killed before it ever ran is not redirected into
    [thread_exit]: [thread_kill] marks it 3 and returns its identifier, and
    when [thread_yield] dispatches it, its context starts in [thread_stub],
    which calls [thread_main] without looking at that mark: the entry
    function of the killed thread runs. *)
Theorem killed_fresh_thread_runs_thread_main (st : A1.runtime) (n : A1.thread)
    (rest : list A1.thread) (fn parg : Z) :
  A1.running_ok st ->
  A1.queue st = n :: rest ->
  A1.context n = A1.Bootstrap fn parg ->
  exists st1 st2 st3,
    A1.thread_kill (A1.TID n) st = A1.Return (A1.TID n) st1
    /\ A1.queue st1 = A1.set_state 3 n :: rest
    /\ A1.thread_yield THREAD_ANY st1 = A1.Setcontext st2
    /\ A1.current_thread st2 = A1.set_state 3 n
    /\ A1.resume st2 = A1.CallMain fn parg st3
    /\ A1.current_thread st3 = A1.set_state 3 n.
Proof.
  intros Hok Hq Hctx.
  exists (A1.set_queue (A1.set_state 3 n :: rest) st).
  assert (A1.running_ok (A1.set_queue (A1.set_state 3 n :: rest) st)) as Hok1.
  { destruct Hok as (Hst & Hr & Hnd). rewrite Hq in Hr, Hnd.
    split; [done|]. split; simpl.
    - apply Forall_cons in Hr as [Hc Hr]. apply Forall_cons in Hr as [Hn Hr].
      by repeat apply Forall_cons_2.
    - done. }
  eexists _, _. split; [|split; [reflexivity|split; [|split; [|split]]]].
  - unfold A1.thread_kill. rewrite Hq. simpl. by rewrite Z.eqb_refl.
  - apply (A1_yield.thread_yield_head_a1 _ _ (A1.set_state 3 n) rest Hok1);
      [reflexivity|by left].
  - reflexivity.
  - apply A1_yield.resume_bootstrap_a1. exact Hctx.
  - rewrite !A1_facts.free_stuff_eq_a1. reflexivity.
Qed.

End Claims.

(** C1 at the state [thread_init] leaves. *)
Lemma thread_yield_none_leaves_interrupts_masked_witness :
  exists st',
    A2.thread_yield THREAD_ANY (Sample.a2_boot [])
    = A2.Return THREAD_NONE st'
    /\ A2.interrupts_enabled st' = false
    /\ A2.interrupts_enabled st' <> A2.interrupts_enabled (Sample.a2_boot []).
Proof.
  apply (thread_yield_none_leaves_interrupts_masked (Sample.a2_boot []));
    vm_compute; reflexivity.
Defined.

(** C2 right after [thread_init], with no memory for the stack: slot 1. *)
Lemma thread_create_nomemory_leaves_slot_taken_witness :
  exists st',
    A2.thread_create 7 8 (Sample.a2_boot [None])
    = A2.Return THREAD_NOMEMORY st'
    /\ A2.state (A2.slot (A2.threads (Sample.a2_boot [None])) 1) = 0
    /\ A2.state (A2.slot (A2.threads st') 1) = 1.
Proof.
  apply (thread_create_nomemory_leaves_slot_taken 7 8 (Sample.a2_boot [None]) 1).
  - vm_compute. reflexivity.
  - split; [simpl; lia|]. split; [vm_compute; reflexivity|].
    intros j Hj. assert (j = 0) as -> by lia. vm_compute. discriminate.
  - vm_compute. reflexivity.
Defined.

(** C3 on the run: the initial thread creates thread 1, kills it and
    yields; thread 1 is dispatched and starts [thread_main]. *)
Lemma killed_fresh_thread_runs_thread_main_witness :
  A1.running_ok Sample.a1_created
  /\ A1.thread_kill 1 Sample.a1_created = A1.Return 1 Sample.a1_killed
  /\ A1.thread_yield THREAD_ANY Sample.a1_killed
     = A1.Setcontext Sample.a1_dispatched
  /\ A1.state (A1.current_thread Sample.a1_dispatched) = 3
  /\ exists st3, A1.resume Sample.a1_dispatched = A1.CallMain 7 8 st3.
Proof.
  assert (A1.running_ok Sample.a1_created) as Hok.
  { split; [reflexivity|]. split.
    - repeat constructor; simpl; lia.
    - apply (bool_decide_unpack _). vm_compute. exact I. }
  split; [exact Hok|].
  destruct (killed_fresh_thread_runs_thread_main Sample.a1_created
              (A1.mk_thread 1 (Some 101) 1 (A1.Bootstrap 7 8)) [] 7 8 Hok)
    as (st1 & st2 & st3 & Hk & Hq & Hy & Hc & Hr & _);
    [reflexivity|reflexivity|].
  assert (st1 = Sample.a1_killed) as -> by (by inversion Hk).
  assert (st2 = Sample.a1_dispatched) as -> by (by inversion Hy).
  split; [exact Hk|]. split; [exact Hy|]. split; [by rewrite Hc|].
  exists st3. exact Hr.
Defined.

(** * The calls in states where the caller's own mark is not known *)
Module A1_any_mark.
Import A1 A1_facts A1_yield.

Section WithHeader.
Context `{thread_h}.

Lemma running_ok_ids_ok_a1 (st : runtime) : running_ok st -> ids_ok st.
Proof. by intros (_ & ? & ?). Qed.

Lemma own_id_not_queued_a1 (st : runtime) :
  ids_ok st -> thread_id st ∉ tids (queue st).
Proof.
  intros (_ & Hnd). unfold tids in Hnd. simpl in Hnd.
  by apply NoDup_cons in Hnd as [? _].
Qed.

(** "self", or the caller's own identifier: the branch taken. *)
Lemma thread_yield_self_ids_a1 (want_tid : Z) (st : runtime) :
  ids_ok st ->
  want_tid = THREAD_SELF \/ want_tid = thread_id st ->
  thread_yield want_tid st
  = yield_from_getcontext (thread_id st) (Some [])
      (set_current_thread
         (set_context (InYield (thread_id st)) (current_thread st)) st).
Proof.
  intros (Hr & Hnd) Hw. unfold thread_yield, thread_id in *.
  pose proof any_range. pose proof self_range. pose proof any_not_self.
  apply Forall_cons in Hr as [Hc Hr].
  assert ((want_tid =? THREAD_ANY) = false) as -> by (apply Z.eqb_neq; lia).
  assert (match queue st with
          | next :: _ => want_tid =? TID next
          | [] => false
          end = false) as ->.
  { destruct (queue st) as [|n rest]; [done|]. apply Z.eqb_neq.
    apply Forall_cons in Hr as [Hn _]. unfold tids in Hnd. simpl in Hnd.
    apply NoDup_cons in Hnd as [Hnd _]. apply not_elem_of_cons in Hnd as [Hne _].
    lia. }
  simpl.
  assert ((want_tid =? THREAD_SELF) || (want_tid =? TID (current_thread st)) = true)
    as ->.
  { apply orb_true_iff. rewrite !Z.eqb_eq. done. }
  by destruct st.
Qed.

(** The caller is not marked 3: control re-enters it and the call returns
    its identifier. *)
Lemma thread_yield_self_alive_a1 (want_tid : Z) (st : runtime) :
  ids_ok st ->
  want_tid = THREAD_SELF \/ want_tid = thread_id st ->
  state (current_thread st) <> 3 ->
  run 1 (thread_yield want_tid st)
  = Return (thread_id st)
      (set_current_thread
         (set_state 1
            (set_context (InYield (thread_id st)) (current_thread st)))
         (free_stuff st)).
Proof.
  intros Hok Hw H3. rewrite (thread_yield_self_ids_a1 _ _ Hok Hw).
  unfold yield_from_getcontext. rewrite free_stuff_eq_a1. simpl.
  apply Z.eqb_neq in H3. rewrite H3.
  destruct (state (current_thread st) =? 2) eqn:E2.
  - simpl. by rewrite free_stuff_eq_a1.
  - simpl. unfold resume. simpl. unfold yield_from_getcontext.
    rewrite !free_stuff_eq_a1. simpl. reflexivity.
Qed.

(** The caller is marked 3: it goes into [thread_exit]. *)
Lemma thread_yield_self_marked_a1 (want_tid : Z) (st : runtime) :
  ids_ok st ->
  want_tid = THREAD_SELF \/ want_tid = thread_id st ->
  state (current_thread st) = 3 ->
  thread_yield want_tid st
  = thread_exit 0
      (set_current_thread
         (set_context (InYield (thread_id st)) (current_thread st))
         (free_stuff st)).
Proof.
  intros Hok Hw H3. rewrite (thread_yield_self_ids_a1 _ _ Hok Hw).
  unfold yield_from_getcontext. rewrite free_stuff_eq_a1. simpl.
  rewrite H3. simpl. by rewrite free_stuff_eq_a1.
Qed.

End WithHeader.
End A1_any_mark.

Module A2_any_mark.
Import A2 A2_facts A2_table A2_yield.

Section WithHeader.
Context `{thread_h}.

Lemma running_ok_ids_ok_a2 (st : runtime) : running_ok st -> ids_ok st.
Proof. by intros (? & ? & _ & ? & ?). Qed.

(** A slot that is not FREE is a slot of the table. *)
Lemma used_slot_in_table (ts : list thread) (i : Z) :
  state (slot ts i) <> 0 -> (Z.to_nat i < length ts)%nat.
Proof.
  intros Hst. apply lookup_lt_is_Some. unfold slot in Hst.
  destruct (ts !! Z.to_nat i); [by eexists|]. by destruct Hst.
Qed.

(** [thread_kill] on a target it accepts: the caller keeps running and of
    the table only the [state] of the target's slot is written. *)
Lemma thread_kill_writes_state_a2 (tid : Z) (st : runtime) :
  - 2 ^ 31 <= tid < 2 ^ 31 ->
  tid <> thread_id st -> 0 <= tid < THREAD_MAX_THREADS ->
  state (slot (threads st) tid) <> 0 ->
  exists st',
    thread_kill tid st = Return tid st'
    /\ current_thread st' = current_thread st
    /\ ready_head st' = ready_head st
    /\ interrupts_enabled st' = interrupts_enabled st
    /\ to_free_1 st' = to_free_1 st
    /\ to_free_2 st' = to_free_2 st
    /\ heap369 st' = heap369 st
    /\ (forall i, 0 <= i -> i <> tid ->
          slot (threads st') i = slot (threads st) i)
    /\ TID (slot (threads st') tid) = TID (slot (threads st) tid)
    /\ thread_stack (slot (threads st') tid)
       = thread_stack (slot (threads st) tid)
    /\ wait_q (slot (threads st') tid) = wait_q (slot (threads st) tid)
    /\ context (slot (threads st') tid) = context (slot (threads st) tid).
Proof.
  intros Hint Hself Hrange Hlive.
  rewrite (thread_kill_marks_a2 tid st Hint Hself Hrange Hlive).
  pose proof (used_slot_in_table _ _ Hlive) as Hlen.
  eexists. split; [reflexivity|]. simpl.
  rewrite slot_alter_eq by done. repeat split; try done.
  intros i Hi Hne. rewrite slot_alter_ne; [done|lia].
Qed.

(** The two failures of [thread_yield] change nothing but, possibly, the
    interrupt flag. *)
Lemma thread_yield_any_none_rest_a2 (st : runtime) :
  ready_head st = [] ->
  exists st',
    thread_yield THREAD_ANY st = Return THREAD_NONE st'
    /\ set_interrupts_enabled (interrupts_enabled st) st' = st.
Proof.
  intros Hq. rewrite (thread_yield_any_none_a2 _ Hq). eexists.
  split; [reflexivity|]. by destruct st.
Qed.

Lemma thread_yield_unknown_rest_a2 (want_tid : Z) (st : runtime) :
  want_tid <> THREAD_ANY -> want_tid <> THREAD_SELF ->
  want_tid <> thread_id st -> want_tid ∉ ready_head st ->
  exists st',
    thread_yield want_tid st = Return THREAD_INVALID st'
    /\ set_interrupts_enabled (interrupts_enabled st) st' = st.
Proof.
  intros Hany Hself Hown Hnot.
  rewrite (thread_yield_unknown_a2 _ _ Hany Hself Hown Hnot). eexists.
  split; [reflexivity|]. by destruct st.
Qed.

(** "self", or the caller's own identifier: the branch taken. *)
Lemma thread_yield_self_ids_a2 (want_tid : Z) (st : runtime) :
  ids_ok st ->
  want_tid = THREAD_SELF \/ want_tid = thread_id st ->
  thread_yield want_tid st
  = yield_from_getcontext (thread_id st) (interrupts_enabled st)
      (captured (thread_id st) st).
Proof.
  intros (Hok & Hcur & Hq & Hnq) Hw. unfold thread_yield, thread_id in *.
  simpl. pose proof any_range. pose proof self_range. pose proof any_not_self.
  assert ((want_tid =? THREAD_ANY) = false) as -> by (apply Z.eqb_neq; lia).
  assert (match ready_head st with
          | node :: _ => want_tid =? node
          | [] => false
          end = false) as ->.
  { destruct (ready_head st) as [|n rest]; [done|]. apply Z.eqb_neq.
    apply Forall_cons in Hq as [Hn _]. apply not_elem_of_cons in Hnq as [Hne _].
    lia. }
  simpl.
  assert ((want_tid =? THREAD_SELF) || (want_tid =? current_thread st) = true)
    as ->; [|done].
  apply orb_true_iff. rewrite !Z.eqb_eq. done.
Qed.

(** The caller's slot is not marked 3: control re-enters the caller and
    the call returns its identifier. *)
Lemma thread_yield_self_alive_a2 (want_tid : Z) (st : runtime) :
  ids_ok st ->
  want_tid = THREAD_SELF \/ want_tid = thread_id st ->
  state (slot (threads st) (current_thread st)) <> 3 ->
  exists st',
    run 1 (thread_yield want_tid st) = Return (thread_id st) st'
    /\ current_thread st' = current_thread st
    /\ ready_head st' = ready_head st
    /\ interrupts_enabled st' = interrupts_enabled st
    /\ state (slot (threads st') (current_thread st)) = 1
    /\ forall i, 0 <= i -> i <> current_thread st ->
                 slot (threads st') i = slot (threads st) i.
Proof.
  intros Hids Hw H3. rewrite (thread_yield_self_ids_a2 _ _ Hids Hw).
  destruct Hids as (Hok & Hcur & Hq & Hnq). unfold thread_id.
  pose proof (in_table _ _ Hok Hcur) as Hlen.
  destruct (decide (state (slot (threads st) (current_thread st)) = 2))
    as [H2|H2].
  - rewrite yield_from_getcontext_return by (by rewrite captured_state).
    eexists. split; [reflexivity|].
    rewrite free_stuff_eq_a2. unfold captured. simpl.
    split; [done|]. split; [done|]. split; [done|]. split.
    + by rewrite slot_alter_eq by (by rewrite length_alter).
    + intros i Hi Hne. rewrite !slot_alter_ne; [done|lia..].
  - rewrite yield_from_getcontext_switch
      by (rewrite captured_state; simpl; done).
    set (st1 := set_current_thread _ _).
    assert (current_thread st1 = current_thread st) as Hc1 by done.
    assert (context (slot (threads st1) (current_thread st))
            = InYield (current_thread st) (interrupts_enabled st)) as Hctx.
    { subst st1. rewrite free_stuff_eq_a2. simpl.
      rewrite slot_alter_eq by (by rewrite length_alter). simpl.
      by rewrite slot_alter_eq. }
    assert (state (slot (threads st1) (current_thread st)) = 2) as Hst1.
    { subst st1. rewrite free_stuff_eq_a2. simpl.
      by rewrite slot_alter_eq by (by rewrite length_alter). }
    cbn [run]. unfold resume. rewrite Hc1, Hctx.
    rewrite yield_from_getcontext_return by (by rewrite Hc1).
    eexists. split; [reflexivity|]. subst st1. simpl.
    rewrite !free_stuff_eq_a2. unfold captured. simpl.
    split; [done|]. split; [done|]. split; [done|]. split.
    + by rewrite slot_alter_eq by (by rewrite !length_alter).
    + intros i Hi Hne. rewrite !slot_alter_ne; [done|lia..].
Qed.

(** The caller's slot is marked 3: the caller goes into [thread_exit]. *)
Lemma thread_yield_self_marked_a2 (want_tid : Z) (st : runtime) :
  ids_ok st ->
  want_tid = THREAD_SELF \/ want_tid = thread_id st ->
  state (slot (threads st) (current_thread st)) = 3 ->
  thread_yield want_tid st
  = thread_exit 0 (free_stuff (captured (thread_id st) st)).
Proof.
  intros Hids Hw H3. rewrite (thread_yield_self_ids_a2 _ _ Hids Hw).
  apply yield_from_getcontext_killed. by rewrite captured_state.
Qed.

End WithHeader.
End A2_any_mark.

Section Claims_kill.
Context `{thread_h}.

(** C4, amended.  [thread_kill(id)] fails with [THREAD_INVALID] exactly
    when [id] is unknown, is the caller's own, or names a thread that is
    gone: in [A1] (identifiers on the run list distinct and within the
    capacity) when no block behind the caller holds [id], in [A2] when
    [id] is out of range, the caller's, or names a FREE slot.  Otherwise
    it returns [id] and the caller keeps running: the order of the run
    list, or the ready queue, and every other control block stay as they
    are, and of the target's control block only [state] is written; in
    [A1] the value written is 3.  In [A1] a thread that was killed but has
    not been dispatched since is still behind the caller, so killing it
    again succeeds. *)
Theorem thread_kill_cases (tid : Z) (st1 : A1.runtime) (st2 : A2.runtime) :
  A1.ids_ok st1 ->
  - 2 ^ 31 <= tid < 2 ^ 31 ->
  (tid = A1.thread_id st1 \/ tid ∉ A1.tids (A1.queue st1) ->
   A1.thread_kill tid st1 = A1.Return THREAD_INVALID st1)
  /\ (tid ∈ A1.tids (A1.queue st1) ->
      tid <> THREAD_INVALID
      /\ exists l1 t l2,
           A1.queue st1 = l1 ++ t :: l2 /\ A1.TID t = tid
           /\ (tid ∉ A1.tids l1)
           /\ A1.thread_kill tid st1
              = A1.Return tid
                  (A1.set_queue (l1 ++ A1.set_state 3 t :: l2) st1))
  /\ (tid = A2.thread_id st2 \/ ~ (0 <= tid < THREAD_MAX_THREADS)
      \/ A2.state (A2.slot (A2.threads st2) tid) = 0 ->
      A2.thread_kill tid st2 = A2.Return THREAD_INVALID st2)
  /\ (tid <> A2.thread_id st2 -> 0 <= tid < THREAD_MAX_THREADS ->
      A2.state (A2.slot (A2.threads st2) tid) <> 0 ->
      tid <> THREAD_INVALID
      /\ exists st',
           A2.thread_kill tid st2 = A2.Return tid st'
           /\ A2.current_thread st' = A2.current_thread st2
           /\ A2.ready_head st' = A2.ready_head st2
           /\ A2.interrupts_enabled st' = A2.interrupts_enabled st2
           /\ A2.to_free_1 st' = A2.to_free_1 st2
           /\ A2.to_free_2 st' = A2.to_free_2 st2
           /\ A2.heap369 st' = A2.heap369 st2
           /\ (forall i, 0 <= i -> i <> tid ->
                 A2.slot (A2.threads st') i = A2.slot (A2.threads st2) i)
           /\ A2.TID (A2.slot (A2.threads st') tid)
              = A2.TID (A2.slot (A2.threads st2) tid)
           /\ A2.thread_stack (A2.slot (A2.threads st') tid)
              = A2.thread_stack (A2.slot (A2.threads st2) tid)
           /\ A2.wait_q (A2.slot (A2.threads st') tid)
              = A2.wait_q (A2.slot (A2.threads st2) tid)
           /\ A2.context (A2.slot (A2.threads st') tid)
              = A2.context (A2.slot (A2.threads st2) tid)).
Proof.
  intros Hids Hint. pose proof invalid_range as Hinv.
  pose proof (A1_any_mark.own_id_not_queued_a1 _ Hids) as Hown.
  destruct Hids as (Hr & Hnd).
  split; [|split; [|split]].
  - intros Hc. apply A1_facts.thread_kill_unknown. by destruct Hc as [->|Hc].
  - intros Hin. split.
    + apply Forall_cons in Hr as [_ Hr]. unfold A1.tids in Hin.
      apply list_elem_of_fmap in Hin as (t & -> & Ht).
      rewrite Forall_forall in Hr. specialize (Hr t Ht). lia.
    + by apply A1_facts.thread_kill_marks_a1.
  - by apply A2_table.thread_kill_refused.
  - intros Hself Hrange Hlive. split; [lia|].
    by apply A2_any_mark.thread_kill_writes_state_a2.
Qed.

End Claims_kill.

(** C4 as stated fails in [A1]: thread 1, killed a moment ago and still
    marked 3 behind the caller, is killed again and [thread_kill] returns
    its identifier, not [THREAD_INVALID]. *)
Lemma thread_kill_twice_returns_tid :
  A1.thread_kill 1 Sample.a1_created = A1.Return 1 Sample.a1_killed
  /\ map A1.state (A1.queue Sample.a1_killed) = [3]
  /\ A1.thread_kill 1 Sample.a1_killed = A1.Return 1 Sample.a1_killed
  /\ A1.thread_kill 1 Sample.a1_killed
     <> A1.Return THREAD_INVALID Sample.a1_killed.
Proof. repeat split; try reflexivity. discriminate. Qed.

(** C4, amended, at that state: the second kill of thread 1 in [A1], and
    the kill of the queued thread 1 in [A2], which leaves the caller
    running and the ready queue as it was. *)
Lemma thread_kill_cases_witness :
  A1.ids_ok Sample.a1_killed
  /\ - 2 ^ 31 <= 1 < 2 ^ 31
  /\ (exists st', A1.thread_kill 1 Sample.a1_killed = A1.Return 1 st')
  /\ A2.thread_kill 0 Sample.a2_three = A2.Return THREAD_INVALID Sample.a2_three
  /\ (exists st',
        A2.thread_kill 1 Sample.a2_three = A2.Return 1 st'
        /\ A2.current_thread st' = 0
        /\ A2.ready_head st' = [1; 2; 3]
        /\ A2.context (A2.slot (A2.threads st') 1) = A2.Bootstrap 7 8).
Proof.
  assert (A1.ids_ok Sample.a1_killed) as Hok.
  { split.
    - repeat constructor; simpl; lia.
    - apply (bool_decide_unpack _). vm_compute. exact I. }
  assert (- 2 ^ 31 <= 1 < 2 ^ 31) as Hint by lia.
  split; [exact Hok|]. split; [exact Hint|].
  destruct (thread_kill_cases 1 Sample.a1_killed Sample.a2_three Hok Hint)
    as (_ & Hkill1 & _ & Hkill2).
  destruct (thread_kill_cases 0 Sample.a1_killed Sample.a2_three Hok ltac:(lia))
    as (_ & _ & Hself & _).
  split; [|split].
  - destruct Hkill1 as (_ & l1 & t & l2 & _ & _ & _ & Hk).
    + apply (bool_decide_unpack _). vm_compute. exact I.
    + eexists. exact Hk.
  - apply Hself. left. vm_compute. reflexivity.
  - destruct Hkill2
      as (_ & st' & Hk & Hc & Hq & _ & _ & _ & _ & _ & _ & _ & _ & Hctx);
      [vm_compute; discriminate | simpl; lia | vm_compute; discriminate |].
    exists st'. split; [exact Hk|].
    split; [rewrite Hc; vm_compute; reflexivity|].
    split; [rewrite Hq; vm_compute; reflexivity|].
    rewrite Hctx. vm_compute. reflexivity.
Defined.

Section Claims_create.
Context `{thread_h}.

(** C5, amended.  [thread_create] hands out the smallest identifier that
    is free for it to use: in [A1] the smallest one from 1 on that no block
    on the chain holds (0 stays with the initial thread and is never handed
    out), in [A2] the lowest-numbered FREE slot of the table.  Whatever the
    call returns is that identifier or a failure result (first two parts),
    so an identifier held by a block on the chain, or by a slot that is not
    FREE, is not returned.  When there is no such identifier below
    [THREAD_MAX_THREADS] the call fails with [THREAD_NOMORE]; with memory
    for the thread it returns the identifier and queues the new thread
    last. *)
Theorem thread_create_cases (fn parg : Z) (st1 : A1.runtime) (st2 : A2.runtime) :
  A2.table_ok st2 ->
  (exists v st',
     A1.thread_create fn parg st1 = A1.Return v st'
     /\ (v = THREAD_NOMORE \/ v = THREAD_NOMEMORY
         \/ A1.lowest_unused (A1.current_thread st1 :: A1.queue st1) v))
  /\ (exists v st',
        A2.thread_create fn parg st2 = A2.Return v st'
        /\ (v = THREAD_NOMORE \/ v = THREAD_NOMEMORY \/ A2.lowest_free st2 v))
  /\ ((forall i, 1 <= i < THREAD_MAX_THREADS ->
              i ∈ A1.tids (A1.current_thread st1 :: A1.queue st1)) ->
   A1.thread_create fn parg st1 = A1.Return THREAD_NOMORE st1)
  /\ (forall v block stack h,
        A1.lowest_unused (A1.current_thread st1 :: A1.queue st1) v ->
        A1.heap st1 = Some block :: Some stack :: h ->
        A1.thread_create fn parg st1
        = A1.Return v
            (A1.set_queue
               (A1.queue st1
                ++ [A1.mk_thread v (Some stack) 1 (A1.Bootstrap fn parg)])
               (A1.set_heap h st1)))
  /\ ((forall i, 0 <= i < THREAD_MAX_THREADS ->
                 A2.state (A2.slot (A2.threads st2) i) <> 0) ->
      exists st',
        A2.thread_create fn parg st2 = A2.Return THREAD_NOMORE st'
        /\ A2.threads st' = A2.threads st2
        /\ A2.ready_head st' = A2.ready_head st2)
  /\ (forall v stack node h,
        A2.lowest_free st2 v ->
        A2.heap369 st2 = Some stack :: Some node :: h ->
        exists st',
          A2.thread_create fn parg st2 = A2.Return v st'
          /\ A2.state (A2.slot (A2.threads st') v) = 1
          /\ A2.context (A2.slot (A2.threads st') v) = A2.Bootstrap fn parg
          /\ (forall j, j <> v -> 0 <= j ->
                        A2.slot (A2.threads st') j = A2.slot (A2.threads st2) j)
          /\ A2.ready_head st' = A2.ready_head st2 ++ [v]
          /\ A2.current_thread st' = A2.current_thread st2).
Proof.
  intros Hok. split; [|split; [|split; [|split; [|split]]]].
  - apply A1_facts.thread_create_result_a1.
  - apply A2_table.thread_create_result_a2.
  - apply A1_facts.thread_create_full_a1.
  - intros v block stack h Hlow Hheap. by eapply A1_facts.thread_create_ok_a1.
  - intros Hfull. eexists. split; [by apply A2_table.thread_create_full_a2|done].
  - intros v stack node h Hlow Hheap.
    destruct (A2_table.thread_create_ok_a2 fn parg st2 v stack node h Hok Hlow Hheap)
      as (st' & ? & ? & ? & ? & ? & ? & _).
    by exists st'.
Qed.

End Claims_create.

(** C5 as stated fails in [A1]: once the initial thread has exited no
    thread holds identifier 0, yet the next [thread_create] returns 2. *)
Lemma thread_create_skips_identifier_0 :
  A1.run 1 (A1.thread_exit 0 Sample.a1_created)
  = A1.CallMain 7 8 Sample.a1_main_gone
  /\ A1.tids (A1.current_thread Sample.a1_main_gone
              :: A1.queue Sample.a1_main_gone) = [1]
  /\ (exists st', A1.thread_create 9 9 Sample.a1_main_gone = A1.Return 2 st')
  /\ 0 < 2.
Proof.
  split; [reflexivity|]. split; [reflexivity|]. split; [|lia].
  eexists. reflexivity.
Qed.

(** C5, amended, with three threads behind the initial one: both runtimes
    hand out identifier 4. *)
Lemma thread_create_cases_witness :
  A2.table_ok Sample.a2_three
  /\ (exists st', A1.thread_create 9 9 Sample.a1_three = A1.Return 4 st')
  /\ (exists st', A2.thread_create 9 9 Sample.a2_three = A2.Return 4 st'
                  /\ A2.ready_head st' = [1; 2; 3; 4]).
Proof.
  assert (A2.table_ok Sample.a2_three) as Hok by (vm_compute; reflexivity).
  split; [exact Hok|].
  destruct (thread_create_cases 9 9 Sample.a1_three Sample.a2_three Hok)
    as (_ & _ & _ & Hc1 & _ & Hc2).
  split.
  - eexists. apply (Hc1 4 106 107 []); [|reflexivity].
    split; [simpl; lia|]. split.
    + apply (bool_decide_unpack _). vm_compute. exact I.
    + intros i Hi.
      assert (i = 1 \/ i = 2 \/ i = 3) as [ -> | [ -> | -> ] ] by lia;
        apply (bool_decide_unpack _); vm_compute; exact I.
  - destruct (Hc2 4 106 107 []) as (st' & Hc & _ & _ & _ & Hq & _).
    + split; [simpl; lia|]. split; [vm_compute; reflexivity|].
      intros j Hj.
      assert (j = 0 \/ j = 1 \/ j = 2 \/ j = 3) as [ -> | [ -> | [ -> | -> ] ] ] by lia;
        vm_compute; discriminate.
    + vm_compute. reflexivity.
    + exists st'. split; [exact Hc|exact Hq].
Defined.

Section Claims_yield.
Context `{thread_h}.

(** C6, amended.  [thread_yield] resolves its target in these cases, for
    [A1] (first four parts) and [A2] (last four parts).  In every state:
    - "any" with an empty ready queue fails with [THREAD_NONE];
    - an explicit identifier that is neither the caller's own nor in the
      ready queue fails with [THREAD_INVALID];
    and neither failure changes a control block or a queue.  In a state
    where the caller's control block is marked active (1), the identifiers
    are within the capacity, no two blocks of the run list share one
    ([A1]) and the caller's is not in the ready queue ([A2]):
    - "self", or the caller's own identifier, queues nothing: control
      re-enters the caller and the call returns the caller's identifier;
    - "any" with a thread queued, or the identifier at the head of the
      queue: the caller goes to the tail and control to the head;
    - an identifier further down the queue (in [A2]: of a slot that is not
      FREE): that thread is unlinked, the caller goes to the tail and
      control to the thread named.
    And in every state:
    - when the caller is later switched to again, still marked as waiting,
      its [thread_yield] returns the identifier it switched to.
    In [A2] the caller is queued through [ready_enqueue], which needs
    memory for the node. *)
Theorem thread_yield_cases (want_tid : Z) (st1 : A1.runtime) (st2 : A2.runtime) :
  (want_tid = THREAD_ANY -> A1.queue st1 = [] ->
   A1.thread_yield want_tid st1 = A1.Return THREAD_NONE st1)
  /\ (want_tid <> THREAD_ANY -> want_tid <> THREAD_SELF ->
      want_tid <> A1.thread_id st1 -> want_tid ∉ A1.tids (A1.queue st1) ->
      A1.thread_yield want_tid st1 = A1.Return THREAD_INVALID st1)
  /\ (A1.running_ok st1 ->
      (want_tid = THREAD_SELF \/ want_tid = A1.thread_id st1 ->
       A1.run 1 (A1.thread_yield want_tid st1)
       = A1.Return (A1.thread_id st1)
           (A1.set_current_thread
              (A1.set_context (A1.InYield (A1.thread_id st1))
                 (A1.current_thread st1))
              (A1.free_stuff st1)))
      /\ (forall n rest,
            A1.queue st1 = n :: rest ->
            want_tid = THREAD_ANY \/ want_tid = A1.TID n ->
            A1.thread_yield want_tid st1
            = A1.Setcontext
                (A1.set_queue
                   (rest ++ [A1.parked (A1.TID n) (A1.current_thread st1)])
                   (A1.set_current_thread n (A1.free_stuff st1))))
      /\ (forall curr l1 w l2,
            A1.queue st1 = curr :: l1 ++ w :: l2 ->
            A1.TID w = want_tid -> want_tid <> A1.TID curr ->
            want_tid ∉ A1.tids l1 ->
            A1.thread_yield want_tid st1
            = A1.Setcontext
                (A1.set_queue
                   (curr :: l1 ++ l2
                    ++ [A1.parked want_tid (A1.current_thread st1)])
                   (A1.set_current_thread w (A1.free_stuff st1)))))
  /\ (forall v st',
        A1.current_thread st' = A1.parked v (A1.current_thread st1) ->
        A1.resume st'
        = A1.Return v
            (A1.set_current_thread
               (A1.set_state 1 (A1.current_thread st')) (A1.free_stuff st')))
  /\ (want_tid = THREAD_ANY -> A2.ready_head st2 = [] ->
      exists st',
        A2.thread_yield want_tid st2 = A2.Return THREAD_NONE st'
        /\ A2.set_interrupts_enabled (A2.interrupts_enabled st2) st' = st2)
  /\ (want_tid <> THREAD_ANY -> want_tid <> THREAD_SELF ->
      want_tid <> A2.thread_id st2 -> want_tid ∉ A2.ready_head st2 ->
      exists st',
        A2.thread_yield want_tid st2 = A2.Return THREAD_INVALID st'
        /\ A2.set_interrupts_enabled (A2.interrupts_enabled st2) st' = st2)
  /\ (A2.running_ok st2 ->
      (want_tid = THREAD_SELF \/ want_tid = A2.thread_id st2 ->
       exists st',
         A2.run 1 (A2.thread_yield want_tid st2)
         = A2.Return (A2.thread_id st2) st'
         /\ A2.current_thread st' = A2.current_thread st2
         /\ A2.ready_head st' = A2.ready_head st2
         /\ A2.interrupts_enabled st' = A2.interrupts_enabled st2)
      /\ (forall n rest node h,
            A2.ready_head st2 = n :: rest ->
            want_tid = THREAD_ANY \/ want_tid = n ->
            A2.heap369 st2 = Some node :: h ->
            exists st',
              A2.thread_yield want_tid st2 = A2.Setcontext st'
              /\ A2.current_thread st' = n
              /\ A2.ready_head st' = rest ++ [A2.current_thread st2]
              /\ A2.parked st2 st' n)
      /\ (forall curr l1 l2 node h,
            A2.ready_head st2 = curr :: l1 ++ want_tid :: l2 ->
            want_tid <> curr -> want_tid ∉ l1 ->
            A2.state (A2.slot (A2.threads st2) want_tid) <> 0 ->
            A2.heap369 st2 = Some node :: h ->
            exists st',
              A2.thread_yield want_tid st2 = A2.Setcontext st'
              /\ A2.current_thread st' = want_tid
              /\ A2.ready_head st'
                 = curr :: l1 ++ l2 ++ [A2.current_thread st2]
              /\ A2.parked st2 st' want_tid))
  /\ (forall v st',
        A2.current_thread st' = A2.current_thread st2 ->
        A2.context (A2.slot (A2.threads st') (A2.current_thread st2))
        = A2.InYield v (A2.interrupts_enabled st2) ->
        A2.state (A2.slot (A2.threads st') (A2.current_thread st2)) = 2 ->
        A2.resume st'
        = A2.Return v
            (A2.set_interrupts_enabled (A2.interrupts_enabled st2)
               (A2.update_slot (A2.current_thread st2) (A2.set_state 1)
                  (A2.free_stuff st')))).
Proof.
  split; [|split; [|split; [|split; [|split; [|split; [|split]]]]]].
  - intros -> Hq. by apply A1_yield.thread_yield_any_none_a1.
  - apply A1_yield.thread_yield_unknown_a1.
  - intros Hok1. split; [|split].
    + intros Hw. by apply A1_yield.thread_yield_self_round_trip_a1.
    + intros n rest Hq Hw. by apply A1_yield.thread_yield_head_a1.
    + intros curr l1 w l2 Hq Hw Hne Hl1.
      by apply A1_yield.thread_yield_queued_a1.
  - intros v st' Hcur. apply A1_yield.resume_parked_a1; by rewrite Hcur.
  - intros -> Hq. by apply A2_any_mark.thread_yield_any_none_rest_a2.
  - apply A2_any_mark.thread_yield_unknown_rest_a2.
  - intros Hok2. split; [|split].
    + intros Hw.
      destruct (A2_yield.thread_yield_self_round_trip_a2 want_tid st2 Hok2 Hw)
        as (st' & ? & ? & ? & ? & _).
      by exists st'.
    + intros n rest node h Hq Hw Hheap.
      by eapply A2_dispatch.thread_yield_head_a2.
    + intros curr l1 l2 node h Hq Hne Hl1 Hlive Hheap.
      by eapply A2_dispatch.thread_yield_queued_a2.
  - intros v st' Hcur Hctx Hst. rewrite <- Hcur in *.
    by apply A2_dispatch.resume_parked_a2.
Qed.

(** C9, amended.  [thread_yield] called with the caller's own identifier
    does what it does for [THREAD_SELF], in [A1] and in [A2], in every
    state where the identifiers are within the capacity and the caller's
    is not in the ready queue: the two calls are the same call.  Nothing
    is queued.  Unless the caller's control block is marked 3, control
    re-enters the caller and the call returns the caller's identifier,
    with the caller marked active and the queue as it was.  A caller whose
    block is marked 3 does not return from the call: it goes into
    [thread_exit(0)]. *)
Theorem thread_yield_own_id_is_self (st1 : A1.runtime) (st2 : A2.runtime) :
  A1.ids_ok st1 ->
  A2.ids_ok st2 ->
  (A1.thread_id st1 ∉ A1.tids (A1.queue st1))
  /\ A1.thread_yield (A1.thread_id st1) st1 = A1.thread_yield THREAD_SELF st1
  /\ (A1.state (A1.current_thread st1) <> 3 ->
      A1.run 1 (A1.thread_yield (A1.thread_id st1) st1)
      = A1.Return (A1.thread_id st1)
          (A1.set_current_thread
             (A1.set_state 1
                (A1.set_context (A1.InYield (A1.thread_id st1))
                   (A1.current_thread st1)))
             (A1.free_stuff st1)))
  /\ (A1.state (A1.current_thread st1) = 3 ->
      A1.thread_yield (A1.thread_id st1) st1
      = A1.thread_exit 0
          (A1.set_current_thread
             (A1.set_context (A1.InYield (A1.thread_id st1))
                (A1.current_thread st1))
             (A1.free_stuff st1)))
  /\ (A2.thread_id st2 ∉ A2.ready_head st2)
  /\ A2.thread_yield (A2.thread_id st2) st2 = A2.thread_yield THREAD_SELF st2
  /\ (A2.state (A2.slot (A2.threads st2) (A2.current_thread st2)) <> 3 ->
      exists st',
        A2.run 1 (A2.thread_yield (A2.thread_id st2) st2)
        = A2.Return (A2.thread_id st2) st'
        /\ A2.current_thread st' = A2.current_thread st2
        /\ A2.ready_head st' = A2.ready_head st2
        /\ A2.interrupts_enabled st' = A2.interrupts_enabled st2
        /\ A2.state (A2.slot (A2.threads st') (A2.current_thread st2)) = 1
        /\ forall i, 0 <= i -> i <> A2.current_thread st2 ->
                     A2.slot (A2.threads st') i = A2.slot (A2.threads st2) i)
  /\ (A2.state (A2.slot (A2.threads st2) (A2.current_thread st2)) = 3 ->
      A2.thread_yield (A2.thread_id st2) st2
      = A2.thread_exit 0
          (A2.free_stuff (A2.captured (A2.thread_id st2) st2))).
Proof.
  intros Hok1 Hok2.
  split; [|split; [|split; [|split; [|split; [|split; [|split]]]]]].
  - by apply A1_any_mark.own_id_not_queued_a1.
  - rewrite !A1_any_mark.thread_yield_self_ids_a1; auto.
  - intros H3. apply A1_any_mark.thread_yield_self_alive_a1; auto.
  - intros H3. apply A1_any_mark.thread_yield_self_marked_a1; auto.
  - by destruct Hok2 as (_ & _ & _ & ?).
  - rewrite !A2_any_mark.thread_yield_self_ids_a2; auto.
  - intros H3. apply A2_any_mark.thread_yield_self_alive_a2; auto.
  - intros H3. apply A2_any_mark.thread_yield_self_marked_a2; auto.
Qed.

End Claims_yield.

(** C6 as stated fails: 0, the identifier of the initial thread, is an
    explicit identifier that is not in the (empty) ready queue, and
    [thread_yield(0)] called by that thread returns 0, not
    [THREAD_INVALID]. *)
Lemma thread_yield_own_id_not_invalid :
  A1.tids (A1.queue (Sample.a1_boot [])) = []
  /\ 0 <> THREAD_ANY /\ 0 <> THREAD_SELF
  /\ (exists st', A1.run 1 (A1.thread_yield 0 (Sample.a1_boot []))
                  = A1.Return 0 st')
  /\ A1.thread_yield 0 (Sample.a1_boot [])
     <> A1.Return THREAD_INVALID (Sample.a1_boot []).
Proof.
  split; [reflexivity|]. split; [discriminate|]. split; [discriminate|].
  split; [eexists; reflexivity|discriminate].
Qed.

(** C9 as stated fails in [A1]: thread 1 was created, killed before it
    first ran and started all the same, so it runs with its block marked
    3.  Its identifier is not in the ready queue, which holds the initial
    thread only.  [thread_yield(1)] called by it does not return to it:
    the thread goes into [thread_exit(0)], its stack and block are put up
    for freeing, control goes to the initial thread, whose own
    [thread_yield] returns, and thread 1 is gone from the run list. *)
Lemma thread_yield_own_id_exits_marked_caller :
  exists st st' st'',
    A1.run 1 (A1.thread_yield THREAD_ANY Sample.a1_killed)
    = A1.CallMain 7 8 st
    /\ A1.thread_id st = 1
    /\ A1.tids (A1.queue st) = [0]
    /\ A1.thread_yield 1 st = A1.Setcontext st'
    /\ A1.to_free_1 st' = Some 101
    /\ A1.TID <$> A1.to_free_2 st' = Some 1
    /\ A1.resume st' = A1.Return 1 st''
    /\ A1.tids (A1.current_thread st'' :: A1.queue st'') = [0]
    /\ (forall n st3, A1.run n (A1.thread_yield 1 st) = A1.Return 1 st3 ->
                      A1.thread_id st3 <> 1).
Proof.
  eexists. eexists. eexists.
  split; [reflexivity|]. split; [reflexivity|]. split; [reflexivity|].
  split; [reflexivity|]. split; [reflexivity|]. split; [reflexivity|].
  split; [reflexivity|]. split; [reflexivity|].
  intros [|n] st3; [discriminate|]. simpl. destruct n; intros [= <-]; discriminate.
Qed.

Lemma a1_three_running_ok : A1.running_ok Sample.a1_three.
Proof.
  split; [reflexivity|]. split.
  - repeat constructor; simpl; lia.
  - apply (bool_decide_unpack _). vm_compute. exact I.
Defined.

Lemma a2_three_running_ok : A2.running_ok Sample.a2_three.
Proof.
  split; [vm_compute; reflexivity|]. split; [vm_compute; split; [discriminate|reflexivity]|].
  split; [vm_compute; reflexivity|]. split.
  - vm_compute. repeat constructor; discriminate.
  - apply (bool_decide_unpack _). vm_compute. exact I.
Defined.

(** C6, amended, with threads 1, 2 and 3 queued behind the initial thread:
    [thread_yield(3)] takes thread 3 out of the queue, puts the caller
    last, and the caller will get 3 back. *)
Lemma thread_yield_cases_witness :
  A1.running_ok Sample.a1_three
  /\ A2.running_ok Sample.a2_three
  /\ (exists st',
        A1.thread_yield 3 Sample.a1_three = A1.Setcontext st'
        /\ A1.tids (A1.current_thread st' :: A1.queue st') = [3; 1; 2; 0])
  /\ (exists st',
        A2.thread_yield 3 Sample.a2_three = A2.Setcontext st'
        /\ A2.current_thread st' = 3
        /\ A2.ready_head st' = [1; 2; 0]
        /\ A2.context (A2.slot (A2.threads st') 0) = A2.InYield 3 true).
Proof.
  split; [exact a1_three_running_ok|]. split; [exact a2_three_running_ok|].
  destruct (thread_yield_cases 3 Sample.a1_three Sample.a2_three)
    as (_ & _ & Hgo1 & _ & _ & _ & Hgo2 & _).
  destruct (Hgo1 a1_three_running_ok) as (_ & _ & Hq1).
  destruct (Hgo2 a2_three_running_ok) as (_ & _ & Hq2).
  split.
  - eexists. split.
    + apply (Hq1 (A1.mk_thread 1 (Some 101) 1 (A1.Bootstrap 7 8))
                 [A1.mk_thread 2 (Some 103) 1 (A1.Bootstrap 7 8)]
                 (A1.mk_thread 3 (Some 105) 1 (A1.Bootstrap 7 8)) []).
      * reflexivity.
      * reflexivity.
      * discriminate.
      * apply (bool_decide_unpack _). vm_compute. exact I.
    + reflexivity.
  - destruct (Hq2 1 [2] [] 106 [Some 107]) as (st' & Hy & Hc & Hr & Hp).
    + vm_compute. reflexivity.
    + discriminate.
    + apply (bool_decide_unpack _). vm_compute. exact I.
    + vm_compute. discriminate.
    + vm_compute. reflexivity.
    + exists st'. split; [exact Hy|]. split; [exact Hc|]. split; [exact Hr|].
      by destruct Hp as (_ & ? & _).
Defined.

(** C9, amended, with threads 1, 2 and 3 queued behind the initial thread,
    whose identifier is 0 and whose block is marked active. *)
Lemma thread_yield_own_id_is_self_witness :
  A1.ids_ok Sample.a1_three
  /\ A2.ids_ok Sample.a2_three
  /\ A1.state (A1.current_thread Sample.a1_three) <> 3
  /\ A2.state (A2.slot (A2.threads Sample.a2_three)
                 (A2.current_thread Sample.a2_three)) <> 3
  /\ A1.thread_yield 0 Sample.a1_three
     = A1.thread_yield THREAD_SELF Sample.a1_three
  /\ (exists st', A1.run 1 (A1.thread_yield 0 Sample.a1_three) = A1.Return 0 st')
  /\ A2.thread_yield 0 Sample.a2_three
     = A2.thread_yield THREAD_SELF Sample.a2_three
  /\ (exists st', A2.run 1 (A2.thread_yield 0 Sample.a2_three) = A2.Return 0 st'
                  /\ A2.ready_head st' = [1; 2; 3]).
Proof.
  pose proof (A1_any_mark.running_ok_ids_ok_a1 _ a1_three_running_ok) as Hok1.
  pose proof (A2_any_mark.running_ok_ids_ok_a2 _ a2_three_running_ok) as Hok2.
  assert (A1.state (A1.current_thread Sample.a1_three) <> 3) as Hl1
    by discriminate.
  assert (A2.state (A2.slot (A2.threads Sample.a2_three)
                      (A2.current_thread Sample.a2_three)) <> 3) as Hl2
    by (vm_compute; discriminate).
  split; [exact Hok1|]. split; [exact Hok2|].
  split; [exact Hl1|]. split; [exact Hl2|].
  destruct (thread_yield_own_id_is_self Sample.a1_three Sample.a2_three
              Hok1 Hok2)
    as (_ & Heq1 & Hrun1 & _ & _ & Heq2 & Hrun2 & _).
  destruct (Hrun2 Hl2) as (st' & Hr2 & _ & Hq & _).
  split; [exact Heq1|]. split; [eexists; exact (Hrun1 Hl1)|].
  split; [exact Heq2|]. exists st'. split; [exact Hr2|].
  rewrite Hq. vm_compute. reflexivity.
Defined.

Section Claims_wait.
Context `{thread_h}.

(** Whatever [add_to_end] does: when [thread_wakeup] with [all] set
    returns, the wait queue object is as it was before the call. *)
Lemma thread_wakeup_all_never_writes_head (m m' : A2L.machine) (queue : Z)
    (wq : A2L.wait_queue) (h all v : Z) :
  all <> 0 ->
  A2L.wait_queues m !! queue = Some wq ->
  A2L.head wq = Some h ->
  A2L.thread_wakeup (Some queue) all m = A2L.Return v m' ->
  A2L.wait_queues m' !! queue = Some wq.
Proof.
  intros Hall Hwq Hh. unfold A2L.thread_wakeup. rewrite Hwq, Hh. simpl.
  apply Z.eqb_neq in Hall. rewrite Hall. simpl.
  destruct (A2L.add_to_end _ _ _) as [b| |]; simpl; try discriminate.
  destruct (A2L.count_from _ _ _ _) as [num| |]; simpl; try discriminate.
  by intros [= <- <-].
Qed.

(** C7.  [thread_wakeup] with [all] set, on a wait queue that holds the
    blocks [ws]: the call returns their number, they are linked behind the
    run chain in their order, and the caller keeps running; but
    [queue->head] is never reset, so the wait queue is not left empty: it
    still holds the same blocks, which are now on the run chain as well. *)
Theorem thread_wakeup_all_keeps_queue_head (m : A2L.machine) (queue : Z)
    (wq : A2L.wait_queue) (all : Z) (rc ws : list Z) :
  A2L.wakeup_ready m queue wq rc ws ->
  ws <> [] ->
  all <> 0 ->
  exists m',
    A2L.thread_wakeup (Some queue) all m
    = A2L.Return (Z.of_nat (length ws)) m'
    /\ A2L.current_thread m' = A2L.current_thread m
    /\ A2L.chain (A2L.blocks m') (Some (A2L.current_thread m)) (rc ++ ws)
    /\ A2L.wait_queues m' !! queue = Some wq
    /\ A2L.chain (A2L.blocks m') (A2L.head wq) ws
    /\ A2L.head wq <> None.
Proof.
  intros Hready Hne Hall.
  destruct (A2L_wakeup.thread_wakeup_all_a2l m queue wq all rc ws Hready Hne Hall)
    as (m' & Hw & Hc & _ & Hrun & Hq & Hws).
  exists m'. split; [done|]. split; [done|]. split; [done|].
  split; [rewrite Hq; by destruct Hready|]. split; [done|].
  destruct ws as [|w ws]; [done|]. destruct Hready as [_ _ [-> _] _]. done.
Qed.


(** C10.  [wait_queue_destroy] asserts that the queue is empty: on a queue
    that still holds blocked threads the assertion fails and the process
    aborts; no error is returned.  On an empty queue it frees the queue. *)
Theorem wait_queue_destroy_asserts_empty (wq : Z) (m : A2L.machine)
    (q : A2L.wait_queue) (ws : list Z) :
  A2L.wait_queues m !! wq = Some q ->
  A2L.chain (A2L.blocks m) (A2L.head q) ws ->
  (ws <> [] -> A2L.wait_queue_destroy wq m = A2L.Abort)
  /\ (ws = [] ->
      A2L.wait_queue_destroy wq m
      = A2L.Done (A2L.set_wait_queues (delete wq (A2L.wait_queues m)) m)).
Proof.
  intros Hq Hws. unfold A2L.wait_queue_destroy. rewrite Hq.
  destruct ws as [|w ws]; simpl in Hws.
  - rewrite Hws. split; [done|]. done.
  - destruct Hws as [-> _]. split; [done|]. discriminate.
Qed.

End Claims_wait.

Lemma a2l_one_sleeper_wakeup_ready :
  A2L.wakeup_ready Sample.a2l_one_sleeper 1 (A2L.mk_wait_queue (Some 20))
    [10] [20].
Proof.
  split.
  - simpl. split; [reflexivity|]. eexists. split; [vm_compute; reflexivity|].
    reflexivity.
  - vm_compute. reflexivity.
  - simpl. split; [reflexivity|]. eexists. split; [vm_compute; reflexivity|].
    reflexivity.
  - intros x ->%list_elem_of_singleton.
    apply (bool_decide_unpack _). vm_compute. exact I.
Defined.

(** C7 with one sleeper: [thread_wakeup(queue, 1)] returns 1, the sleeper
    at address 20 is now behind the caller on the run chain, and the wait
    queue's head still points at it. *)
Lemma thread_wakeup_all_keeps_queue_head_witness :
  A2L.wakeup_ready Sample.a2l_one_sleeper 1 (A2L.mk_wait_queue (Some 20))
    [10] [20]
  /\ exists m',
       A2L.thread_wakeup (Some 1) 1 Sample.a2l_one_sleeper = A2L.Return 1 m'
       /\ A2L.chain (A2L.blocks m') (Some 10) [10; 20]
       /\ A2L.wait_queues m' !! 1 = Some (A2L.mk_wait_queue (Some 20)).
Proof.
  split; [exact a2l_one_sleeper_wakeup_ready|].
  destruct (thread_wakeup_all_keeps_queue_head Sample.a2l_one_sleeper 1
              (A2L.mk_wait_queue (Some 20)) 1 [10] [20]
              a2l_one_sleeper_wakeup_ready)
    as (m' & Hw & _ & Hrun & Hq & _); [discriminate|discriminate|].
  exists m'. split; [exact Hw|]. split; [exact Hrun|exact Hq].
Defined.



(** C10 on a queue with one sleeper (abort) and on an empty one (freed). *)
Lemma wait_queue_destroy_asserts_empty_witness :
  A2L.wait_queue_destroy 1 Sample.a2l_two_ready = A2L.Abort
  /\ exists m', A2L.wait_queue_destroy 2 Sample.a2l_two_ready = A2L.Done m'.
Proof.
  split.
  - eapply (wait_queue_destroy_asserts_empty 1 Sample.a2l_two_ready
              (A2L.mk_wait_queue (Some 20)) [20]).
    + vm_compute. reflexivity.
    + simpl. split; [reflexivity|]. eexists. split; [vm_compute; reflexivity|].
      reflexivity.
    + discriminate.
  - eexists.
    eapply (wait_queue_destroy_asserts_empty 2 Sample.a2l_two_ready
              (A2L.mk_wait_queue None) []).
    + vm_compute. reflexivity.
    + reflexivity.
    + reflexivity.
Defined.

(** * Further properties of the three runtimes *)

(** * Further facts: the list-based runtime *)
Module A1_more.
Import A1 A1_facts A1_yield.

Section WithHeader.
Context `{thread_h}.

Lemma run_done_a1 (n : nat) (o : outcome) :
  (forall st, o <> Setcontext st) -> run n o = o.
Proof. intros Ho. destruct n, o; try done. by destruct (Ho st). Qed.

Lemma tids_app (l1 l2 : list thread) : tids (l1 ++ l2) = tids l1 ++ tids l2.
Proof. unfold tids. apply map_app. Qed.

(** [lowest_unused] looks at the identifiers only. *)
Lemma lowest_unused_tids (l l' : list thread) (v : Z) :
  tids l = tids l' -> lowest_unused l v -> lowest_unused l' v.
Proof. unfold lowest_unused. by intros ->. Qed.

(** A block with a fresh identifier at the tail keeps the chain in order. *)
Lemma running_ok_append (st : runtime) (t : thread) :
  running_ok st ->
  0 <= TID t < THREAD_MAX_THREADS ->
  TID t ∉ tids (chain st) ->
  running_ok (set_queue (queue st ++ [t]) st).
Proof.
  intros (Hst & Hr & Hnd) Ht Hfresh. split; [done|]. simpl. split.
  - change (Forall (fun t0 => 0 <= TID t0 < THREAD_MAX_THREADS)
              ((current_thread st :: queue st) ++ [t])).
    apply Forall_app. split; [done|]. by apply Forall_singleton.
  - change (NoDup (tids ((current_thread st :: queue st) ++ [t]))).
    rewrite tids_app. apply NoDup_app. split; [done|]. split.
    + intros x Hx ->%list_elem_of_singleton. done.
    + apply NoDup_singleton.
Qed.

End WithHeader.
End A1_more.

Section Extra_A1_create_kill.
Context `{thread_h}.

(** X1.  [thread_create] of [A1/thread.c] keeps the run list in order:
    the caller keeps running, and the list either stays as it is (a failure
    result) or gets one new block at its tail, not yet started, with an
    identifier from 1 on that no block of the list held; identifiers stay
    unique and within the capacity.  The starting
    state is one where the running thread is marked active and the
    identifiers on the run list are distinct and within the capacity. *)
Theorem a1_thread_create_appends_fresh_block (fn parg : Z) (st : A1.runtime) :
  A1.running_ok st ->
  exists v st',
    A1.thread_create fn parg st = A1.Return v st'
    /\ A1.running_ok st'
    /\ A1.current_thread st' = A1.current_thread st
    /\ (((v = THREAD_NOMORE \/ v = THREAD_NOMEMORY)
         /\ A1.queue st' = A1.queue st)
        \/ (1 <= v < THREAD_MAX_THREADS
            /\ (v ∉ A1.tids (A1.chain st))
            /\ exists stack,
                 A1.queue st'
                 = A1.queue st
                   ++ [A1.mk_thread v (Some stack) 1 (A1.Bootstrap fn parg)])).
Proof.
  intros Hok.
  destruct (A1_facts.thread_create_result_a1 fn parg st)
    as (v & st' & Hc & Hv).
  exists v, st'. split; [done|].
  unfold A1.thread_create in Hc.
  destruct (A1.find_tid _ _ _) as [j| |] eqn:E.
  - assert (A1.lowest_unused (A1.chain st) j) as Hlow.
    { pose proof max_threads_range as HM.
      assert (match A1.find_tid (Z.to_nat THREAD_MAX_THREADS)
                      (A1.current_thread st :: A1.queue st) 0 with
              | A1.Found v => 0 < v < THREAD_MAX_THREADS
              | A1.NoMore => True
              | A1.Spin => False
              end) as Htot by (apply A1_facts.find_tid_total; lia).
      rewrite E in Htot.
      destruct (A1_facts.find_tid_found _ _ _ _ E) as (_ & Hj & Hheld).
      split; [lia|]. split; [done|]. intros i Hi. apply Hheld. lia. }
    unfold A1.malloc in Hc.
    destruct (A1.heap st) as [|[block|] [|[stack|] h]] eqn:Eh; simpl in Hc;
      inversion Hc; subst; clear Hc;
      try (split; [by destruct Hok|]; split; [done|]; left; by auto).
    destruct Hlow as (Hr & Hfresh & _).
    split; [|split; [done|right; split; [done|split; [done|by eexists]]]].
    apply (A1_more.running_ok_append (A1.set_heap h st)); [done|simpl; lia|done].
  - inversion Hc; subst. split; [done|]. split; [done|]. left. by auto.
  - discriminate.
Qed.

(** X2.  [thread_kill] of [A1/thread.c] writes the [state] of exactly one
    block, or nothing.  From a state where the running thread is marked
    active and the identifiers on the run list are distinct and within the
    capacity, the call returns to the caller, who keeps running, and that
    condition still holds; [to_free_1], [to_free_2] and the memory are
    untouched.  When a queued block holds the identifier, it is the only
    one that does, it is marked 3, and the queue is otherwise the same
    list, block for block and in the same order; the call returns the
    identifier.  Otherwise the call returns [THREAD_INVALID] and changes
    nothing at all. *)
Theorem a1_thread_kill_only_marks (tid : Z) (st : A1.runtime) :
  A1.running_ok st ->
  exists v st',
    A1.thread_kill tid st = A1.Return v st'
    /\ A1.running_ok st'
    /\ A1.current_thread st' = A1.current_thread st
    /\ A1.to_free_1 st' = A1.to_free_1 st
    /\ A1.to_free_2 st' = A1.to_free_2 st
    /\ A1.heap st' = A1.heap st
    /\ (tid ∉ A1.tids (A1.queue st) -> v = THREAD_INVALID /\ st' = st)
    /\ (tid ∈ A1.tids (A1.queue st) ->
        v = tid
        /\ exists l1 t l2,
             A1.queue st = l1 ++ t :: l2
             /\ A1.TID t = tid
             /\ (tid ∉ A1.tids l1) /\ (tid ∉ A1.tids l2)
             /\ A1.queue st' = l1 ++ A1.set_state 3 t :: l2).
Proof.
  intros Hok. destruct (decide (tid ∈ A1.tids (A1.queue st))) as [Hin|Hnot].
  - destruct (A1_facts.thread_kill_marks_a1 tid st Hin)
      as (l1 & t & l2 & Hq & Ht & Hl1 & Hk).
    destruct Hok as (Hst & Hr & Hnd). rewrite Hq in Hr, Hnd.
    assert (tid ∉ A1.tids l2) as Hl2.
    { unfold A1.tids in *. simpl in Hnd. apply NoDup_cons in Hnd as [_ Hnd].
      rewrite map_app in Hnd. apply NoDup_app in Hnd as (_ & _ & Hnd).
      simpl in Hnd. apply NoDup_cons in Hnd as [Hnd _]. by rewrite Ht in Hnd. }
    eexists _, _. split; [exact Hk|]. simpl.
    split; [|split; [done|split; [done|split; [done|split; [done|split]]]]].
    + split; [done|]. simpl. split.
      * apply Forall_cons in Hr as [Hc Hr]. apply Forall_cons. split; [done|].
        apply Forall_app in Hr as [Hr1 Hr2]. apply Forall_cons in Hr2 as [? ?].
        apply Forall_app. split; [done|]. by apply Forall_cons.
      * unfold A1.tids in *. simpl in *. by rewrite map_app in *.
    + tauto.
    + intros _. split; [done|]. by exists l1, t, l2.
  - eexists _, _. split; [by apply A1_facts.thread_kill_unknown|].
    split; [done|]. split; [done|]. split; [done|]. split; [done|].
    split; [done|]. split; [done|tauto].
Qed.

End Extra_A1_create_kill.

Module A1_round.
Import A1 A1_facts A1_yield A1_more.

Section WithHeader.
Context `{thread_h}.

Lemma startable_parked (want_tid : Z) (t : thread) :
  startable (parked want_tid t).
Proof. right. split; [done|]. by eexists. Qed.

(** What a switch to a block that can be switched to ends in. *)
Lemma resume_startable (st : runtime) :
  startable (current_thread st) ->
  exists st',
    user_state (resume st) = Some st'
    /\ st' = set_current_thread (set_state 1 (current_thread st)) (free_stuff st)
    /\ ((exists fn parg, resume st = CallMain fn parg st')
        \/ (exists w, context (current_thread st) = InYield w
                      /\ resume st = Return w st')).
Proof.
  intros [(Hst & fn & parg & Hctx)|(Hst & w & Hctx)].
  - rewrite (resume_bootstrap_a1 _ _ _ Hctx). eexists. split; [reflexivity|].
    split; [|left; by eexists _, _].
    rewrite free_stuff_eq_a1. destruct st as [c q f1 f2 h]. simpl in *.
    unfold set_current_thread, set_state. simpl. f_equal.
    destruct c; simpl in *. by subst.
  - rewrite (resume_parked_a1 _ _ Hctx Hst). eexists. split; [reflexivity|].
    split; [done|]. right. by eexists.
Qed.

(** One [thread_yield(THREAD_ANY)] with a thread to switch to. *)
Lemma yield_any_step (st : runtime) (n : thread) (rest : list thread) :
  round_ok st ->
  queue st = n :: rest ->
  exists st',
    user_state (run 1 (thread_yield THREAD_ANY st)) = Some st'
    /\ current_thread st' = set_state 1 n
    /\ queue st' = rest ++ [parked (TID n) (current_thread st)]
    /\ buffer_empty st'
    /\ heap st' = heap st
    /\ round_ok st'.
Proof.
  intros (Hok & Hstart) Hq.
  rewrite (thread_yield_head_a1 THREAD_ANY st n rest Hok Hq) by (by left).
  rewrite Hq in Hstart. apply Forall_cons in Hstart as [Hn Hrest].
  set (s1 := set_queue _ _).
  destruct (resume_startable s1 Hn) as (st' & Hu & -> & _).
  simpl. rewrite Hu. eexists. split; [reflexivity|].
  subst s1. rewrite !free_stuff_eq_a1. simpl.
  split; [done|]. split; [done|]. split; [done|]. split; [done|].
  destruct Hok as (Hst & Hr & Hnd). rewrite Hq in Hr, Hnd.
  apply Forall_cons in Hr as [Hc Hr]. apply Forall_cons in Hr as [Hnr Hr].
  split; [split; [done|split]|].
  - simpl. apply Forall_cons. split; [done|]. apply Forall_app. split; [done|].
    by apply Forall_singleton.
  - simpl. unfold tids in *. simpl in *. rewrite map_app. simpl.
    apply NoDup_cons in Hnd as [Hc_not Hnd]. apply NoDup_cons in Hnd as [Hn_not Hnd].
    apply not_elem_of_cons in Hc_not as [Hcn Hc_not].
    apply NoDup_cons. split.
    + rewrite elem_of_app, list_elem_of_singleton. intros [?|?]; [done|congruence].
    + apply NoDup_app. split; [done|]. split; [|apply NoDup_singleton].
      intros x Hx ->%list_elem_of_singleton. done.
  - simpl. apply Forall_app. split; [done|]. apply Forall_singleton.
    apply startable_parked.
Qed.

Lemma yield_any_alone (st : runtime) :
  queue st = [] -> yield_any st = st.
Proof.
  intros Hq. unfold yield_any. by rewrite (thread_yield_any_none_a1 _ Hq).
Qed.

Lemma yield_any_rotates (st : runtime) :
  round_ok st ->
  round_ok (yield_any st)
  /\ tids (chain (yield_any st))
     = match tids (chain st) with
       | [] => []
       | x :: l => l ++ [x]
       end.
Proof.
  intros Hok. destruct (queue st) as [|n rest] eqn:Hq.
  - rewrite (yield_any_alone _ Hq). split; [done|]. unfold chain. by rewrite Hq.
  - destruct (yield_any_step st n rest Hok Hq)
      as (st' & Hu & Hc & Hq' & _ & _ & Hok').
    unfold yield_any. rewrite Hu. simpl. split; [done|].
    unfold chain, tids. rewrite Hc, Hq', Hq. simpl. by rewrite map_app.
Qed.

End WithHeader.
End A1_round.

Section Extra_A1_round.
Context `{thread_h}.

(** X3.  Round-robin in [A1/thread.c]: when every queued thread has not
    started yet or is parked in [thread_yield], and each thread that gets
    to run calls [thread_yield(THREAD_ANY)], then after [k] such calls the
    run order is the original one rotated by [k]: the threads run in the
    order they were queued, and after as many calls as there are threads
    the order is back where it started.  The starting
    state is one where the running thread is marked active and the
    identifiers on the run list are distinct and within the capacity. *)
Theorem a1_yield_any_is_round_robin (k : nat) (st : A1.runtime) :
  A1.round_ok st ->
  (k <= length (A1.chain st))%nat ->
  A1.round_ok (Nat.iter k A1.yield_any st)
  /\ A1.tids (A1.chain (Nat.iter k A1.yield_any st))
     = drop k (A1.tids (A1.chain st)) ++ take k (A1.tids (A1.chain st)).
Proof.
  intros Hok. induction k as [|k IH]; intros Hk.
  - simpl. rewrite app_nil_r. done.
  - destruct (IH ltac:(lia)) as (Hokk & Htids).
    change (Nat.iter (S k) A1.yield_any st)
      with (A1.yield_any (Nat.iter k A1.yield_any st)).
    destruct (A1_round.yield_any_rotates _ Hokk) as (Hok' & Hrot).
    split; [done|]. rewrite Hrot, Htids.
    assert (k < length (A1.tids (A1.chain st)))%nat as Hlt
      by (unfold A1.tids; rewrite length_map; lia).
    destruct (lookup_lt_is_Some_2 _ _ Hlt) as [x Hx].
    rewrite (drop_S _ _ _ Hx), (take_S_r _ _ _ Hx).
    change ((drop (S k) (A1.tids (A1.chain st)) ++ take k (A1.tids (A1.chain st)))
            ++ [x]
            = drop (S k) (A1.tids (A1.chain st))
              ++ take k (A1.tids (A1.chain st)) ++ [x]).
    by rewrite <- app_assoc.
Qed.

End Extra_A1_round.

(** X3 with three threads queued behind the initial one: the order
    0, 1, 2, 3 becomes 2, 3, 0, 1 after two calls and is back after four. *)
Lemma a1_yield_any_is_round_robin_witness :
  A1.round_ok Sample.a1_three
  /\ A1.tids (A1.chain (Nat.iter 2 A1.yield_any Sample.a1_three)) = [2; 3; 0; 1]
  /\ A1.tids (A1.chain (Nat.iter 4 A1.yield_any Sample.a1_three)) = [0; 1; 2; 3].
Proof.
  assert (A1.round_ok Sample.a1_three) as Hok.
  { split; [exact a1_three_running_ok|].
    change (A1.queue Sample.a1_three)
      with [A1.mk_thread 1 (Some 101) 1 (A1.Bootstrap 7 8);
            A1.mk_thread 2 (Some 103) 1 (A1.Bootstrap 7 8);
            A1.mk_thread 3 (Some 105) 1 (A1.Bootstrap 7 8)].
    repeat (apply Forall_cons; split;
            [left; split; [reflexivity|by eexists _, _]|]).
    by apply Forall_nil. }
  split; [exact Hok|]. split.
  - destruct (a1_yield_any_is_round_robin 2 Sample.a1_three Hok) as [_ Hr];
      [simpl; lia|]. exact Hr.
  - destruct (a1_yield_any_is_round_robin 4 Sample.a1_three Hok) as [_ Hr];
      [simpl; lia|]. exact Hr.
Defined.

Module A1_exit.
Import A1 A1_facts A1_yield A1_more A1_round.

Section WithHeader.
Context `{thread_h}.

(** [thread_exit] with a block behind the caller. *)
Lemma thread_exit_switch (code : Z) (st : runtime) (n : thread)
    (rest : list thread) :
  queue st = n :: rest ->
  exists st',
    thread_exit code st = Setcontext st'
    /\ current_thread st' = n
    /\ queue st' = rest
    /\ heap st' = heap st
    /\ (TID (current_thread st) <> 0 ->
        to_free_1 st' = thread_stack (current_thread st)
        /\ to_free_2 st' = Some (current_thread st))
    /\ (TID (current_thread st) = 0 ->
        to_free_1 st' = to_free_1 st /\ to_free_2 st' = to_free_2 st).
Proof.
  intros Hq. unfold thread_exit.
  destruct (TID (current_thread st) =? 0) eqn:E.
  - apply Z.eqb_eq in E. rewrite Hq. eexists. split; [reflexivity|]. simpl.
    repeat split; try done. all: intros Hne; by destruct Hne.
  - apply Z.eqb_neq in E. simpl. rewrite Hq. eexists. split; [reflexivity|].
    simpl. repeat split; try done. all: intros He; by destruct E.
Qed.

Lemma thread_exit_last (code : Z) (st : runtime) :
  queue st = [] -> thread_exit code st = Exit code.
Proof.
  intros Hq. unfold thread_exit.
  destruct (TID (current_thread st) =? 0); simpl; by rewrite Hq.
Qed.

End WithHeader.
End A1_exit.

Section Extra_A1_exit.
Context `{thread_h}.

(** X4.  [thread_exit] of [A1/thread.c] never returns to its caller.  When
    no block is behind the caller the process exits with the given code.
    Otherwise the caller's block leaves the run list and the block that
    was next runs with the rest of the list behind it; the caller's stack
    and block are put into [to_free_1] and [to_free_2], unless the caller
    is the initial thread (identifier 0), whose block is static; and by
    the time user code of the next thread goes on, both have been freed.  The starting
    state is one where the running thread is marked active, the
    identifiers on the run list are distinct and within the capacity, and
    every queued thread has not started yet or is parked in
    [thread_yield]. *)
Theorem a1_thread_exit_hands_over (code : Z) (st : A1.runtime) :
  A1.round_ok st ->
  (A1.queue st = [] -> A1.thread_exit code st = A1.Exit code)
  /\ (forall n rest,
        A1.queue st = n :: rest ->
        exists st1 st2,
          A1.thread_exit code st = A1.Setcontext st1
          /\ (A1.TID (A1.current_thread st) <> 0 ->
              A1.to_free_1 st1 = A1.thread_stack (A1.current_thread st)
              /\ A1.to_free_2 st1 = Some (A1.current_thread st))
          /\ (A1.TID (A1.current_thread st) = 0 ->
              A1.to_free_1 st1 = A1.to_free_1 st
              /\ A1.to_free_2 st1 = A1.to_free_2 st)
          /\ A1.user_state (A1.resume st1) = Some st2
          /\ A1.chain st2 = A1.set_state 1 n :: rest
          /\ (A1.thread_id st ∉ A1.tids (A1.chain st2))
          /\ A1.buffer_empty st2
          /\ A1.round_ok st2).
Proof.
  intros (Hok & Hstart). split; [apply A1_exit.thread_exit_last|].
  intros n rest Hq.
  destruct (A1_exit.thread_exit_switch code st n rest Hq)
    as (st1 & He & Hc & Hq1 & Hh & Hf & Hf0).
  rewrite Hq in Hstart. apply Forall_cons in Hstart as [Hn Hrest].
  destruct (A1_round.resume_startable st1) as (st2 & Hu & -> & _);
    [by rewrite Hc|].
  exists st1. eexists. split; [done|]. split; [done|]. split; [done|].
  split; [exact Hu|]. rewrite A1_facts.free_stuff_eq_a1. unfold A1.chain. simpl.
  rewrite Hc, Hq1. split; [done|].
  destruct Hok as (Hst & Hr & Hnd). rewrite Hq in Hr, Hnd.
  apply Forall_cons in Hr as [_ Hr]. unfold A1.tids in *. simpl in *.
  apply NoDup_cons in Hnd as [Hc_not Hnd].
  split; [done|]. split; [done|].
  unfold A1.round_ok, A1.running_ok, A1.tids. simpl. rewrite Hq1.
  split; [|done]. split; [done|]. split; [|done].
  apply Forall_cons in Hr as [? ?]. by apply Forall_cons.
Qed.

(** X5.  In [A1/thread.c] the identifier of a thread that has exited can
    be handed out again: when a thread other than the initial one exits
    and every smaller identifier from 1 on is held by the threads that
    remain, the next [thread_create] (made by the thread that runs next)
    returns the identifier of the thread that exited.  The starting
    state is one where the running thread is marked active, the
    identifiers on the run list are distinct and within the capacity, and
    every queued thread has not started yet or is parked in
    [thread_yield]. *)
Theorem a1_exited_identifier_is_reused (code fn parg : Z) (st : A1.runtime)
    (n : A1.thread) (rest : list A1.thread) (block stack : Z)
    (h : list (option Z)) :
  A1.round_ok st ->
  A1.queue st = n :: rest ->
  1 <= A1.thread_id st ->
  (forall i, 1 <= i < A1.thread_id st -> i ∈ A1.tids (n :: rest)) ->
  A1.heap st = Some block :: Some stack :: h ->
  exists st1 st2,
    A1.user_state (A1.run 1 (A1.thread_exit code st)) = Some st1
    /\ A1.thread_id st1 = A1.TID n
    /\ A1.thread_create fn parg st1 = A1.Return (A1.thread_id st) st2
    /\ A1.tids (A1.chain st2) = A1.tids (n :: rest) ++ [A1.thread_id st].
Proof.
  intros (Hok & Hstart) Hq Hpos Hheld Hheap.
  destruct (A1_exit.thread_exit_switch code st n rest Hq)
    as (st1 & He & Hc1 & Hq1 & Hh1 & _).
  rewrite Hq in Hstart. apply Forall_cons in Hstart as [Hn _].
  destruct (A1_round.resume_startable st1) as (st2 & Hu & Hst2 & _);
    [by rewrite Hc1|].
  rewrite A1_facts.free_stuff_eq_a1, Hc1 in Hst2.
  assert (A1.chain st2 = A1.set_state 1 n :: rest) as Hch
    by (subst st2; unfold A1.chain; simpl; by rewrite Hq1).
  assert (A1.heap st2 = A1.heap st) as Hh2 by (by subst st2).
  destruct Hok as (_ & Hr & Hnd). rewrite Hq in Hr, Hnd.
  apply Forall_cons in Hr as [Hc _]. unfold A1.tids in Hnd. simpl in Hnd.
  apply NoDup_cons in Hnd as [Hnot _].
  assert (A1.lowest_unused (A1.chain st2) (A1.thread_id st)) as Hlow.
  { split; [unfold A1.thread_id in *; lia|]. rewrite Hch. split; [done|].
    intros i Hi. by apply Hheld. }
  exists st2. eexists. rewrite He. cbn [A1.run]. split; [done|].
  split; [by unfold A1.thread_id; injection Hch as -> _|].
  split.
  - apply (A1_facts.thread_create_ok_a1 fn parg st2 _ block stack h Hlow).
    by rewrite Hh2.
  - unfold A1.chain in *. simpl. injection Hch as Hc2 Hq2.
    rewrite Hc2, Hq2. unfold A1.tids. simpl. by rewrite map_app.
Qed.

(** X6.  Lazy kill of a parked thread in [A1/thread.c]: a thread other
    than the initial one that is parked in [thread_yield] right behind the
    caller and is killed never returns from its [thread_yield].  When the
    caller yields, the killed thread is switched to, goes into
    [thread_exit] at once, its stack and block are put up for freeing, and
    control goes on to the block behind it; if the caller is the only other
    thread, the caller's own [thread_yield] returns the killed thread's
    identifier and the caller is alone on the run list.  The starting
    state is one where the running thread is marked active and the
    identifiers on the run list are distinct and within the capacity. *)
Theorem a1_killed_parked_thread_exits (st : A1.runtime) (n : A1.thread)
    (rest : list A1.thread) (w : Z) :
  A1.running_ok st ->
  A1.queue st = n :: rest ->
  A1.context n = A1.InYield w ->
  A1.TID n <> 0 ->
  exists st1 st2,
    A1.thread_kill (A1.TID n) st = A1.Return (A1.TID n) st1
    /\ A1.run 1 (A1.thread_yield THREAD_ANY st1) = A1.Setcontext st2
    /\ A1.chain st2 = rest ++ [A1.parked (A1.TID n) (A1.current_thread st)]
    /\ A1.to_free_1 st2 = A1.thread_stack n
    /\ A1.to_free_2 st2 = Some (A1.set_state 3 n)
    /\ (rest = [] ->
        exists st3,
          A1.run 2 (A1.thread_yield THREAD_ANY st1)
          = A1.Return (A1.TID n) st3
          /\ A1.tids (A1.chain st3) = [A1.thread_id st]
          /\ A1.buffer_empty st3).
Proof.
  intros Hok Hq Hctx Hn0.
  exists (A1.set_queue (A1.set_state 3 n :: rest) st).
  assert (A1.running_ok (A1.set_queue (A1.set_state 3 n :: rest) st)) as Hok1.
  { destruct Hok as (Hst & Hr & Hnd). rewrite Hq in Hr, Hnd.
    split; [done|]. split; simpl; [|done].
    apply Forall_cons in Hr as [Hc Hr]. apply Forall_cons in Hr as [Hn Hr].
    by repeat apply Forall_cons_2. }
  assert (A1.thread_kill (A1.TID n) st
          = A1.Return (A1.TID n) (A1.set_queue (A1.set_state 3 n :: rest) st))
    as Hk.
  { unfold A1.thread_kill. rewrite Hq. simpl. by rewrite Z.eqb_refl. }
  rewrite (A1_yield.thread_yield_head_a1 THREAD_ANY _ (A1.set_state 3 n) rest Hok1)
    by (done || by left).
  set (s2 := A1.set_queue _ (A1.set_current_thread _ _)).
  assert (A1.resume s2 = A1.thread_exit 0 (A1.free_stuff s2)) as Hres
    by (by apply (A1_yield.resume_marked_3_a1 s2 w)).
  assert (exists p, A1.queue (A1.free_stuff s2)
                    = p :: drop 1 (rest ++ [A1.parked (A1.TID n) (A1.current_thread st)])
                    /\ rest ++ [A1.parked (A1.TID n) (A1.current_thread st)]
                       = p :: drop 1 (rest ++ [A1.parked (A1.TID n) (A1.current_thread st)]))
    as (p & Hq2 & Hsplit).
  { subst s2. rewrite A1_facts.free_stuff_eq_a1. simpl.
    destruct rest as [|r rest]; eexists; split; reflexivity. }
  destruct (A1_exit.thread_exit_switch 0 (A1.free_stuff s2) p _ Hq2)
    as (s3 & He & Hc3 & Hq3 & _ & Hf & _).
  assert (A1.current_thread (A1.free_stuff s2) = A1.set_state 3 n) as Hcur2
    by (subst s2; by rewrite A1_facts.free_stuff_eq_a1).
  rewrite Hcur2 in Hf. destruct (Hf Hn0) as (Hf1 & Hf2).
  exists s3. split; [done|]. simpl. rewrite Hres, He.
  split; [done|]. split; [unfold A1.chain; by rewrite Hc3, Hq3, <- Hsplit|].
  split; [done|]. split; [done|].
  intros ->. simpl in Hsplit, Hq3. injection Hsplit as <-.
  assert (A1.resume s3
          = A1.Return (A1.TID n)
              (A1.set_current_thread (A1.set_state 1 (A1.current_thread s3))
                 (A1.free_stuff s3))) as Hr3.
  { apply A1_yield.resume_parked_a1; by rewrite Hc3. }
  rewrite Hr3. eexists. split; [reflexivity|].
  rewrite !A1_facts.free_stuff_eq_a1. unfold A1.chain. simpl.
  by rewrite Hc3, Hq3.
Qed.

(** X7.  In [A1/thread.c] a running thread whose block is marked 3 (it was
    killed before it first ran and was started all the same) ends the
    whole process when it yields to another thread: [thread_yield] has
    already cut the caller off from the list when it finds the mark and
    calls [thread_exit], which sees no block behind the caller and calls
    [exit(0)], although other threads are queued. *)
Theorem a1_marked_caller_yield_exits_process (want_tid : Z) (st : A1.runtime)
    (n : A1.thread) (rest : list A1.thread) :
  A1.state (A1.current_thread st) = 3 ->
  A1.queue st = n :: rest ->
  want_tid = THREAD_ANY \/ want_tid = A1.TID n ->
  A1.thread_yield want_tid st = A1.Exit 0.
Proof.
  intros Hst Hq Hw. unfold A1.thread_yield. rewrite Hq.
  assert ((want_tid =? THREAD_ANY) || (want_tid =? A1.TID n) = true) as ->.
  { apply orb_true_iff. rewrite !Z.eqb_eq. done. }
  unfold A1.yield_from_getcontext. rewrite A1_facts.free_stuff_eq_a1. simpl.
  rewrite Hst. simpl. by apply A1_exit.thread_exit_last.
Qed.

End Extra_A1_exit.

Section Extra_A1_life.
Context `{thread_h}.

(** X8.  The life of a thread in [A1/thread.c]: a thread that is created
    and then yielded to by its identifier starts [fn(parg)] as the running
    thread, with the caller parked at the tail of the run list and nothing
    left in [to_free_1] and [to_free_2].  When the caller was alone and
    [fn] returns, [thread_stub] calls [thread_exit(0)], the caller's
    [thread_yield] returns the new thread's identifier, the caller is
    alone again, and the stack and the block of the thread have been
    handed to [free].  The starting
    state is one where the running thread is marked active and the
    identifiers on the run list are distinct and within the capacity. *)
Theorem a1_created_thread_runs_and_is_reclaimed (fn parg : Z)
    (st : A1.runtime) (v block stack : Z) (h : list (option Z)) :
  A1.running_ok st ->
  A1.lowest_unused (A1.chain st) v ->
  A1.heap st = Some block :: Some stack :: h ->
  exists st1 st2,
    A1.thread_create fn parg st = A1.Return v st1
    /\ A1.run 1 (A1.thread_yield v st1) = A1.CallMain fn parg st2
    /\ A1.current_thread st2
       = A1.mk_thread v (Some stack) 1 (A1.Bootstrap fn parg)
    /\ A1.queue st2 = A1.queue st ++ [A1.parked v (A1.current_thread st)]
    /\ A1.buffer_empty st2
    /\ (A1.queue st = [] ->
        exists st3 st4,
          A1.thread_stub_return st2 = A1.Setcontext st3
          /\ A1.to_free_1 st3 = Some stack
          /\ A1.to_free_2 st3 = Some (A1.current_thread st2)
          /\ A1.resume st3 = A1.Return v st4
          /\ A1.chain st4
             = [A1.set_context (A1.InYield v) (A1.current_thread st)]
          /\ A1.buffer_empty st4).
Proof.
  intros Hok Hlow Hheap.
  pose proof Hlow as (Hv & Hfresh & _).
  set (new := A1.mk_thread v (Some stack) 1 (A1.Bootstrap fn parg)).
  set (st1 := A1.set_queue (A1.queue st ++ [new]) (A1.set_heap h st)).
  assert (A1.running_ok st1) as Hok1.
  { apply (A1_more.running_ok_append (A1.set_heap h st) new); [done| |done].
    simpl. lia. }
  assert (A1.run 1 (A1.thread_yield v st1)
          = A1.CallMain fn parg
              (A1.free_stuff
                 (A1.set_queue
                    (A1.queue st ++ [A1.parked v (A1.current_thread st)])
                    (A1.set_current_thread new (A1.free_stuff st1))))) as Hrun.
  { destruct (A1.queue st) as [|curr l1] eqn:Hq.
    - rewrite (A1_yield.thread_yield_head_a1 v st1 new []); try done.
      by right.
    - rewrite (A1_yield.thread_yield_queued_a1 v st1 curr new l1 []);
        try done.
      + intros ->. apply Hfresh. unfold A1.chain, A1.tids. rewrite Hq. simpl.
        rewrite !elem_of_cons. auto.
      + intros Hin. apply Hfresh. unfold A1.chain, A1.tids in *. rewrite Hq.
        simpl. rewrite !elem_of_cons. auto. }
  exists st1. eexists. split.
  { apply (A1_facts.thread_create_ok_a1 fn parg st v block stack h); done. }
  split; [exact Hrun|]. rewrite !A1_facts.free_stuff_eq_a1. simpl.
  split; [done|]. split; [done|]. split; [done|].
  intros Hq. rewrite Hq. simpl.
  assert (v <> 0) as Hv0 by lia.
  unfold A1.thread_stub_return, A1.thread_exit. simpl.
  apply Z.eqb_neq in Hv0. rewrite Hv0. simpl.
  eexists. eexists. split; [reflexivity|]. simpl.
  split; [done|]. split; [done|].
  unfold A1.resume. simpl. unfold A1.yield_from_getcontext.
  rewrite !A1_facts.free_stuff_eq_a1. simpl. split; [reflexivity|].
  unfold A1.chain. simpl. split; [|done].
  destruct Hok as (Hst & _). unfold A1.set_state, A1.set_context. simpl.
  by rewrite <- Hst.
Qed.

(** X9.  The deferred frees of [A1/thread.c] are never pending when user
    code runs again after a switch: if control, after any number of
    context switches that [thread_yield] or [thread_exit] sets off, comes
    back to user code (a [thread_yield] returns or a new thread's function
    is called), [to_free_1] and [to_free_2] are both [NULL]; the one
    exception is a [thread_yield] that fails at once and changes
    nothing. *)
Theorem a1_no_pending_frees_in_user_code (n : nat) (st st' : A1.runtime) :
  (forall want_tid,
     A1.user_state (A1.run n (A1.thread_yield want_tid st)) = Some st' ->
     A1.buffer_empty st'
     \/ (st' = st
         /\ exists v, A1.thread_yield want_tid st = A1.Return v st
                      /\ (v = THREAD_NONE \/ v = THREAD_INVALID)))
  /\ (forall exit_code,
        A1.user_state (A1.run n (A1.thread_exit exit_code st)) = Some st' ->
        A1.buffer_empty st').
Proof.
  assert (forall code s k,
            (forall s0, A1.user_state (A1.run k (A1.Setcontext s0)) = Some st'
                        -> A1.buffer_empty st') ->
            A1.user_state (A1.run k (A1.thread_exit code s)) = Some st' ->
            A1.buffer_empty st') as Hexit.
  { intros code s k Hsw. unfold A1.thread_exit.
    destruct (A1.TID (A1.current_thread s) =? 0); simpl;
      destruct (A1.queue s); try (by destruct k); apply Hsw. }
  assert (forall w wanted s k,
            (forall s0, A1.user_state (A1.run k (A1.Setcontext s0)) = Some st'
                        -> A1.buffer_empty st') ->
            A1.user_state (A1.run k (A1.yield_from_getcontext w wanted s))
            = Some st' ->
            A1.buffer_empty st') as Hyield.
  { intros w wanted s k Hsw. unfold A1.yield_from_getcontext.
    rewrite A1_facts.free_stuff_eq_a1. simpl.
    destruct (A1.state (A1.current_thread s) =? 3); [by apply Hexit|].
    destruct (A1.state (A1.current_thread s) =? 2).
    - rewrite A1_more.run_done_a1 by done. simpl. by intros [= <-].
    - destruct wanted as [[|x before]|]; try apply Hsw. by destruct k. }
  assert (forall k s0, A1.user_state (A1.run k (A1.Setcontext s0)) = Some st'
                       -> A1.buffer_empty st') as Hsw.
  { induction k as [|k IH]; intros s0; [done|]. simpl. unfold A1.resume.
    destruct (A1.context (A1.current_thread s0)) as [|fn parg|w].
    - apply IH.
    - unfold A1.thread_stub. rewrite A1_more.run_done_a1 by done. simpl.
      intros [= <-]. by rewrite A1_facts.free_stuff_eq_a1.
    - by apply Hyield. }
  split; [|intros code; apply Hexit, Hsw].
  intros want_tid. unfold A1.thread_yield.
  repeat match goal with
         | |- context [if ?b then _ else _] => destruct b
         | |- context [match A1.queue st with _ => _ end] =>
             destruct (A1.queue st)
         | |- context [match A1.unlink ?a ?b with _ => _ end] =>
             destruct (A1.unlink a b) as [[? ?]|]
         end;
    try (intros Hu; left; revert Hu; apply Hyield, Hsw);
    rewrite A1_more.run_done_a1 by done; simpl; intros [= <-]; right;
    (split; [done|]); eexists; (split; [reflexivity|]); auto.
Qed.

End Extra_A1_life.

(** The sample chains are in order. *)
Lemma a1_three_round_ok (k : nat) :
  (k <= 4)%nat -> A1.round_ok (Nat.iter k A1.yield_any Sample.a1_three).
Proof.
  intros Hk.
  assert (k = 0 \/ k = 1 \/ k = 2 \/ k = 3 \/ k = 4)%nat
    as [ -> | [ -> | [ -> | [ -> | -> ] ] ] ] by lia.
  all: split;
    [ split; [reflexivity|]; split;
        [ vm_compute; repeat (apply Forall_cons; split;
                                [split; [discriminate|reflexivity]|]);
          by apply Forall_nil
        | apply (bool_decide_unpack _); vm_compute; exact I ]
    | vm_compute;
      repeat (apply Forall_cons; split;
                [first [ left; split; [reflexivity|by eexists _, _]
                       | right; split; [reflexivity|by eexists] ]|]);
      by apply Forall_nil ].
Defined.

(** X1 with three threads behind the initial one: the fourth gets
    identifier 4 and goes to the tail. *)
Lemma a1_thread_create_appends_fresh_block_witness :
  A1.running_ok Sample.a1_three
  /\ exists st',
       A1.thread_create 7 8 Sample.a1_three = A1.Return 4 st'
       /\ A1.tids (A1.chain st') = [0; 1; 2; 3; 4].
Proof.
  split; [exact a1_three_running_ok|].
  destruct (a1_thread_create_appends_fresh_block 7 8 Sample.a1_three
              a1_three_running_ok) as (v & st' & Hc & _).
  exists st'. vm_compute in Hc. injection Hc as <- <-. split; reflexivity.
Defined.

(** X2 with three threads behind the initial one: killing thread 2 marks
    its block and leaves the blocks of 1 and 3 as they are. *)
Lemma a1_thread_kill_only_marks_witness :
  A1.running_ok Sample.a1_three
  /\ exists st',
       A1.thread_kill 2 Sample.a1_three = A1.Return 2 st'
       /\ A1.running_ok st'
       /\ map A1.state (A1.queue Sample.a1_three) = [1; 1; 1]
       /\ map A1.state (A1.queue st') = [1; 3; 1].
Proof.
  split; [exact a1_three_running_ok|].
  destruct (a1_thread_kill_only_marks 2 Sample.a1_three a1_three_running_ok)
    as (v & st' & Hk & Hok & _ & _ & _ & _ & _ & Hv).
  assert (2 ∈ A1.tids (A1.queue Sample.a1_three)) as Hin
    by (apply (bool_decide_unpack _); vm_compute; exact I).
  destruct (Hv Hin) as (-> & _).
  exists st'. split; [exact Hk|]. split; [exact Hok|]. split; [reflexivity|].
  vm_compute in Hk. injection Hk as <-. reflexivity.
Defined.

(** X4 with three threads behind the initial one: the initial thread
    exits and thread 1 runs with 2 and 3 behind it. *)
Lemma a1_thread_exit_hands_over_witness :
  A1.round_ok Sample.a1_three
  /\ exists st1 st2,
       A1.thread_exit 0 Sample.a1_three = A1.Setcontext st1
       /\ A1.user_state (A1.resume st1) = Some st2
       /\ A1.tids (A1.chain st2) = [1; 2; 3].
Proof.
  split; [exact (a1_three_round_ok 0 ltac:(lia))|].
  destruct (a1_thread_exit_hands_over 0 Sample.a1_three
              (a1_three_round_ok 0 ltac:(lia))) as (_ & Hex).
  destruct (Hex (A1.mk_thread 1 (Some 101) 1 (A1.Bootstrap 7 8))
                [A1.mk_thread 2 (Some 103) 1 (A1.Bootstrap 7 8);
                 A1.mk_thread 3 (Some 105) 1 (A1.Bootstrap 7 8)]
                eq_refl)
    as (st1 & st2 & He & _ & _ & Hu & Hch & _).
  exists st1, st2. split; [exact He|]. split; [exact Hu|]. by rewrite Hch.
Defined.

(** X5 with the run order 2, 3, 0, 1: thread 2 exits, thread 3 runs
    and its [thread_create] returns 2 again. *)
Lemma a1_exited_identifier_is_reused_witness :
  A1.tids (A1.chain (Nat.iter 2 A1.yield_any Sample.a1_three)) = [2; 3; 0; 1]
  /\ exists st1 st2,
       A1.user_state
         (A1.run 1 (A1.thread_exit 0 (Nat.iter 2 A1.yield_any Sample.a1_three)))
       = Some st1
       /\ A1.thread_create 7 8 st1 = A1.Return 2 st2
       /\ A1.tids (A1.chain st2) = [3; 0; 1; 2].
Proof.
  split; [reflexivity|].
  destruct (a1_exited_identifier_is_reused 0 7 8
              (Nat.iter 2 A1.yield_any Sample.a1_three)
              (A1.mk_thread 3 (Some 105) 1 (A1.Bootstrap 7 8))
              [A1.mk_thread 0 None 2 (A1.InYield 1);
               A1.mk_thread 1 (Some 101) 2 (A1.InYield 2)]
              106 107 [])
    as (st1 & st2 & Hu & _ & Hc & Ht).
  - exact (a1_three_round_ok 2 ltac:(lia)).
  - reflexivity.
  - vm_compute. discriminate.
  - intros i Hi.
    change (1 <= i < 2) in Hi. assert (i = 1) as -> by lia.
    apply (bool_decide_unpack _). vm_compute. exact I.
  - reflexivity.
  - exists st1, st2. split; [exact Hu|]. split; [exact Hc|]. exact Ht.
Defined.

(** X6 with the run order 0, 1, 2, 3, all parked but the caller:
    thread 1 is killed and exits as soon as it is yielded to. *)
Lemma a1_killed_parked_thread_exits_witness :
  A1.tids (A1.chain (Nat.iter 4 A1.yield_any Sample.a1_three)) = [0; 1; 2; 3]
  /\ exists st1 st2,
       A1.thread_kill 1 (Nat.iter 4 A1.yield_any Sample.a1_three)
       = A1.Return 1 st1
       /\ A1.run 1 (A1.thread_yield THREAD_ANY st1) = A1.Setcontext st2
       /\ A1.tids (A1.chain st2) = [2; 3; 0]
       /\ A1.to_free_1 st2 = Some 101.
Proof.
  split; [reflexivity|].
  destruct (a1_killed_parked_thread_exits
              (Nat.iter 4 A1.yield_any Sample.a1_three)
              (A1.mk_thread 1 (Some 101) 2 (A1.InYield 2))
              [A1.mk_thread 2 (Some 103) 2 (A1.InYield 3);
               A1.mk_thread 3 (Some 105) 2 (A1.InYield 0)] 2)
    as (st1 & st2 & Hk & Hr & Hch & Hf1 & _).
  - exact (proj1 (a1_three_round_ok 4 ltac:(lia))).
  - reflexivity.
  - reflexivity.
  - discriminate.
  - exists st1, st2. split; [exact Hk|]. split; [exact Hr|].
    split; [by rewrite Hch|exact Hf1].
Defined.

(** X7 with a thread that was killed before it first ran and started
    all the same: its [thread_yield] ends the process although the initial
    thread is queued. *)
Lemma a1_marked_caller_yield_exits_process_witness :
  exists st,
    A1.run 1 (A1.thread_yield THREAD_ANY Sample.a1_killed) = A1.CallMain 7 8 st
    /\ A1.state (A1.current_thread st) = 3
    /\ A1.tids (A1.queue st) = [0]
    /\ A1.thread_yield THREAD_ANY st = A1.Exit 0.
Proof.
  eexists. split; [reflexivity|]. split; [reflexivity|].
  split; [reflexivity|].
  apply (a1_marked_caller_yield_exits_process THREAD_ANY _
           (A1.mk_thread 0 None 2 (A1.InYield 1)) []).
  - reflexivity.
  - reflexivity.
  - by left.
Defined.

(** X8 right after [thread_init]: thread 1 is created, runs, returns,
    and the initial thread is alone again. *)
Lemma a1_created_thread_runs_and_is_reclaimed_witness :
  A1.running_ok (Sample.a1_boot [Some 100; Some 101])
  /\ exists st1 st2 st3 st4,
       A1.thread_create 7 8 (Sample.a1_boot [Some 100; Some 101])
       = A1.Return 1 st1
       /\ A1.run 1 (A1.thread_yield 1 st1) = A1.CallMain 7 8 st2
       /\ A1.thread_stub_return st2 = A1.Setcontext st3
       /\ A1.resume st3 = A1.Return 1 st4
       /\ A1.tids (A1.chain st4) = [0].
Proof.
  assert (A1.running_ok (Sample.a1_boot [Some 100; Some 101])) as Hok.
  { split; [reflexivity|]. split.
    - repeat constructor; simpl; lia.
    - apply (bool_decide_unpack _). vm_compute. exact I. }
  split; [exact Hok|].
  destruct (a1_created_thread_runs_and_is_reclaimed 7 8
              (Sample.a1_boot [Some 100; Some 101]) 1 100 101 [] Hok)
    as (st1 & st2 & Hc & Hr & _ & _ & _ & Hlone).
  - split; [simpl; lia|]. split.
    + apply (bool_decide_unpack _). vm_compute. exact I.
    + intros i Hi. lia.
  - reflexivity.
  - destruct (Hlone eq_refl) as (st3 & st4 & Hs & _ & _ & Hres & Hch & _).
    exists st1, st2, st3, st4. split; [exact Hc|]. split; [exact Hr|].
    split; [exact Hs|]. split; [exact Hres|]. by rewrite Hch.
Defined.

(** X9 with thread 1 exiting: its stack is pending at the switch and
    freed by the time thread 2 runs. *)
Lemma a1_no_pending_frees_in_user_code_witness :
  exists st',
    A1.user_state (A1.run 1 (A1.thread_exit 0
                               (Nat.iter 1 A1.yield_any Sample.a1_three)))
    = Some st'
    /\ A1.to_free_1 (Sample.a1_after
                       (A1.thread_exit 0
                          (Nat.iter 1 A1.yield_any Sample.a1_three)))
       = Some 101
    /\ A1.buffer_empty st'.
Proof.
  eexists. split; [reflexivity|]. split; [reflexivity|].
  apply (proj2 (a1_no_pending_frees_in_user_code 1
                  (Nat.iter 1 A1.yield_any Sample.a1_three) _) 0).
  reflexivity.
Defined.

(** * Further facts about the table-based runtime *)
Module A2_more.
Import A2 A2_facts A2_table A2_yield A2_dispatch.

Section WithHeader.
Context `{thread_h}.

Lemma run_done_a2 (n : nat) (o : outcome) :
  (forall st, o <> Setcontext st) -> run n o = o.
Proof. intros Ho. destruct n, o; try done. by destruct (Ho st). Qed.

(** The loop of [thread_init] over the slots named by [l]. *)
Lemma init_loop (l : list Z) (st : runtime) :
  Forall (fun i => 0 <= i /\ (Z.to_nat i < length (threads st))%nat) l ->
  let st' :=
    foldl (fun st i =>
             update_slot i
               (fun t => set_wait_q None (set_state 0 (set_TID i t))) st)
          st l in
  length (threads st') = length (threads st)
  /\ current_thread st' = current_thread st
  /\ ready_head st' = ready_head st
  /\ to_free_1 st' = to_free_1 st
  /\ to_free_2 st' = to_free_2 st
  /\ interrupts_enabled st' = interrupts_enabled st
  /\ heap369 st' = heap369 st
  /\ forall j, 0 <= j ->
       slot (threads st') j
       = if decide (j ∈ l)
         then mk_thread j (thread_stack (slot (threads st) j)) None 0
                (context (slot (threads st) j))
         else slot (threads st) j.
Proof.
  revert st. induction l as [|i l IH]; intros st Hl; simpl.
  - by repeat split.
  - apply Forall_cons in Hl as [[Hi Hlen] Hl].
    set (st1 := update_slot i _ st).
    assert (length (threads st1) = length (threads st)) as Hlen1
      by (subst st1; simpl; by rewrite length_alter).
    destruct (IH st1) as (H1 & H2 & H3 & H4 & H5 & H6 & H7 & H8).
    { rewrite Hlen1. done. }
    rewrite H1, H2, H3, H4, H5, H6, H7. repeat split; try done.
    intros j Hj. rewrite (H8 j Hj).
    destruct (decide (j = i)) as [->|Hne].
    + assert (slot (threads st1) i
              = mk_thread i (thread_stack (slot (threads st) i)) None 0
                  (context (slot (threads st) i))) as Hs.
      { subst st1. simpl. by rewrite slot_alter_eq. }
      rewrite Hs. simpl.
      destruct (decide (i ∈ l)), (decide (i ∈ i :: l)) as [|Hn]; try done;
        destruct Hn; apply elem_of_cons; by left.
    + assert (slot (threads st1) j = slot (threads st) j) as Hs.
      { subst st1. simpl. rewrite slot_alter_ne; [done|lia]. }
      rewrite Hs.
      destruct (decide (j ∈ l)) as [Hin|Hnot],
               (decide (j ∈ i :: l)) as [Hin'|Hnot']; try done.
      * destruct Hnot'. apply elem_of_cons. by right.
      * apply elem_of_cons in Hin' as [?|?]; done.
Qed.

(** A switch away from a thread whose slot is not marked 2 or 3. *)
Lemma switch_slots (want_tid : Z) (enabled : bool) (st : runtime) :
  table_ok st -> 0 <= current_thread st < THREAD_MAX_THREADS ->
  state (slot (threads st) (current_thread st)) <> 3 ->
  state (slot (threads st) (current_thread st)) <> 2 ->
  exists st',
    yield_from_getcontext want_tid enabled st = Setcontext st'
    /\ current_thread st' = want_tid
    /\ ready_head st' = ready_head st
    /\ table_ok st'
    /\ buffer_empty st'
    /\ slot (threads st') (current_thread st)
       = set_state 2 (slot (threads st) (current_thread st))
    /\ forall i, 0 <= i -> i <> current_thread st ->
                 slot (threads st') i = slot (threads st) i.
Proof.
  intros Hok Hcur H3 H2. pose proof (in_table _ _ Hok Hcur) as Hlen.
  rewrite yield_from_getcontext_switch by done.
  eexists. split; [reflexivity|]. rewrite free_stuff_eq_a2. simpl.
  split; [done|]. split; [done|].
  split; [unfold table_ok; simpl; by rewrite length_alter|].
  split; [done|]. split; [by rewrite slot_alter_eq|].
  intros i Hi Hne. rewrite slot_alter_ne; [done|lia].
Qed.

(** "any", or the head of the ready queue, with memory for the caller's
    ready node: the state control leaves through. *)
Lemma thread_yield_head_slots (want_tid : Z) (st : runtime) (n : Z)
    (rest : list Z) (node : Z) (h : list (option Z)) :
  running_ok st ->
  ready_head st = n :: rest ->
  want_tid = THREAD_ANY \/ want_tid = n ->
  heap369 st = Some node :: h ->
  exists st',
    thread_yield want_tid st = Setcontext st'
    /\ current_thread st' = n
    /\ ready_head st' = rest ++ [current_thread st]
    /\ table_ok st'
    /\ buffer_empty st'
    /\ heap369 st' = h
    /\ slot (threads st') (current_thread st)
       = set_state 2
           (set_context (InYield n (interrupts_enabled st))
              (slot (threads st) (current_thread st)))
    /\ forall i, 0 <= i -> i <> current_thread st ->
                 slot (threads st') i = slot (threads st) i.
Proof.
  intros Hrun Hq Hw Hheap. pose proof Hrun as (Hok & Hcur & Hst & _ & _).
  pose proof (in_table _ _ Hok Hcur) as Hlen.
  unfold thread_yield. simpl. rewrite Hq.
  assert ((want_tid =? THREAD_ANY) || (want_tid =? n) = true) as ->.
  { apply orb_true_iff. rewrite !Z.eqb_eq. done. }
  unfold ready_enqueue, malloc369, thread_id. simpl. rewrite Hheap. simpl.
  unfold free369.
  set (s := update_slot _ _ _).
  destruct (switch_slots n (interrupts_enabled st) s)
    as (st' & Hy & Hc & Hr & Hok' & Hb & Hs & Hrest).
  - unfold table_ok in *. subst s. simpl. by rewrite length_alter.
  - done.
  - subst s. simpl. rewrite slot_alter_state by done. lia.
  - subst s. simpl. rewrite slot_alter_state by done. lia.
  - assert (current_thread s = current_thread st) as Hcs by done.
    rewrite Hcs in Hs, Hrest.
    exists st'. split; [done|]. split; [done|]. split; [done|].
    split; [done|]. split; [done|]. split.
    + rewrite yield_from_getcontext_switch in Hy.
      * injection Hy as <-. by rewrite free_stuff_eq_a2.
      * subst s. simpl. rewrite slot_alter_state by done. lia.
      * subst s. simpl. rewrite slot_alter_state by done. lia.
    + split.
      * rewrite Hs. subst s. simpl. by rewrite slot_alter_eq.
      * intros i Hi Hne. rewrite (Hrest i Hi Hne). subst s. simpl.
        rewrite slot_alter_ne; [done|lia].
Qed.

End WithHeader.
End A2_more.

Section Extra_A2.
Context `{thread_h}.

(** X10.  [thread_init] of [A2/thread.c] resets the whole table: whatever
    the slots held, afterwards slot [i] has identifier [i], no wait queue
    and is FREE, except slot 0, which is the running thread and marked
    active; the ready queue is not touched.  So with an empty ready queue
    the runtime is in order, and the first [thread_create] (given memory
    and a capacity above 1) returns identifier 1 and queues it. *)
Theorem a2_thread_init_resets_table (st : A2.runtime) :
  A2.table_ok st ->
  A2.table_ok (A2.thread_init st)
  /\ A2.current_thread (A2.thread_init st) = 0
  /\ A2.ready_head (A2.thread_init st) = A2.ready_head st
  /\ (forall i, 0 <= i < THREAD_MAX_THREADS ->
        A2.slot (A2.threads (A2.thread_init st)) i
        = A2.mk_thread i (A2.thread_stack (A2.slot (A2.threads st) i)) None
            (if decide (i = 0) then 1 else 0)
            (A2.context (A2.slot (A2.threads st) i)))
  /\ (A2.ready_head st = [] -> A2.running_ok (A2.thread_init st))
  /\ (forall fn parg stack node h,
        1 < THREAD_MAX_THREADS ->
        A2.heap369 st = Some stack :: Some node :: h ->
        exists st',
          A2.thread_create fn parg (A2.thread_init st) = A2.Return 1 st'
          /\ A2.ready_head st' = A2.ready_head st ++ [1]
          /\ A2.context (A2.slot (A2.threads st') 1) = A2.Bootstrap fn parg).
Proof.
  intros Hok. pose proof max_threads_range as Hmax.
  unfold A2.thread_init.
  set (loop := foldl _ st (seqZ 0 THREAD_MAX_THREADS)).
  destruct (A2_more.init_loop (seqZ 0 THREAD_MAX_THREADS) st)
    as (H1 & H2 & H3 & H4 & H5 & H6 & H7 & H8).
  { apply Forall_forall. intros i Hi%elem_of_seqZ. split; [lia|].
    apply A2_table.in_table; [done|lia]. }
  fold loop in H1, H2, H3, H4, H5, H6, H7, H8.
  assert (A2.table_ok (A2.update_slot 0 (A2.set_state 1)
                         (A2.set_current_thread 0 loop))) as Hok'.
  { unfold A2.table_ok in *. simpl. by rewrite length_alter, H1. }
  assert (forall i, 0 <= i < THREAD_MAX_THREADS ->
            A2.slot (A2.threads (A2.update_slot 0 (A2.set_state 1)
                                   (A2.set_current_thread 0 loop))) i
            = A2.mk_thread i (A2.thread_stack (A2.slot (A2.threads st) i)) None
                (if decide (i = 0) then 1 else 0)
                (A2.context (A2.slot (A2.threads st) i))) as Hslots.
  { intros i Hi. simpl.
    assert (i ∈ seqZ 0 THREAD_MAX_THREADS) as Hin by (apply elem_of_seqZ; lia).
    destruct (decide (i = 0)) as [->|Hne].
    - change (Z.to_nat 0) with (Z.to_nat 0%Z).
      rewrite A2_facts.slot_alter_eq.
      + rewrite (H8 0) by lia. by destruct (decide _).
      + rewrite H1. apply A2_table.in_table; [done|lia].
    - rewrite A2_facts.slot_alter_ne by lia.
      rewrite (H8 i) by lia. by destruct (decide _). }
  split; [done|]. split; [done|]. split; [by simpl|]. split; [done|].
  assert (A2.state (A2.slot (A2.threads (A2.update_slot 0 (A2.set_state 1)
                                           (A2.set_current_thread 0 loop))) 0)
          = 1) as Hst0.
  { rewrite Hslots by lia. done. }
  split.
  - intros Hq. split; [done|]. split; [simpl; lia|]. split; [done|].
    simpl. rewrite H3, Hq. split; [by apply Forall_nil|]. by intros ?%elem_of_nil.
  - intros fn parg stack node h Hcap Hheap.
    destruct (A2_table.thread_create_ok_a2 fn parg
                (A2.update_slot 0 (A2.set_state 1) (A2.set_current_thread 0 loop))
                1 stack node h Hok')
      as (st' & Hc & _ & Hctx & _ & Hq & _).
    + split; [lia|]. split.
      * rewrite Hslots by lia. done.
      * intros j Hj. assert (j = 0) as -> by lia. rewrite Hst0. done.
    + simpl. by rewrite H7.
    + exists st'. split; [done|]. split; [|done]. rewrite Hq. simpl.
      by rewrite H3.
Qed.

(** X11.  In [A2/thread.c] [thread_yield] ignores the result of
    [ready_enqueue(thread_id())]: when the allocation of the ready node
    fails, the switch to the head of the ready queue happens all the same,
    and the caller is left marked as waiting and in no queue.  The starting
    state is one where the table is whole, the caller's slot is marked
    active and the ready queue holds identifiers of the table other than
    the caller's. *)
Theorem a2_thread_yield_without_memory_loses_caller (want_tid : Z)
    (st : A2.runtime) (n : Z) (rest : list Z) :
  A2.running_ok st ->
  A2.ready_head st = n :: rest ->
  want_tid = THREAD_ANY \/ want_tid = n ->
  fst (A2.malloc369 st) = None ->
  exists st',
    A2.thread_yield want_tid st = A2.Setcontext st'
    /\ A2.current_thread st' = n
    /\ A2.ready_head st' = rest
    /\ (A2.current_thread st ∉ A2.ready_head st')
    /\ A2.parked st st' n.
Proof.
  intros Hrun Hq Hw Hheap. unfold A2.thread_yield. simpl. rewrite Hq.
  assert ((want_tid =? THREAD_ANY) || (want_tid =? n) = true) as ->.
  { apply orb_true_iff. rewrite !Z.eqb_eq. done. }
  pose proof Hrun as (_ & _ & _ & _ & Hnq). rewrite Hq in Hnq.
  apply not_elem_of_cons in Hnq as [_ Hnq].
  unfold A2.ready_enqueue, A2.malloc369, A2.thread_id in *. simpl.
  destruct (A2.heap369 st) as [|[p|] h] eqn:Hh; simpl in *; try done.
  - destruct (A2_dispatch.switch_parks n rest [] st Hrun)
      as (st' & Hy & Hc & Hr & Hp).
    assert (A2.set_heap369 []
              (A2.set_ready_head rest (A2.set_interrupts_enabled false st))
            = A2.set_ready_head rest (A2.set_interrupts_enabled false st))
      as Heq.
    { unfold A2.set_heap369, A2.set_ready_head. simpl. by rewrite Hh. }
    rewrite Heq in Hy.
    exists st'. split; [by rewrite <- Hy|]. by rewrite Hr.
  - destruct (A2_dispatch.switch_parks n rest h st Hrun)
      as (st' & Hy & Hc & Hr & Hp).
    exists st'. split; [by rewrite <- Hy|]. by rewrite Hr.
Qed.

(** X12.  In [A2/thread.c] [thread_kill] marks the slot FREE at once and
    leaves the identifier in the ready queue, so [thread_create] can hand
    the identifier out again while it is still queued: when a queued
    thread is killed and its slot is the lowest FREE one, the next
    [thread_create] returns the killed thread's identifier, overwrites its
    saved context with the new entry point and queues the identifier a
    second time.  The starting
    state is one where the table is whole, the caller's slot is marked
    active and the ready queue holds identifiers of the table other than
    the caller's. *)
Theorem a2_killed_identifier_is_queued_twice (fn parg tid : Z)
    (st : A2.runtime) (stack node : Z) (h : list (option Z)) :
  A2.running_ok st ->
  tid ∈ A2.ready_head st ->
  A2.state (A2.slot (A2.threads st) tid) <> 0 ->
  (forall j, 0 <= j < tid -> A2.state (A2.slot (A2.threads st) j) <> 0) ->
  A2.heap369 st = Some stack :: Some node :: h ->
  exists st1 st2,
    A2.thread_kill tid st = A2.Return tid st1
    /\ A2.ready_head st1 = A2.ready_head st
    /\ A2.thread_create fn parg st1 = A2.Return tid st2
    /\ A2.ready_head st2 = A2.ready_head st ++ [tid]
    /\ A2.context (A2.slot (A2.threads st2) tid) = A2.Bootstrap fn parg
    /\ ~ NoDup (A2.ready_head st2).
Proof.
  intros Hrun Hin Hlive Hbelow Hheap.
  pose proof Hrun as (Hok & Hcur & Hst & Hqok & Hnq).
  pose proof max_threads_range as Hmax.
  assert (0 <= tid < THREAD_MAX_THREADS) as Hr.
  { by apply (proj1 (Forall_forall _ _) Hqok). }
  assert (tid <> A2.current_thread st) as Hown by (by intros ->).
  pose proof (A2_table.in_table _ _ Hok Hr) as Hlen.
  exists (A2.update_slot tid (A2.set_state 0) st).
  destruct (A2_table.thread_create_ok_a2 fn parg
              (A2.update_slot tid (A2.set_state 0) st) tid stack node h)
    as (st2 & Hc & _ & Hctx & _ & Hq & _).
  { unfold A2.table_ok in *. simpl. by rewrite length_alter. }
  { split; [done|]. simpl. split.
    - by rewrite A2_facts.slot_alter_eq.
    - intros j Hj. rewrite A2_facts.slot_alter_ne by lia. by apply Hbelow. }
  { done. }
  exists st2. split.
  { apply A2_table.thread_kill_marks_a2; try done. lia. }
  split; [done|]. split; [done|]. split; [done|]. split; [done|].
  rewrite Hq. simpl. intros Hnd. apply NoDup_app in Hnd as (_ & Hdis & _).
  apply (Hdis tid Hin). apply list_elem_of_singleton. done.
Qed.

(** X13.  In [A2/thread.c] a thread that is killed while parked in
    [thread_yield] is not reaped: [thread_kill] writes 0 to its slot, not
    3, so when the thread at the head of the ready queue has been killed
    and the caller yields to "any", the killed thread finds neither 3 nor 2
    in its slot, marks itself as waiting again and switches on to the
    thread it had once asked for, without queueing itself.  When that
    thread is the caller, the caller's [thread_yield] returns the killed
    thread's identifier while the caller's own identifier sits in the
    ready queue.  The starting
    state is one where the table is whole, the caller's slot is marked
    active and the ready queue holds identifiers of the table other than
    the caller's. *)
Theorem a2_killed_parked_thread_is_not_reaped (st : A2.runtime) (t w : Z)
    (e : bool) (rest : list Z) (node : Z) (h : list (option Z)) :
  A2.running_ok st ->
  A2.ready_head st = t :: rest ->
  A2.state (A2.slot (A2.threads st) t) <> 0 ->
  A2.context (A2.slot (A2.threads st) t) = A2.InYield w e ->
  A2.heap369 st = Some node :: h ->
  exists st1 st2,
    A2.thread_kill t st = A2.Return t st1
    /\ A2.run 1 (A2.thread_yield THREAD_ANY st1) = A2.Setcontext st2
    /\ A2.current_thread st2 = w
    /\ A2.state (A2.slot (A2.threads st2) t) = 2
    /\ A2.ready_head st2 = rest ++ [A2.current_thread st]
    /\ (w = A2.current_thread st ->
        exists st3,
          A2.run 2 (A2.thread_yield THREAD_ANY st1) = A2.Return t st3
          /\ A2.current_thread st3 = A2.current_thread st
          /\ A2.current_thread st3 ∈ A2.ready_head st3
          /\ A2.state (A2.slot (A2.threads st3) t) = 2
          /\ A2.interrupts_enabled st3 = A2.interrupts_enabled st).
Proof.
  intros Hrun Hq Hlive Hctx Hheap.
  pose proof Hrun as (Hok & Hcur & Hst & Hqok & Hnq).
  pose proof max_threads_range as Hmax.
  assert (0 <= t < THREAD_MAX_THREADS) as Hr.
  { rewrite Hq in Hqok. by apply Forall_cons in Hqok as [? _]. }
  assert (t <> A2.current_thread st) as Hown.
  { intros ->. apply Hnq. rewrite Hq. apply elem_of_cons. by left. }
  pose proof (A2_table.in_table _ _ Hok Hr) as Hlen.
  set (st1 := A2.update_slot t (A2.set_state 0) st).
  assert (A2.running_ok st1) as Hrun1.
  { split; [unfold A2.table_ok in *; simpl; by rewrite length_alter|].
    split; [done|]. split; [|done]. simpl.
    rewrite A2_facts.slot_alter_ne; [done|lia]. }
  destruct (A2_more.thread_yield_head_slots THREAD_ANY st1 t rest node h Hrun1)
    as (s2 & Hy & Hc2 & Hq2 & Hok2 & _ & _ & Hcaller & Hothers);
    [done|by left|done|].
  assert (A2.slot (A2.threads s2) t = A2.set_state 0 (A2.slot (A2.threads st) t))
    as Hslot_t.
  { rewrite Hothers; [|lia|done]. subst st1. simpl.
    by rewrite A2_facts.slot_alter_eq. }
  assert (A2.resume s2 = A2.yield_from_getcontext w e s2) as Hres.
  { unfold A2.resume. rewrite Hc2, Hslot_t. simpl. by rewrite Hctx. }
  destruct (A2_more.switch_slots w e s2 Hok2)
    as (s3 & Hy3 & Hc3 & Hq3 & Hok3 & Hb3 & Hs3 & Hothers3).
  { by rewrite Hc2. }
  { by rewrite Hc2, Hslot_t. }
  { by rewrite Hc2, Hslot_t. }
  rewrite Hc2 in Hs3, Hothers3.
  exists st1, s3. split.
  { apply A2_table.thread_kill_marks_a2; try done. lia. }
  rewrite Hy. cbn [A2.run]. rewrite Hres, Hy3.
  split; [done|]. split; [done|]. split; [by rewrite Hs3|].
  split; [by rewrite Hq3, Hq2|].
  intros ->.
  assert (A2.slot (A2.threads s3) (A2.current_thread st)
          = A2.set_state 2
              (A2.set_context (A2.InYield t (A2.interrupts_enabled st))
                 (A2.slot (A2.threads st1) (A2.current_thread st)))) as Hslot_c.
  { rewrite Hothers3; [|lia|done]. exact Hcaller. }
  rewrite (A2_dispatch.resume_parked_a2 s3 t (A2.interrupts_enabled st));
    [| by rewrite Hc3, Hslot_c ..].
  eexists. split; [reflexivity|]. rewrite A2_yield.free_stuff_eq_a2. simpl.
  rewrite Hc3, Hq3, Hq2. split; [done|].
  split; [apply elem_of_app; right; by apply list_elem_of_singleton|].
  split; [|done].
  rewrite A2_facts.slot_alter_ne by lia. by rewrite Hs3.
Qed.

End Extra_A2.

Section Extra_A2_exit.
Context `{thread_h}.

(** X14.  [thread_exit] of [A2/thread.c] never returns to its caller.  It
    marks the caller's slot FREE at once.  With an empty ready queue the
    process exits with the given code.  Otherwise the head of the ready
    queue is dequeued and becomes the running thread, its ready node is put
    into [to_free_2] and the caller's stack into [to_free_1] (unless the
    caller's identifier is 0), no other slot changes; and when that thread
    has not started yet or is parked in [thread_yield], its user code goes
    on with both pointers freed and the caller's slot still FREE.  The starting
    state is one where the table is whole, the caller's slot is marked
    active and the ready queue holds identifiers of the table other than
    the caller's. *)
Theorem a2_thread_exit_hands_over (code : Z) (st : A2.runtime) :
  A2.running_ok st ->
  (A2.ready_head st = [] -> A2.thread_exit code st = A2.Exit code)
  /\ (forall n rest,
        A2.ready_head st = n :: rest ->
        exists st1,
          A2.thread_exit code st = A2.Setcontext st1
          /\ A2.current_thread st1 = n
          /\ A2.ready_head st1 = rest
          /\ A2.to_free_2 st1 = Some n
          /\ (A2.TID (A2.slot (A2.threads st) (A2.current_thread st)) <> 0 ->
              A2.to_free_1 st1
              = A2.thread_stack (A2.slot (A2.threads st) (A2.current_thread st)))
          /\ A2.slot (A2.threads st1) (A2.current_thread st)
             = A2.set_state 0 (A2.slot (A2.threads st) (A2.current_thread st))
          /\ (forall i, 0 <= i -> i <> A2.current_thread st ->
                A2.slot (A2.threads st1) i = A2.slot (A2.threads st) i)
          /\ ((A2.state (A2.slot (A2.threads st) n) = 1
               /\ exists fn parg,
                    A2.context (A2.slot (A2.threads st) n) = A2.Bootstrap fn parg)
              \/ (A2.state (A2.slot (A2.threads st) n) = 2
                  /\ exists w e,
                       A2.context (A2.slot (A2.threads st) n) = A2.InYield w e) ->
              exists st2,
                A2.user_state (A2.resume st1) = Some st2
                /\ A2.current_thread st2 = n
                /\ A2.ready_head st2 = rest
                /\ A2.state (A2.slot (A2.threads st2) n) = 1
                /\ A2.state (A2.slot (A2.threads st2) (A2.current_thread st)) = 0
                /\ A2.buffer_empty st2)).
Proof.
  intros (Hok & Hcur & Hst & Hqok & Hnq).
  pose proof (A2_table.in_table _ _ Hok Hcur) as Hlen.
  split.
  { intros Hq. unfold A2.thread_exit. simpl. by rewrite Hq. }
  intros n rest Hq.
  assert (0 <= n < THREAD_MAX_THREADS) as Hn.
  { rewrite Hq in Hqok. by apply Forall_cons in Hqok as [? _]. }
  assert (n <> A2.current_thread st) as Hne.
  { intros ->. apply Hnq. rewrite Hq. apply elem_of_cons. by left. }
  unfold A2.thread_exit. simpl. rewrite Hq.
  eexists. split; [reflexivity|].
  set (b := negb _).
  assert (A2.slot (alter (A2.set_state 0) (Z.to_nat (A2.current_thread st))
                     (A2.threads st)) (A2.current_thread st)
          = A2.set_state 0 (A2.slot (A2.threads st) (A2.current_thread st)))
    as Hslot_c by (by rewrite A2_facts.slot_alter_eq).
  assert (forall i, 0 <= i -> i <> A2.current_thread st ->
            A2.slot (alter (A2.set_state 0) (Z.to_nat (A2.current_thread st))
                       (A2.threads st)) i = A2.slot (A2.threads st) i)
    as Hslot_i.
  { intros i Hi Hd. rewrite A2_facts.slot_alter_ne; [done|lia]. }
  split; [by destruct b|]. split; [by destruct b|]. split; [by destruct b|].
  split.
  { intros Htid. subst b. rewrite Hslot_c. simpl.
    apply Z.eqb_neq in Htid. by rewrite Htid. }
  split; [by destruct b|]. split; [by destruct b|].
  set (st1 := A2.set_ready_head rest _).
  assert (A2.threads st1
          = alter (A2.set_state 0) (Z.to_nat (A2.current_thread st))
              (A2.threads st)) as Hts by (subst st1; by destruct b).
  assert (A2.current_thread st1 = n) as Hc1 by (subst st1; by destruct b).
  assert (A2.ready_head st1 = rest) as Hq1 by (subst st1; by destruct b).
  clearbody st1.
  intros [(Hstn & fn & parg & Hctx)|(Hstn & w & e & Hctx)].
  - rewrite (A2_dispatch.resume_bootstrap_a2 st1 fn parg).
    + eexists. split; [reflexivity|]. rewrite A2_yield.free_stuff_eq_a2. simpl.
      rewrite Hts, Hc1, Hq1, Hslot_c, Hslot_i by (done || lia). done.
    + rewrite Hts, Hc1, Hslot_i by (done || lia). done.
  - rewrite (A2_dispatch.resume_parked_a2 st1 w e).
    + eexists. split; [reflexivity|]. rewrite A2_yield.free_stuff_eq_a2. simpl.
      rewrite Hts, Hc1, Hq1. split; [done|]. split; [done|].
      rewrite A2_facts.slot_alter_eq
        by (rewrite length_alter; by apply A2_table.in_table).
      split; [done|]. rewrite A2_facts.slot_alter_ne by lia.
      by rewrite Hslot_c.
    + rewrite Hts, Hc1, Hslot_i by (done || lia). done.
    + rewrite Hts, Hc1, Hslot_i by (done || lia). done.
Qed.

(** X15.  In [A2/thread.c] user code never runs with a deferred free
    pending, and a new thread's function always starts with interrupts
    enabled: if control, after any number of context switches that
    [thread_yield] or [thread_exit] sets off, comes back to user code,
    [to_free_1] and [to_free_2] are both [NULL], unless [thread_yield]
    failed at once (then only the interrupt flag has changed); and when it
    comes back by starting a thread's function, interrupts are on. *)
Theorem a2_no_pending_frees_in_user_code (n : nat) (st st' : A2.runtime) :
  (forall want_tid,
     A2.user_state (A2.run n (A2.thread_yield want_tid st)) = Some st' ->
     A2.buffer_empty st'
     \/ (st' = A2.set_interrupts_enabled false st
         /\ exists v, A2.thread_yield want_tid st = A2.Return v st'
                      /\ (v = THREAD_NONE \/ v = THREAD_INVALID)))
  /\ (forall exit_code,
        A2.user_state (A2.run n (A2.thread_exit exit_code st)) = Some st' ->
        A2.buffer_empty st')
  /\ (forall want_tid fn parg,
        A2.run n (A2.thread_yield want_tid st) = A2.CallMain fn parg st' ->
        A2.interrupts_enabled st' = true)
  /\ (forall exit_code fn parg,
        A2.run n (A2.thread_exit exit_code st) = A2.CallMain fn parg st' ->
        A2.interrupts_enabled st' = true).
Proof.
  set (clean := fun o : A2.outcome =>
         (A2.user_state o = Some st' -> A2.buffer_empty st')
         /\ (forall fn parg, o = A2.CallMain fn parg st' ->
                             A2.interrupts_enabled st' = true)).
  assert (forall code s k,
            (forall s0, clean (A2.run k (A2.Setcontext s0))) ->
            clean (A2.run k (A2.thread_exit code s))) as Hexit.
  { intros code s k Hsw. unfold A2.thread_exit. simpl.
    destruct (A2.ready_head s); [by destruct k|]. apply Hsw. }
  assert (forall w e s k,
            (forall s0, clean (A2.run k (A2.Setcontext s0))) ->
            clean (A2.run k (A2.yield_from_getcontext w e s))) as Hyield.
  { intros w e s k Hsw. unfold A2.yield_from_getcontext.
    rewrite A2_yield.free_stuff_eq_a2. simpl.
    destruct (A2.state _ =? 3); [by apply Hexit|].
    destruct (A2.state _ =? 2); [|apply Hsw].
    rewrite A2_more.run_done_a2 by done. split; [|done].
    simpl. by intros [= <-]. }
  assert (forall k s0, clean (A2.run k (A2.Setcontext s0))) as Hsw.
  { induction k as [|k IH]; intros s0; [done|]. simpl. unfold A2.resume.
    destruct (A2.context _) as [|fn parg|w e].
    - apply IH.
    - unfold A2.thread_stub. simpl. rewrite A2_more.run_done_a2 by done.
      rewrite A2_yield.free_stuff_eq_a2. split.
      + simpl. by intros [= <-].
      + by intros ? ? [= _ _ <-].
    - by apply Hyield. }
  assert (forall want_tid,
            clean (A2.run n (A2.thread_yield want_tid st))
            \/ exists v,
                 A2.thread_yield want_tid st
                 = A2.Return v (A2.set_interrupts_enabled false st)
                 /\ (v = THREAD_NONE \/ v = THREAD_INVALID)) as Hy.
  { intros want_tid. unfold A2.thread_yield, A2.ready_enqueue, A2.malloc369.
    simpl.
    repeat match goal with
           | |- context [if ?b then _ else _] => destruct b
           | |- context [match A2.ready_head st with _ => _ end] =>
               destruct (A2.ready_head st)
           | |- context [match A2.heap369 st with _ => _ end] =>
               destruct (A2.heap369 st) as [|[?|] ?]
           | |- context [match A2.unlink ?a ?b with _ => _ end] =>
               destruct (A2.unlink a b) as [[? ?]|]
           end; simpl;
      try (left; apply Hyield, Hsw);
      right; eexists; (split; [reflexivity|]); auto. }
  split; [|split; [|split]].
  - intros want_tid Hu. destruct (Hy want_tid) as [[Hc _]|(v & Hr & Hv)].
    + left. by apply Hc.
    + right. rewrite Hr, A2_more.run_done_a2 in Hu by done.
      injection Hu as <-. split; [done|]. by exists v.
  - intros code. apply Hexit, Hsw.
  - intros want_tid fn parg Hr. destruct (Hy want_tid) as [[_ Hc]|(v & Hr' & _)].
    + by apply (Hc fn parg).
    + rewrite Hr', A2_more.run_done_a2 in Hr by done. discriminate.
  - intros code fn parg. apply Hexit, Hsw.
Qed.

End Extra_A2_exit.

(** X10 from the zeroed table: the runtime is in order and the first
    thread gets identifier 1. *)
Lemma a2_thread_init_resets_table_witness :
  A2.running_ok (Sample.a2_boot [Some 100; Some 101])
  /\ exists st',
       A2.thread_create 7 8 (Sample.a2_boot [Some 100; Some 101])
       = A2.Return 1 st'
       /\ A2.ready_head st' = [1].
Proof.
  destruct (a2_thread_init_resets_table
              (A2.mk_runtime 0
                 (replicate (Z.to_nat THREAD_MAX_THREADS) A2.zero_thread)
                 None None [] true [Some 100; Some 101]))
    as (_ & _ & _ & _ & Hok & Hcreate).
  - vm_compute. reflexivity.
  - split; [exact (Hok eq_refl)|].
    destruct (Hcreate 7 8 100 101 []) as (st' & Hc & Hq & _).
    + vm_compute. reflexivity.
    + reflexivity.
    + exists st'. split; [exact Hc|exact Hq].
Defined.

(** X11 with three threads queued and no memory left: thread 1 runs
    and the ready queue holds 2 and 3 only. *)
Lemma a2_thread_yield_without_memory_loses_caller_witness :
  A2.running_ok (A2.set_heap369 [] Sample.a2_three)
  /\ exists st',
       A2.thread_yield THREAD_ANY (A2.set_heap369 [] Sample.a2_three)
       = A2.Setcontext st'
       /\ A2.current_thread st' = 1
       /\ A2.ready_head st' = [2; 3].
Proof.
  assert (A2.running_ok (A2.set_heap369 [] Sample.a2_three)) as Hok
    by exact a2_three_running_ok.
  split; [exact Hok|].
  destruct (a2_thread_yield_without_memory_loses_caller THREAD_ANY
              (A2.set_heap369 [] Sample.a2_three) 1 [2; 3] Hok)
    as (st' & Hy & Hc & Hq & _).
  - vm_compute. reflexivity.
  - by left.
  - vm_compute. reflexivity.
  - exists st'. split; [exact Hy|]. split; [exact Hc|exact Hq].
Defined.

(** X12 with three threads queued: thread 1 is killed, the next
    [thread_create] returns 1 and the ready queue is 1, 2, 3, 1. *)
Lemma a2_killed_identifier_is_queued_twice_witness :
  A2.ready_head Sample.a2_three = [1; 2; 3]
  /\ exists st1 st2,
       A2.thread_kill 1 Sample.a2_three = A2.Return 1 st1
       /\ A2.thread_create 7 8 st1 = A2.Return 1 st2
       /\ A2.ready_head st2 = [1; 2; 3; 1].
Proof.
  split; [vm_compute; reflexivity|].
  destruct (a2_killed_identifier_is_queued_twice 7 8 1 Sample.a2_three
              106 107 [] a2_three_running_ok)
    as (st1 & st2 & Hk & _ & Hc & Hq & _).
  - apply (bool_decide_unpack _). vm_compute. exact I.
  - vm_compute. discriminate.
  - intros j Hj. assert (j = 0) as -> by lia. vm_compute. discriminate.
  - vm_compute. reflexivity.
  - exists st1, st2. split; [exact Hk|]. split; [exact Hc|].
    rewrite Hq. vm_compute. reflexivity.
Defined.

(** X13 with thread 1 running and the initial thread parked: thread 1
    kills thread 0 and yields; its [thread_yield] returns 0, thread 0 is
    marked as waiting and thread 1 sits in the ready queue itself. *)
Lemma a2_killed_parked_thread_is_not_reaped_witness :
  exists st st1 st3,
    A2.run 1 (A2.thread_yield THREAD_ANY
                (Sample.a2_after
                   (A2.thread_create 7 8
                      (Sample.a2_boot [Some 100; Some 101; Some 102; Some 103]))))
    = A2.CallMain 7 8 st
    /\ A2.current_thread st = 1
    /\ A2.ready_head st = [0]
    /\ A2.thread_kill 0 st = A2.Return 0 st1
    /\ A2.run 2 (A2.thread_yield THREAD_ANY st1) = A2.Return 0 st3
    /\ A2.current_thread st3 = 1
    /\ A2.ready_head st3 = [1]
    /\ A2.state (A2.slot (A2.threads st3) 0) = 2.
Proof.
  eexists. 
  destruct (a2_killed_parked_thread_is_not_reaped
              (Sample.a2_after
                 (A2.run 1 (A2.thread_yield THREAD_ANY
                   (Sample.a2_after
                     (A2.thread_create 7 8
                       (Sample.a2_boot
                          [Some 100; Some 101; Some 102; Some 103]))))))
              0 1 true [] 103 [])
    as (st1 & st2 & Hk & _ & _ & _ & _ & Hback).
  - split; [vm_compute; reflexivity|].
    split; [vm_compute; split; [discriminate|reflexivity]|].
    split; [vm_compute; reflexivity|]. split.
    + vm_compute. repeat constructor; discriminate.
    + apply (bool_decide_unpack _). vm_compute. exact I.
  - vm_compute. reflexivity.
  - vm_compute. discriminate.
  - vm_compute. reflexivity.
  - vm_compute. reflexivity.
  - destruct (Hback ltac:(vm_compute; reflexivity))
      as (st3 & Hr & Hc & _ & Hs & _).
    exists st1, st3.
    split; [vm_compute; reflexivity|].
    split; [vm_compute; reflexivity|].
    split; [vm_compute; reflexivity|].
    split; [exact Hk|]. split; [exact Hr|].
    split; [rewrite Hc; vm_compute; reflexivity|].
    split; [|exact Hs].
    vm_compute in Hk. injection Hk as <-. vm_compute in Hr.
    injection Hr as <-. vm_compute. reflexivity.
Defined.

(** X14 with three threads queued: the initial thread exits, thread 1
    runs with 2 and 3 queued and slot 0 is FREE. *)
Lemma a2_thread_exit_hands_over_witness :
  A2.running_ok Sample.a2_three
  /\ exists st1 st2,
       A2.thread_exit 0 Sample.a2_three = A2.Setcontext st1
       /\ A2.user_state (A2.resume st1) = Some st2
       /\ A2.current_thread st2 = 1
       /\ A2.ready_head st2 = [2; 3]
       /\ A2.state (A2.slot (A2.threads st2) 0) = 0.
Proof.
  split; [exact a2_three_running_ok|].
  destruct (a2_thread_exit_hands_over 0 Sample.a2_three a2_three_running_ok)
    as (_ & Hex).
  destruct (Hex 1 [2; 3] ltac:(vm_compute; reflexivity))
    as (st1 & He & _ & _ & _ & _ & _ & _ & Hgo).
  destruct Hgo as (st2 & Hu & Hc & Hq & _ & Hs & _).
  - left. split; [vm_compute; reflexivity|]. exists 7, 8.
    vm_compute. reflexivity.
  - exists st1, st2. split; [exact He|]. split; [exact Hu|].
    split; [exact Hc|]. split; [exact Hq|]. exact Hs.
Defined.

(** X15 with the initial thread exiting: the ready node of thread 1 is
    pending at the switch and freed by the time thread 1 starts, with
    interrupts on. *)
Lemma a2_no_pending_frees_in_user_code_witness :
  exists st',
    A2.user_state (A2.run 1 (A2.thread_exit 0 Sample.a2_three)) = Some st'
    /\ A2.to_free_2 (Sample.a2_after (A2.thread_exit 0 Sample.a2_three))
       = Some 1
    /\ A2.buffer_empty st'
    /\ A2.interrupts_enabled st' = true.
Proof.
  eexists. split; [vm_compute; reflexivity|].
  split; [vm_compute; reflexivity|].
  destruct (a2_no_pending_frees_in_user_code 1 Sample.a2_three
              (Sample.a2_after (A2.run 1 (A2.thread_exit 0 Sample.a2_three))))
    as (_ & Hb & _ & Hi).
  split.
  - apply (Hb 0). vm_compute. reflexivity.
  - apply (Hi 0 7 8). vm_compute. reflexivity.
Defined.

(** * Further facts about the wait queues *)
Module A2L_more.
Import A2L A2L_chain A2L_facts A2L_wakeup.

(** A block of a chain other than its last one points at a block of the
    chain. *)
Lemma chain_inner (b : gmap Z thread) (p : option Z) (l : list Z) (x : Z) :
  chain b p l -> x ∈ l -> last l <> Some x ->
  exists t y, b !! x = Some t /\ next t = Some y /\ y ∈ l.
Proof.
  revert p. induction l as [|a l IH]; intros p; simpl.
  - by intros _ ?%elem_of_nil.
  - intros (-> & t & Ht & Hc) Hx Hlast.
    destruct l as [|a' l].
    + apply list_elem_of_singleton in Hx as ->. by destruct Hlast.
    + apply elem_of_cons in Hx as [->|Hx].
      * exists t, a'. split; [done|]. simpl in Hc. destruct Hc as (Hn & _).
        split; [done|]. apply elem_of_cons. right. apply elem_of_cons. by left.
      * destruct (IH _ Hc Hx) as (t' & y & Ht' & Hn & Hy); [done|].
        exists t', y. split; [done|]. split; [done|]. apply elem_of_cons.
        by right.
Qed.

(** The counting loop of [thread_wakeup] never reaches [NULL] from a block
    of a set of blocks that is closed under [next]. *)
Lemma count_from_closed (b : gmap Z thread) (l : list Z) :
  (forall x, x ∈ l -> exists t y, b !! x = Some t /\ next t = Some y /\ y ∈ l) ->
  forall budget x num, x ∈ l -> count_from budget (Some x) b num = Cycle.
Proof.
  intros Hclosed. induction budget as [|budget IH]; intros x num Hx; [done|].
  simpl. destruct (Hclosed x Hx) as (t & y & -> & -> & Hy). by apply IH.
Qed.

Lemma last_app_nonempty (l1 l2 : list Z) :
  l2 <> [] -> last (l1 ++ l2) = last l2.
Proof.
  intros Hne. destruct l2 as [|a l2 _] using rev_ind; [done|].
  by rewrite app_assoc, !last_snoc.
Qed.

End A2L_more.

Section Extra_A2L.
Context `{thread_h}.

(** X16.  [wait_queue_create] and [wait_queue_destroy] of [A2/thread.c]:
    when the allocation fails the assertion aborts; otherwise the new
    queue is empty, so [thread_wakeup] on it wakes nobody and returns 0
    whatever [all] is, and destroying it (at an address that held no wait
    queue before) gives back the wait queues as they were. *)
Theorem a2l_wait_queue_create_then_destroy (m : A2L.machine) :
  (fst (A2L.malloc369 m) = None -> A2L.wait_queue_create m = A2L.Abort)
  /\ (forall wq h,
        A2L.heap369 m = Some wq :: h ->
        exists m1,
          A2L.wait_queue_create m = A2L.Return wq m1
          /\ A2L.wait_queues m1 !! wq = Some (A2L.mk_wait_queue None)
          /\ A2L.blocks m1 = A2L.blocks m
          /\ (forall all, A2L.thread_wakeup (Some wq) all m1 = A2L.Return 0 m1)
          /\ (A2L.wait_queues m !! wq = None ->
              A2L.wait_queue_destroy wq m1 = A2L.Done (A2L.set_heap369 h m))).
Proof.
  split.
  - unfold A2L.wait_queue_create, A2L.malloc369.
    destruct (A2L.heap369 m) as [|[p|] h]; simpl; done.
  - intros wq h Hheap. unfold A2L.wait_queue_create, A2L.malloc369.
    rewrite Hheap. eexists. split; [reflexivity|]. simpl.
    split; [by rewrite lookup_insert_eq|]. split; [done|]. split.
    + intros all. unfold A2L.thread_wakeup. simpl.
      by rewrite lookup_insert_eq.
    + intros Hfresh. unfold A2L.wait_queue_destroy. simpl.
      rewrite lookup_insert_eq. simpl. rewrite delete_insert_eq.
      rewrite delete_id by done. reflexivity.
Qed.

(** X17.  Waking one by one in [A2/thread.c] (with the two-argument
    [add_to_end] as the tail append): [thread_wakeup(queue, 0)], called
    once for each thread in the wait queue, returns 1 each time, moves the
    sleepers behind the run chain in the order in which they were queued
    and leaves the wait queue empty: one more call returns 0 and
    [wait_queue_destroy] passes its assertion.  The run chain
    starts at the caller, the wait queue holds a chain of blocks, and the
    two chains share no block. *)
Theorem a2l_wakeup_one_by_one_is_fifo (m : A2L.machine) (queue : Z)
    (wq : A2L.wait_queue) (rc ws : list Z) :
  A2L.wakeup_ready m queue wq rc ws ->
  exists m' wq' m'',
    A2L.wakeup_one_by_one (length ws) queue m = Some m'
    /\ A2L.current_thread m' = A2L.current_thread m
    /\ A2L.interrupts_enabled m' = A2L.interrupts_enabled m
    /\ A2L.chain (A2L.blocks m') (Some (A2L.current_thread m)) (rc ++ ws)
    /\ A2L.wait_queues m' !! queue = Some wq'
    /\ A2L.head wq' = None
    /\ A2L.thread_wakeup (Some queue) 0 m' = A2L.Return 0 m'
    /\ A2L.wait_queue_destroy queue m' = A2L.Done m''.
Proof.
  revert m wq rc. induction ws as [|w ws IH]; intros m wq rc Hready.
  - destruct Hready as [Hrun Hq Hwait _]. simpl in Hwait.
    exists m, wq. eexists. split; [done|]. split; [done|]. split; [done|].
    rewrite app_nil_r. split; [done|]. split; [done|]. split; [done|].
    split.
    + by apply (A2L_wakeup.thread_wakeup_empty_a2l m queue wq 0).
    + unfold A2L.wait_queue_destroy. rewrite Hq, Hwait. reflexivity.
  - destruct (A2L_wakeup.thread_wakeup_one_a2l m queue wq rc w ws Hready)
      as (m1 & wq1 & Hw & Hc1 & Hi1 & Hrun1 & Hq1 & Hwait1).
    destruct Hready as [Hrun Hq Hwait Hapart].
    pose proof (A2L_chain.chain_NoDup _ _ _ Hwait) as Hnd.
    apply NoDup_cons in Hnd as [Hw_not _].
    destruct (IH m1 wq1 (rc ++ [w])) as (m' & wq' & m'' & Hall & Hc & Hi & Hr & Hrest).
    { split; [by rewrite Hc1|done|done|].
      intros x Hx Hin. apply elem_of_app in Hin as [Hin|Hin].
      - apply (Hapart x); [|done]. apply elem_of_cons. by right.
      - apply list_elem_of_singleton in Hin as ->. done. }
    exists m', wq', m''. cbn [length A2L.wakeup_one_by_one]. rewrite Hw.
    change (1 =? 1) with true. cbv iota.
    split; [done|]. split; [by rewrite Hc, Hc1|]. split; [by rewrite Hi, Hi1|].
    rewrite Hc1, <- app_assoc in Hr. done.
Qed.

(** X18.  After [thread_wakeup(queue, 1)] has woken a non-empty queue in
    [A2/thread.c], a second such call on the same queue never returns
    (with the two-argument [add_to_end] as the tail append): the queue's
    head still points at the first woken block, which is on the run chain
    by now, so [add_to_end] links the chain's last block back to it, and
    the counting loop [while (curr != NULL)] walks a cycle, whatever
    number of steps it is given.  The run chain
    starts at the caller, the wait queue holds a chain of blocks, and the
    two chains share no block. *)
Theorem a2l_second_wakeup_all_never_returns (m : A2L.machine) (queue : Z)
    (wq : A2L.wait_queue) (all all' : Z) (rc ws : list Z) :
  A2L.wakeup_ready m queue wq rc ws ->
  ws <> [] -> all <> 0 -> all' <> 0 ->
  exists m' h b,
    A2L.thread_wakeup (Some queue) all m
    = A2L.Return (Z.of_nat (length ws)) m'
    /\ A2L.wait_queues m' !! queue = Some wq
    /\ A2L.head wq = Some h
    /\ A2L.add_to_end (A2L.current_thread m') h (A2L.blocks m') = A2L.Walked b
    /\ (forall budget num, A2L.count_from budget (Some h) b num = A2L.Cycle)
    /\ A2L.thread_wakeup (Some queue) all' m' = A2L.Diverges.
Proof.
  intros Hready Hne Hall Hall'.
  destruct (A2L_wakeup.thread_wakeup_all_a2l m queue wq all rc ws Hready Hne Hall)
    as (m' & Hw & Hc & Hi & Hrun & Hqs & Hwait).
  destruct Hready as [_ Hq _ _].
  destruct ws as [|h ws']; [done|]. pose proof Hwait as (Hhead & _).
  pose proof (A2L_chain.chain_length _ _ _ Hrun) as Hlen.
  rewrite <- Hc in Hrun.
  destruct (A2L_chain.add_to_end_from_last (size (A2L.blocks m')) (A2L.blocks m')
              (A2L.current_thread m') h (rc ++ h :: ws') Hrun Hlen)
    as (z & tz & Hlast & Hz & Hnz & Hadd).
  rewrite A2L_more.last_app_nonempty in Hlast by done.
  set (b := <[z := A2L.set_next (Some h) tz]> (A2L.blocks m')).
  assert (forall budget x num,
            x ∈ h :: ws' -> A2L.count_from budget (Some x) b num = A2L.Cycle)
    as Hloop.
  { apply A2L_more.count_from_closed. intros x Hx.
    destruct (decide (x = z)) as [->|Hxz].
    - exists (A2L.set_next (Some h) tz), h. subst b.
      rewrite lookup_insert_eq. split; [done|]. split; [done|].
      apply elem_of_cons. by left.
    - destruct (A2L_more.chain_inner _ _ _ x Hwait Hx) as (t & y & Ht & Hn & Hy).
      { rewrite Hlast. intros [= ->]. done. }
      exists t, y. subst b. rewrite lookup_insert_ne by done. done. }
  exists m', h, b. split; [done|]. split; [by rewrite Hqs|]. split; [done|].
  split; [done|]. split.
  { intros budget num. apply Hloop. apply elem_of_cons. by left. }
  unfold A2L.thread_wakeup. rewrite Hqs, Hq, Hhead. simpl.
  apply Z.eqb_neq in Hall'. rewrite Hall'. simpl.
  unfold A2L.add_to_end in Hadd. unfold A2L.add_to_end. rewrite Hadd. simpl.
  fold b. rewrite Hloop; [done|]. apply elem_of_cons. by left.
Qed.

End Extra_A2L.

(** X16 with the next allocation at address 2: the queue is created,
    found empty and destroyed, and memory is as before. *)
Lemma a2l_wait_queue_create_then_destroy_witness :
  exists m1,
    A2L.wait_queue_create (A2L.set_heap369 [Some 2] Sample.a2l_one_sleeper)
    = A2L.Return 2 m1
    /\ A2L.thread_wakeup (Some 2) 1 m1 = A2L.Return 0 m1
    /\ A2L.wait_queue_destroy 2 m1 = A2L.Done Sample.a2l_one_sleeper.
Proof.
  destruct (a2l_wait_queue_create_then_destroy
              (A2L.set_heap369 [Some 2] Sample.a2l_one_sleeper)) as (_ & Hok).
  destruct (Hok 2 [] eq_refl) as (m1 & Hc & _ & _ & Hw & Hd).
  exists m1. split; [exact Hc|]. split; [exact (Hw 1)|].
  apply Hd. vm_compute. reflexivity.
Defined.

(** X17 with one sleeper: one call moves it behind the caller and the
    queue can be destroyed. *)
Lemma a2l_wakeup_one_by_one_is_fifo_witness :
  A2L.wakeup_ready Sample.a2l_one_sleeper 1 (A2L.mk_wait_queue (Some 20))
    [10] [20]
  /\ exists m' m'',
       A2L.wakeup_one_by_one 1 1 Sample.a2l_one_sleeper = Some m'
       /\ A2L.chain (A2L.blocks m') (Some 10) [10; 20]
       /\ A2L.wait_queue_destroy 1 m' = A2L.Done m''.
Proof.
  split; [exact a2l_one_sleeper_wakeup_ready|].
  destruct (a2l_wakeup_one_by_one_is_fifo Sample.a2l_one_sleeper 1
              (A2L.mk_wait_queue (Some 20)) [10] [20]
              a2l_one_sleeper_wakeup_ready)
    as (m' & wq' & m'' & Hw & _ & _ & Hr & _ & _ & _ & Hd).
  exists m', m''. split; [exact Hw|]. split; [exact Hr|exact Hd].
Defined.

(** X18 with one sleeper: the first call returns 1, the second one
    does not return. *)
Lemma a2l_second_wakeup_all_never_returns_witness :
  A2L.wakeup_ready Sample.a2l_one_sleeper 1 (A2L.mk_wait_queue (Some 20))
    [10] [20]
  /\ exists m',
       A2L.thread_wakeup (Some 1) 1 Sample.a2l_one_sleeper = A2L.Return 1 m'
       /\ A2L.thread_wakeup (Some 1) 1 m' = A2L.Diverges.
Proof.
  split; [exact a2l_one_sleeper_wakeup_ready|].
  destruct (a2l_second_wakeup_all_never_returns Sample.a2l_one_sleeper 1
              (A2L.mk_wait_queue (Some 20)) 1 1 [10] [20]
              a2l_one_sleeper_wakeup_ready)
    as (m' & h & b & Hw & _ & _ & _ & _ & Hd);
    [discriminate|discriminate|discriminate|].
  exists m'. split; [exact Hw|exact Hd].
Defined.
